(** * Spatial weights container [W] of pysal/weights/__init__.py

    A shallow embedding of the class [W]: its constructor, indexing and
    iteration, the [id_order], [neighbor_offsets] and [transform]
    properties, the characteristics pass and the asymmetry check, followed
    by the properties of the transformation and characteristics engine.
    The methods [full], [shimbel], [order] and [higher_order] only call
    functions of other modules and are not part of the embedding.

    Conventions of the embedding.
    - A Python [dict] is an association list in iteration order; lookups
      take the first entry of a key, [d[k] = v] overwrites in place or
      appends.  The order in which a Python 2 dict enumerates its keys is
      that of its hash table; the order of the association list stands for
      it.  For a mapping given to the class call it is whatever order the
      caller's dict has; for a mapping the code builds ([cardinalities],
      the transformed weights) the order of insertion is a convention of
      the embedding, and a statement about such a mapping is meant up to
      the arrangement of its entries.  No method of [W] mutates a weights
      mapping in place (every transform builds a fresh mapping), so sharing
      between [self.weights] and [self.transformations] is immaterial and
      mappings are values.
    - Python integers are [Z]; weights are numbers of an abstract type [F]
      with Python's arithmetic as a type class, instantiated further down
      with Python's int/float numbers over binary64 floats.  The operations
      of the class are total but for division by zero and the square root
      of a negative number: that a call returns is stated for weights on
      which Python's arithmetic raises nothing else (no [OverflowError]).
    - A method is a computation in a state, output and exception monad [M]:
      the object after the call, the lines printed, and either the exception
      raised or the value returned. *)

From Stdlib Require Import ZArith List Permutation.
From Stdlib Require PrimFloat SpecFloat FloatOps.
From stdpp Require Import base list strings sorting.

Set Default Proof Using "Type".
Local Open Scope Z_scope.

(** ** Exceptions and the pure error monad *)

Inductive exn : Type :=
  | KeyError
  | IndexError
  | ValueError
  | ZeroDivisionError
  | Exception (msg : string).

Inductive result (A : Type) : Type :=
  | Raise (e : exn)
  | Ok (a : A).
Arguments Raise {A} e.
Arguments Ok {A} a.

#[global] Instance result_ret : MRet result := fun A a => Ok a.
#[global] Instance result_bind : MBind result := fun A B f m =>
  match m with
  | Raise e => Raise e
  | Ok a => f a
  end.

Definition is_ok {A} (r : result A) : bool :=
  match r with Ok _ => true | Raise _ => false end.

(** [for x in l: a = f(a, x)] with exceptions. *)
Fixpoint foldM {A B} (f : A -> B -> result A) (a : A) (l : list B) : result A :=
  match l with
  | [] => Ok a
  | x :: l' => a' ← f a x; foldM f a' l'
  end.

(** A list comprehension [[f(x) for x in l]] whose body may raise. *)
Fixpoint comprehension {A B} (f : A -> result B) (l : list A) : result (list B) :=
  match l with
  | [] => Ok []
  | x :: l' => y ← f x; ys ← comprehension f l'; Ok (y :: ys)
  end.

(** ** Python lists *)

Definition len {A} (l : list A) : Z := Z.of_nat (length l).

(** [l[i]] for a non-negative index. *)
Definition list_getitem {A} (l : list A) (i : nat) : result A :=
  match l !! i with
  | Some x => Ok x
  | None => Raise IndexError
  end.

Section pylist.
Context {A : Type} `{EqDecision A}.

(** [x in l] *)
Definition contains (x : A) (l : list A) : bool := bool_decide (x ∈ l).

Fixpoint index_of (x : A) (l : list A) : option nat :=
  match l with
  | [] => None
  | y :: l' => if decide (y = x) then Some O else S <$> index_of x l'
  end.

(** [l.index(x)]: the first position of [x], ValueError when absent. *)
Definition list_index (x : A) (l : list A) : result nat :=
  match index_of x l with
  | Some p => Ok p
  | None => Raise ValueError
  end.
End pylist.

(** [enumerate(l)] *)
Definition enumerate {A} (l : list A) : list (nat * A) := imap pair l.

(** [range(a, b)] *)
Definition py_range (a b : Z) : list Z := seqZ a (b - a).

Definition sumZ (l : list Z) : Z := fold_left Z.add l 0.

(** [max(l)] and [min(l)] on integers: ValueError on the empty list. *)
Definition py_max (l : list Z) : result Z :=
  match l with
  | [] => Raise ValueError
  | x :: l' => Ok (fold_left Z.max l' x)
  end.

Definition py_min (l : list Z) : result Z :=
  match l with
  | [] => Raise ValueError
  | x :: l' => Ok (fold_left Z.min l' x)
  end.

(** ** Python dictionaries *)

Definition dict (K V : Type) : Type := list (K * V).

Section dict.
Context {K : Type} `{EqDecision K} {V : Type}.

Fixpoint dict_find (d : dict K V) (k : K) : option V :=
  match d with
  | [] => None
  | (k', v) :: d' => if decide (k' = k) then Some v else dict_find d' k
  end.

(** [d.has_key(k)], [k in d] *)
Definition has_key (d : dict K V) (k : K) : bool :=
  match dict_find d k with Some _ => true | None => false end.

(** [d[k]] *)
Definition getitem (d : dict K V) (k : K) : result V :=
  match dict_find d k with
  | Some v => Ok v
  | None => Raise KeyError
  end.

(** [d[k] = v] *)
Fixpoint setitem (d : dict K V) (k : K) (v : V) : dict K V :=
  match d with
  | [] => [(k, v)]
  | (k', v') :: d' =>
      if decide (k' = k) then (k, v) :: d' else (k', v') :: setitem d' k v
  end.

Definition keys (d : dict K V) : list K := fst <$> d.
Definition values (d : dict K V) : list V := snd <$> d.
Definition items (d : dict K V) : list (K * V) := d.
End dict.

(** ** Numbers

    The arithmetic the class uses on weights.  [pyint z] is the Python
    integer [z], [pyfloat z] the float literal of integral value [z]
    ([0.0], [1.0], [2.0]).  [x / y] raises ZeroDivisionError when [y] is
    zero and is [quot x y] otherwise; [math.sqrt] raises ValueError outside
    its domain.  [np_std] is numpy's [std] on a list of integers. *)

Class PyNum (F : Type) : Type := {
  pyint : Z -> F;
  pyfloat : Z -> F;
  add : F -> F -> F;
  mul : F -> F -> F;
  pow2 : F -> F;
  is_zero : F -> bool;
  quot : F -> F -> F;
  sqrt_opt : F -> option F;
  ne : F -> F -> bool;
  np_std : list Z -> F
}.

Section arith.
Context {F : Type} `{PyNum F}.

(** [x / y] *)
Definition pydiv (x y : F) : result F :=
  if is_zero y then Raise ZeroDivisionError else Ok (quot x y).

(** [math.sqrt(x)] *)
Definition math_sqrt (x : F) : result F :=
  match sqrt_opt x with
  | Some y => Ok y
  | None => Raise ValueError
  end.

(** [sum(l)]: the builtin starts from the integer 0. *)
Definition pysum (l : list F) : F := fold_left add l (pyint 0).
End arith.

(** [str.upper] on ASCII letters. *)
Definition upper_ascii (c : Ascii.ascii) : Ascii.ascii :=
  let n := Ascii.nat_of_ascii c in
  if (97 <=? n)%nat && (n <=? 122)%nat then Ascii.ascii_of_nat (n - 32) else c.

Fixpoint upper (s : string) : string :=
  match s with
  | EmptyString => EmptyString
  | String c s' => String (upper_ascii c) (upper s')
  end.

(** ** numpy.histogram with explicit bin edges

    [np.histogram(a, edges)] returns the counts per bin and the edges: bin
    [k] is the half-open interval from edge [k] to edge [k+1], except the
    last one, which is closed on the right. *)

Definition count_in (lo hi : Z) (closed : bool) (a : list Z) : Z :=
  len (filter (fun v => lo <= v /\ (v < hi \/ (closed = true /\ v = hi))) a).

Fixpoint hist_counts (a : list Z) (edges : list Z) : list Z :=
  match edges with
  | lo :: ((hi :: rest) as tl) =>
      match rest with
      | [] => [count_in lo hi true a]
      | _ :: _ => count_in lo hi false a :: hist_counts a tl
      end
  | _ => []
  end.

Definition np_histogram (a : list Z) (edges : list Z) : list Z * list Z :=
  (hist_counts a edges, edges).

(** [zip] of the builtins: truncates to the shorter list. *)
Definition py_zip {A B} (l1 : list A) (l2 : list B) : list (A * B) := zip l1 l2.

(** ** The object

    The attributes of a [W] instance.  The derived attributes written by
    [_characteristics] are grouped in a record of their own.  An attribute
    that is [False] or not yet created is [None]. *)

Definition asym_entry (K : Type) : Type := ((K * K) * option (K * K))%type.

Record characteristics (K F : Type) : Type := {
  s0 : F;
  s1 : F;
  s2 : F;
  cardinalities : dict K Z;
  max_neighbors : Z;
  min_neighbors : Z;
  sd : F;
  mean_neighbors : F;
  n : Z;
  pct_nonzero : F;
  nonzero : Z;
  asymmetric : Z;
  islands : list K;
  histogram : list (Z * Z)
}.
Arguments s0 {K F} c.
Arguments s1 {K F} c.
Arguments s2 {K F} c.
Arguments cardinalities {K F} c.
Arguments max_neighbors {K F} c.
Arguments min_neighbors {K F} c.
Arguments sd {K F} c.
Arguments mean_neighbors {K F} c.
Arguments n {K F} c.
Arguments pct_nonzero {K F} c.
Arguments nonzero {K F} c.
Arguments asymmetric {K F} c.
Arguments islands {K F} c.
Arguments histogram {K F} c.

Record W (K F : Type) : Type := {
  neighbors : dict K (list K);
  weights : dict K (list F);
  transformations : dict string (dict K (list F));
  _id_order : list K;
  _id_order_set : bool;
  _W__neighbors_0 : option (dict K (list nat));
  neighbor_0_ids : option (dict K (list nat));
  _idx : Z;
  n_1 : Z;
  _transform : option string;
  chars : characteristics K F
}.
Arguments neighbors {K F} w.
Arguments weights {K F} w.
Arguments transformations {K F} w.
Arguments _id_order {K F} w.
Arguments _id_order_set {K F} w.
Arguments _W__neighbors_0 {K F} w.
Arguments neighbor_0_ids {K F} w.
Arguments _idx {K F} w.
Arguments n_1 {K F} w.
Arguments _transform {K F} w.
Arguments chars {K F} w.

Section setters.
Context {K F : Type}.
#[local] Abbreviation C := (characteristics K F).
#[local] Abbreviation W := (W K F).

Definition with_s0 (v : F) (c : C) : C :=
  {| s0 := v; s1 := s1 c; s2 := s2 c; cardinalities := cardinalities c;
     max_neighbors := max_neighbors c; min_neighbors := min_neighbors c;
     sd := sd c; mean_neighbors := mean_neighbors c; n := n c;
     pct_nonzero := pct_nonzero c; nonzero := nonzero c;
     asymmetric := asymmetric c; islands := islands c; histogram := histogram c |}.
Definition with_s1 (v : F) (c : C) : C :=
  {| s0 := s0 c; s1 := v; s2 := s2 c; cardinalities := cardinalities c;
     max_neighbors := max_neighbors c; min_neighbors := min_neighbors c;
     sd := sd c; mean_neighbors := mean_neighbors c; n := n c;
     pct_nonzero := pct_nonzero c; nonzero := nonzero c;
     asymmetric := asymmetric c; islands := islands c; histogram := histogram c |}.
Definition with_s2 (v : F) (c : C) : C :=
  {| s0 := s0 c; s1 := s1 c; s2 := v; cardinalities := cardinalities c;
     max_neighbors := max_neighbors c; min_neighbors := min_neighbors c;
     sd := sd c; mean_neighbors := mean_neighbors c; n := n c;
     pct_nonzero := pct_nonzero c; nonzero := nonzero c;
     asymmetric := asymmetric c; islands := islands c; histogram := histogram c |}.
Definition with_cardinalities (v : dict K Z) (c : C) : C :=
  {| s0 := s0 c; s1 := s1 c; s2 := s2 c; cardinalities := v;
     max_neighbors := max_neighbors c; min_neighbors := min_neighbors c;
     sd := sd c; mean_neighbors := mean_neighbors c; n := n c;
     pct_nonzero := pct_nonzero c; nonzero := nonzero c;
     asymmetric := asymmetric c; islands := islands c; histogram := histogram c |}.
Definition with_max_neighbors (v : Z) (c : C) : C :=
  {| s0 := s0 c; s1 := s1 c; s2 := s2 c; cardinalities := cardinalities c;
     max_neighbors := v; min_neighbors := min_neighbors c;
     sd := sd c; mean_neighbors := mean_neighbors c; n := n c;
     pct_nonzero := pct_nonzero c; nonzero := nonzero c;
     asymmetric := asymmetric c; islands := islands c; histogram := histogram c |}.
Definition with_min_neighbors (v : Z) (c : C) : C :=
  {| s0 := s0 c; s1 := s1 c; s2 := s2 c; cardinalities := cardinalities c;
     max_neighbors := max_neighbors c; min_neighbors := v;
     sd := sd c; mean_neighbors := mean_neighbors c; n := n c;
     pct_nonzero := pct_nonzero c; nonzero := nonzero c;
     asymmetric := asymmetric c; islands := islands c; histogram := histogram c |}.
Definition with_sd (v : F) (c : C) : C :=
  {| s0 := s0 c; s1 := s1 c; s2 := s2 c; cardinalities := cardinalities c;
     max_neighbors := max_neighbors c; min_neighbors := min_neighbors c;
     sd := v; mean_neighbors := mean_neighbors c; n := n c;
     pct_nonzero := pct_nonzero c; nonzero := nonzero c;
     asymmetric := asymmetric c; islands := islands c; histogram := histogram c |}.
Definition with_mean_neighbors (v : F) (c : C) : C :=
  {| s0 := s0 c; s1 := s1 c; s2 := s2 c; cardinalities := cardinalities c;
     max_neighbors := max_neighbors c; min_neighbors := min_neighbors c;
     sd := sd c; mean_neighbors := v; n := n c;
     pct_nonzero := pct_nonzero c; nonzero := nonzero c;
     asymmetric := asymmetric c; islands := islands c; histogram := histogram c |}.
Definition with_n (v : Z) (c : C) : C :=
  {| s0 := s0 c; s1 := s1 c; s2 := s2 c; cardinalities := cardinalities c;
     max_neighbors := max_neighbors c; min_neighbors := min_neighbors c;
     sd := sd c; mean_neighbors := mean_neighbors c; n := v;
     pct_nonzero := pct_nonzero c; nonzero := nonzero c;
     asymmetric := asymmetric c; islands := islands c; histogram := histogram c |}.
Definition with_pct_nonzero (v : F) (c : C) : C :=
  {| s0 := s0 c; s1 := s1 c; s2 := s2 c; cardinalities := cardinalities c;
     max_neighbors := max_neighbors c; min_neighbors := min_neighbors c;
     sd := sd c; mean_neighbors := mean_neighbors c; n := n c;
     pct_nonzero := v; nonzero := nonzero c;
     asymmetric := asymmetric c; islands := islands c; histogram := histogram c |}.
Definition with_nonzero (v : Z) (c : C) : C :=
  {| s0 := s0 c; s1 := s1 c; s2 := s2 c; cardinalities := cardinalities c;
     max_neighbors := max_neighbors c; min_neighbors := min_neighbors c;
     sd := sd c; mean_neighbors := mean_neighbors c; n := n c;
     pct_nonzero := pct_nonzero c; nonzero := v;
     asymmetric := asymmetric c; islands := islands c; histogram := histogram c |}.
Definition with_asymmetric (v : Z) (c : C) : C :=
  {| s0 := s0 c; s1 := s1 c; s2 := s2 c; cardinalities := cardinalities c;
     max_neighbors := max_neighbors c; min_neighbors := min_neighbors c;
     sd := sd c; mean_neighbors := mean_neighbors c; n := n c;
     pct_nonzero := pct_nonzero c; nonzero := nonzero c;
     asymmetric := v; islands := islands c; histogram := histogram c |}.
Definition with_islands (v : list K) (c : C) : C :=
  {| s0 := s0 c; s1 := s1 c; s2 := s2 c; cardinalities := cardinalities c;
     max_neighbors := max_neighbors c; min_neighbors := min_neighbors c;
     sd := sd c; mean_neighbors := mean_neighbors c; n := n c;
     pct_nonzero := pct_nonzero c; nonzero := nonzero c;
     asymmetric := asymmetric c; islands := v; histogram := histogram c |}.
Definition with_histogram (v : list (Z * Z)) (c : C) : C :=
  {| s0 := s0 c; s1 := s1 c; s2 := s2 c; cardinalities := cardinalities c;
     max_neighbors := max_neighbors c; min_neighbors := min_neighbors c;
     sd := sd c; mean_neighbors := mean_neighbors c; n := n c;
     pct_nonzero := pct_nonzero c; nonzero := nonzero c;
     asymmetric := asymmetric c; islands := islands c; histogram := v |}.

Definition with_chars (f : C -> C) (w : W) : W :=
  {| neighbors := neighbors w; weights := weights w;
     transformations := transformations w; _id_order := _id_order w;
     _id_order_set := _id_order_set w; _W__neighbors_0 := _W__neighbors_0 w;
     neighbor_0_ids := neighbor_0_ids w; _idx := _idx w; n_1 := n_1 w;
     _transform := _transform w; chars := f (chars w) |}.
Definition with_neighbors (v : dict K (list K)) (w : W) : W :=
  {| neighbors := v; weights := weights w;
     transformations := transformations w; _id_order := _id_order w;
     _id_order_set := _id_order_set w; _W__neighbors_0 := _W__neighbors_0 w;
     neighbor_0_ids := neighbor_0_ids w; _idx := _idx w; n_1 := n_1 w;
     _transform := _transform w; chars := chars w |}.
Definition with_weights (v : dict K (list F)) (w : W) : W :=
  {| neighbors := neighbors w; weights := v;
     transformations := transformations w; _id_order := _id_order w;
     _id_order_set := _id_order_set w; _W__neighbors_0 := _W__neighbors_0 w;
     neighbor_0_ids := neighbor_0_ids w; _idx := _idx w; n_1 := n_1 w;
     _transform := _transform w; chars := chars w |}.
Definition with_transformations (v : dict string (dict K (list F))) (w : W) : W :=
  {| neighbors := neighbors w; weights := weights w;
     transformations := v; _id_order := _id_order w;
     _id_order_set := _id_order_set w; _W__neighbors_0 := _W__neighbors_0 w;
     neighbor_0_ids := neighbor_0_ids w; _idx := _idx w; n_1 := n_1 w;
     _transform := _transform w; chars := chars w |}.
Definition with__id_order (v : list K) (w : W) : W :=
  {| neighbors := neighbors w; weights := weights w;
     transformations := transformations w; _id_order := v;
     _id_order_set := _id_order_set w; _W__neighbors_0 := _W__neighbors_0 w;
     neighbor_0_ids := neighbor_0_ids w; _idx := _idx w; n_1 := n_1 w;
     _transform := _transform w; chars := chars w |}.
Definition with__id_order_set (v : bool) (w : W) : W :=
  {| neighbors := neighbors w; weights := weights w;
     transformations := transformations w; _id_order := _id_order w;
     _id_order_set := v; _W__neighbors_0 := _W__neighbors_0 w;
     neighbor_0_ids := neighbor_0_ids w; _idx := _idx w; n_1 := n_1 w;
     _transform := _transform w; chars := chars w |}.
Definition with__W__neighbors_0 (v : option (dict K (list nat))) (w : W) : W :=
  {| neighbors := neighbors w; weights := weights w;
     transformations := transformations w; _id_order := _id_order w;
     _id_order_set := _id_order_set w; _W__neighbors_0 := v;
     neighbor_0_ids := neighbor_0_ids w; _idx := _idx w; n_1 := n_1 w;
     _transform := _transform w; chars := chars w |}.
Definition with_neighbor_0_ids (v : option (dict K (list nat))) (w : W) : W :=
  {| neighbors := neighbors w; weights := weights w;
     transformations := transformations w; _id_order := _id_order w;
     _id_order_set := _id_order_set w; _W__neighbors_0 := _W__neighbors_0 w;
     neighbor_0_ids := v; _idx := _idx w; n_1 := n_1 w;
     _transform := _transform w; chars := chars w |}.
Definition with__idx (v : Z) (w : W) : W :=
  {| neighbors := neighbors w; weights := weights w;
     transformations := transformations w; _id_order := _id_order w;
     _id_order_set := _id_order_set w; _W__neighbors_0 := _W__neighbors_0 w;
     neighbor_0_ids := neighbor_0_ids w; _idx := v; n_1 := n_1 w;
     _transform := _transform w; chars := chars w |}.
Definition with_n_1 (v : Z) (w : W) : W :=
  {| neighbors := neighbors w; weights := weights w;
     transformations := transformations w; _id_order := _id_order w;
     _id_order_set := _id_order_set w; _W__neighbors_0 := _W__neighbors_0 w;
     neighbor_0_ids := neighbor_0_ids w; _idx := _idx w; n_1 := v;
     _transform := _transform w; chars := chars w |}.
Definition with__transform (v : option string) (w : W) : W :=
  {| neighbors := neighbors w; weights := weights w;
     transformations := transformations w; _id_order := _id_order w;
     _id_order_set := _id_order_set w; _W__neighbors_0 := _W__neighbors_0 w;
     neighbor_0_ids := neighbor_0_ids w; _idx := _idx w; n_1 := n_1 w;
     _transform := v; chars := chars w |}.
End setters.

(** ** The methods of [W] *)

Section Weights.
Context {K : Type} `{EqDecision K} (Kle : relation K) `{!RelDecision Kle}.
Context {F : Type} `{PyNum F}.
#[local] Abbreviation C := (characteristics K F).
#[local] Abbreviation W := (W K F).

(** The monad of methods: state, printed lines, exception or value. *)
Definition M (A : Type) : Type := W -> W * list string * result A.

(** The object, the output and the outcome of a call. *)
Definition state_of {A} (x : W * list string * result A) : W := x.1.1.
Definition output_of {A} (x : W * list string * result A) : list string := x.1.2.
Definition outcome_of {A} (x : W * list string * result A) : result A := x.2.

#[global] Instance M_ret : MRet M := fun A a w => (w, [], Ok a).
#[global] Instance M_bind : MBind M := fun A B f m w =>
  let x := m w in
  match outcome_of x with
  | Raise e => (state_of x, output_of x, Raise e)
  | Ok a =>
      let y := f a (state_of x) in
      (state_of y, output_of x ++ output_of y, outcome_of y)
  end.

Definition get : M W := fun w => (w, [], Ok w).
Definition modify (f : W -> W) : M unit := fun w => (f w, [], Ok tt).
Definition lift {A} (r : result A) : M A := fun w => (w, [], r).
Definition print (s : string) : M unit := fun w => (w, [s], Ok tt).

(** *** asymmetry *)

(** The body of the inner loop of [asymmetry] at neighbor [j] of [i] in
    position [pos]. *)
Definition asymmetry_edge (w : W) (nonzero : bool) (i : K)
    (asymmetries : list (asym_entry K)) (pj : nat * K) : result (list (asym_entry K)) :=
  let '(pos, j) := pj in
  w_i ← getitem (weights w) i;
  wij ← list_getitem w_i pos;
  let attempt : result (list (asym_entry K)) :=
    w_j ← getitem (weights w) j;
    neighbors_j ← getitem (neighbors w) j;
    ji ← list_index i neighbors_j;
    wji ← list_getitem w_j ji;
    if negb nonzero && ne wij wji
    then Ok (asymmetries ++ [((i, j), Some (j, i))])
    else Ok asymmetries in
  match attempt with
  | Ok l => Ok l
  | Raise _ => Ok (asymmetries ++ [((i, j), None)])
  end.

Definition asymmetry_row (w : W) (nonzero : bool)
    (asymmetries : list (asym_entry K)) (item : K * list K) : result (list (asym_entry K)) :=
  let '(i, neighbors_i) := item in
  foldM (asymmetry_edge w nonzero i) asymmetries (enumerate neighbors_i).

Definition asymmetry_of (w : W) (nonzero : bool) : result (list (asym_entry K)) :=
  foldM (asymmetry_row w nonzero) [] (items (neighbors w)).

(** [asymmetry(nonzero)] reads the object and does not change it. *)
Definition asymmetry (nonzero : bool) : M (list (asym_entry K)) :=
  fun w => (w, [], asymmetry_of w nonzero).

(** *** _characteristics *)

(** The local variables of the double loop. *)
Record moments : Type := {
  m_s0 : F;
  m_s1 : F;
  m_col_sum : dict K F;
  m_row_sum : dict K F;
  m_cardinalities : dict K Z;
  m_nonzero : Z
}.

Definition moments0 : moments :=
  {| m_s0 := pyfloat 0; m_s1 := pyfloat 0; m_col_sum := []; m_row_sum := [];
     m_cardinalities := []; m_nonzero := 0 |}.

(** The body of the inner loop at neighbor [j] of [i]. *)
Definition edge_step (w : W) (i : K) (neighbors_i : list K) (w_i : list F)
    (a : moments) (j : K) : result moments :=
  w_j ← getitem (weights w) j;
  neighbors_j ← getitem (neighbors w) j;
  wji ← (if contains i neighbors_j
         then ji ← list_index i neighbors_j; list_getitem w_j ji
         else Ok (pyint 0));
  wij ← (if contains j neighbors_i
         then ij ← list_index j neighbors_i; list_getitem w_i ij
         else Ok (pyint 0));
  let v := add wij wji in
  let col_sum := if has_key (m_col_sum a) i then m_col_sum a
                 else setitem (m_col_sum a) i (pyint 0) in
  let row_sum := if has_key (m_col_sum a) i then m_row_sum a
                 else setitem (m_row_sum a) i (pyint 0) in
  c ← getitem col_sum i;
  let col_sum := setitem col_sum i (add c wji) in
  r ← getitem row_sum i;
  let row_sum := setitem row_sum i (add r wij) in
  Ok {| m_s0 := add (m_s0 a) wij; m_s1 := add (m_s1 a) (mul v v);
        m_col_sum := col_sum; m_row_sum := row_sum;
        m_cardinalities := m_cardinalities a; m_nonzero := m_nonzero a + 1 |}.

(** The body of the outer loop at id [i]. *)
Definition row_step (w : W) (a : moments) (i : K) : result moments :=
  neighbors_i ← getitem (neighbors w) i;
  let a := {| m_s0 := m_s0 a; m_s1 := m_s1 a; m_col_sum := m_col_sum a;
              m_row_sum := m_row_sum a;
              m_cardinalities := setitem (m_cardinalities a) i (len neighbors_i);
              m_nonzero := m_nonzero a |} in
  w_i ← getitem (weights w) i;
  foldM (edge_step w i neighbors_i w_i) a neighbors_i.

Definition moments_loop (w : W) : result moments :=
  foldM (row_step w) moments0 (_id_order w).

(** [sum([(col_sum[i]+row_sum[i])**2 for i in col_sum.keys()])] *)
Definition s2_of (a : moments) : result F :=
  terms ← comprehension (fun i => c ← getitem (m_col_sum a) i;
                                  r ← getitem (m_row_sum a) i;
                                  Ok (pow2 (add c r))) (keys (m_col_sum a));
  Ok (pysum terms).

Definition _characteristics : M unit :=
  w ← get;
  let n := len (weights w) in
  a ← lift (moments_loop w);
  s1 ← lift (pydiv (m_s1 a) (pyfloat 2));
  s2 ← lift (s2_of a);
  modify (with_chars (with_s2 s2));;
  modify (with_chars (with_s1 s1));;
  modify (with_chars (with_s0 (m_s0 a)));;
  modify (with_chars (with_cardinalities (m_cardinalities a)));;
  let cardinalities := values (m_cardinalities a) in
  mx ← lift (py_max cardinalities);
  modify (with_chars (with_max_neighbors mx));;
  mn ← lift (py_min cardinalities);
  modify (with_chars (with_min_neighbors mn));;
  modify (with_chars (with_sd (np_std cardinalities)));;
  mean ← lift (pydiv (pyint (sumZ cardinalities)) (mul (pyint n) (pyfloat 1)));
  modify (with_chars (with_mean_neighbors mean));;
  modify (with_chars (with_n n));;
  pct ← lift (pydiv (pyint (m_nonzero a)) (mul (mul (pyfloat 1) (pyint n)) (pyint n)));
  modify (with_chars (with_pct_nonzero pct));;
  modify (with_chars (with_nonzero (m_nonzero a)));;
  asymmetries ← asymmetry true;
  modify (with_chars (with_asymmetric (match asymmetries with [] => 0 | _ :: _ => 1 end)));;
  modify (with_chars (with_islands
    (fst <$> filter (fun ic => ic.2 = 0) (items (m_cardinalities a)))));;
  let '(ct, bin) := np_histogram cardinalities (py_range mn (mx + 2)) in
  modify (with_chars (with_histogram (py_zip bin ct))).

(** *** set_transform *)

(** The loop of the row-standardization branch. *)
Definition row_standardize_row (ws : dict K (list F))
    (weights : dict K (list F)) (i : K) : result (dict K (list F)) :=
  wijs ← getitem ws i;
  let row_sum := mul (pysum wijs) (pyfloat 1) in
  new ← comprehension (fun wij => pydiv wij row_sum) wijs;
  Ok (setitem weights i new).

Definition row_standardize (ws : dict K (list F)) : result (dict K (list F)) :=
  foldM (row_standardize_row ws) [] (keys ws).

(** The double-standardization branch after its first characteristics pass. *)
Definition doubly_standardize (ws : dict K (list F)) (s0 : F) : result (dict K (list F)) :=
  scale ← pydiv (pyfloat 1) s0;
  foldM (fun (weights : dict K (list F)) (i : K) =>
           wijs ← getitem ws i;
           Ok (setitem weights i ((fun wij => mul wij scale) <$> wijs)))
        [] (keys ws).

(** The loop of the binary branch. *)
Definition binarize (ws : dict K (list F)) : result (dict K (list F)) :=
  foldM (fun (weights : dict K (list F)) (i : K) =>
           wijs ← getitem ws i;
           Ok (setitem weights i ((fun _ => pyfloat 1) <$> wijs)))
        [] (keys ws).

(** The local variables [q], [s] and [Q] of the variance-stabilizing branch. *)
Record vs_locals : Type := {
  v_q : dict K F;
  v_s : dict K (list F);
  v_Q : F
}.

Definition variance_first_loop (ws : dict K (list F)) : result vs_locals :=
  foldM (fun (l : vs_locals) (i : K) =>
           wijs ← getitem ws i;
           qi ← math_sqrt (pysum ((fun wij => mul wij wij) <$> wijs));
           let q := setitem (v_q l) i qi in
           si ← comprehension (fun wij => d ← getitem q i; pydiv wij d) wijs;
           let s := setitem (v_s l) i si in
           s_i ← getitem s i;
           Ok {| v_q := q; v_s := s; v_Q := add (v_Q l) (pysum s_i) |})
        {| v_q := []; v_s := []; v_Q := pyfloat 0 |} (keys ws).

Definition variance_stabilize (ws : dict K (list F)) (n : Z) : result (dict K (list F)) :=
  l ← variance_first_loop ws;
  nQ ← pydiv (pyint n) (v_Q l);
  foldM (fun (weights : dict K (list F)) (i : K) =>
           s_i ← getitem (v_s l) i;
           Ok (setitem weights i ((fun x => mul x nQ) <$> s_i)))
        [] (keys ws).

Definition set_transform (value : string) : M unit :=
  let value := upper value in
  modify (with__transform (Some value));;
  w ← get;
  if has_key (transformations w) value then
    ws ← lift (getitem (transformations w) value);
    modify (with_weights ws);;
    _characteristics
  else if decide (value = "R") then
    weights ← lift (row_standardize (weights w));
    modify (fun w => with_transformations (setitem (transformations w) value weights) w);;
    modify (with_weights weights);;
    _characteristics
  else if decide (value = "D") then
    _characteristics;;
    w ← get;
    weights ← lift (doubly_standardize (weights w) (s0 (chars w)));
    modify (fun w => with_transformations (setitem (transformations w) value weights) w);;
    modify (with_weights weights);;
    _characteristics
  else if decide (value = "B") then
    weights ← lift (binarize (weights w));
    modify (fun w => with_transformations (setitem (transformations w) value weights) w);;
    modify (with_weights weights);;
    _characteristics
  else if decide (value = "V") then
    weights ← lift (variance_stabilize (weights w) (n (chars w)));
    modify (with_weights weights);;
    _characteristics
  else if decide (value = "O") then
    original ← lift (getitem (transformations w) value);
    modify (with_weights original)
  else
    print "unsupported weights transformation".

(** [get_transform] *)
Definition get_transform : M (option string) :=
  w ← get; mret (_transform w).

(** *** id_order *)

(** [set(a) == set(b)] *)
Definition same_set (a b : list K) : bool :=
  forallb (fun x => contains x b) a && forallb (fun x => contains x a) b.

Definition __set_id_order (ordered_ids : list K) : M unit :=
  w ← get;
  if same_set (_id_order w) ordered_ids then
    modify (with__id_order ordered_ids);;
    modify (with__idx 0);;
    modify (with__id_order_set true);;
    modify (with_neighbor_0_ids (Some []));;
    modify (with__W__neighbors_0 None)
  else
    lift (Raise (Exception "ordered_ids do not align with W ids")).

Definition __get_id_order : M (list K) :=
  w ← get; mret (_id_order w).

Definition id_order_set : M bool :=
  w ← get; mret (_id_order_set w).

(** *** neighbor_offsets *)

(** Truth value of the cache attribute: [False] and the empty mapping are
    both false. *)
Definition cache_truthy (c : option (dict K (list nat))) : bool :=
  match c with
  | Some (_ :: _) => true
  | _ => false
  end.

Fixpoint for_each {A} (l : list A) (body : A -> M unit) : M unit :=
  match l with
  | [] => mret tt
  | x :: l' => body x;; for_each l' body
  end.

Definition neighbor_offsets : M (option (dict K (list nat))) :=
  w ← get;
  if cache_truthy (_W__neighbors_0 w) then mret (_W__neighbors_0 w)
  else
    modify (with__W__neighbors_0 (Some []));;
    for_each (keys (neighbors w)) (fun id =>
      w ← get;
      ns ← lift (getitem (neighbors w) id);
      offs ← lift (comprehension (fun neigh => list_index neigh (_id_order w)) ns);
      modify (with__W__neighbors_0
                (Some (setitem (default [] (_W__neighbors_0 w)) id offs))));;
    w ← get; mret (_W__neighbors_0 w).

(** *** __init__ *)

(** The weights synthesized when none are supplied. *)
Definition default_weights (neighbors_ : dict K (list K)) : result (dict K (list F)) :=
  foldM (fun (weights_ : dict K (list F)) (key : K) =>
           ns ← getitem neighbors_ key;
           Ok (setitem weights_ key (replicate (length ns) (pyfloat 1))))
        [] (keys neighbors_).

(** [not weights]: the argument is absent or an empty mapping. *)
Definition falsy {V} (weights_ : option (dict K V)) : bool :=
  match weights_ with
  | None | Some [] => true
  | Some (_ :: _) => false
  end.

Definition __init__ (neighbors_ : dict K (list K)) (weights_ : option (dict K (list F)))
    (id_order : option (list K)) : M unit :=
  modify (with_transformations []);;
  modify (with_neighbors neighbors_);;
  weights_ ← (if falsy weights_ then lift (default_weights neighbors_)
              else mret (default [] weights_));
  modify (with_weights weights_);;
  w ← get;
  modify (with_transformations (setitem (transformations w) "O" (weights w)));;
  modify (with_chars (with_islands []));;
  match id_order with
  | None =>
      w ← get;
      modify (with__id_order (merge_sort Kle (keys (neighbors w))));;
      modify (with__id_order_set false)
  | Some id_order =>
      modify (with__id_order id_order);;
      modify (with__id_order_set true)
  end;;
  modify (with__W__neighbors_0 None);;
  modify (with__idx 0);;
  w ← get;
  modify (with_chars (with_n (len (neighbors w))));;
  w ← get;
  modify (with_n_1 (n (chars w) - 1));;
  _characteristics;;
  modify (with__transform None).

(** The object before [__init__] has run: no attribute has a value yet,
    and every attribute read by a method is written by [__init__] first. *)
Definition blank : W :=
  {| neighbors := []; weights := []; transformations := []; _id_order := [];
     _id_order_set := false; _W__neighbors_0 := None; neighbor_0_ids := None;
     _idx := 0; n_1 := 0; _transform := None;
     chars := {| s0 := pyint 0; s1 := pyint 0; s2 := pyint 0; cardinalities := [];
                 max_neighbors := 0; min_neighbors := 0; sd := pyint 0;
                 mean_neighbors := pyint 0; n := 0; pct_nonzero := pyint 0;
                 nonzero := 0; asymmetric := 0; islands := []; histogram := [] |} |}.

(** The class call [W(neighbors, weights, id_order)]: the object when
    [__init__] returns, the exception when it raises. *)
Definition new_W (neighbors_ : dict K (list K)) (weights_ : option (dict K (list F)))
    (id_order : option (list K)) : result W :=
  match __init__ neighbors_ weights_ id_order blank with
  | (w, _, Ok _) => Ok w
  | (_, _, Raise e) => Raise e
  end.

(** A sequence of assignments to [transform]; a caller that catches an
    exception goes on with the object as the failed call left it. *)
Definition set_transforms (values : list string) (w : W) : W :=
  fold_left (fun w value => state_of (set_transform value w)) values w.

End Weights.

(** ** Python's numbers: integers and binary64 floats

    The instance of the arithmetic at which the examples are evaluated.
    An operation on two integers stays an integer ([/] is the floor
    division of Python 2); as soon as one operand is a float the other is
    converted, rounding to nearest even.  Float overflow gives an infinity:
    the [OverflowError] of Python at the conversion of an integer beyond
    the range of binary64, and at [x ** 2] of a float whose square is
    beyond it, has no counterpart here, and [x ** 2] is the product
    [x * x].  The instance is Python's arithmetic on floats and on the
    integers whose sums and squares stay within that range. *)

Inductive pynum : Type :=
  | PyInt (z : Z)
  | PyFloat (f : PrimFloat.float).

Definition float_of_Z (z : Z) : PrimFloat.float :=
  FloatOps.SF2Prim (SpecFloat.binary_normalize FloatOps.prec FloatOps.emax z 0 false).

Definition to_float (x : pynum) : PrimFloat.float :=
  match x with
  | PyInt z => float_of_Z z
  | PyFloat f => f
  end.

Definition pynum_add (x y : pynum) : pynum :=
  match x, y with
  | PyInt a, PyInt b => PyInt (a + b)
  | _, _ => PyFloat (PrimFloat.add (to_float x) (to_float y))
  end.

Definition pynum_mul (x y : pynum) : pynum :=
  match x, y with
  | PyInt a, PyInt b => PyInt (a * b)
  | _, _ => PyFloat (PrimFloat.mul (to_float x) (to_float y))
  end.

Definition pynum_pow2 (x : pynum) : pynum :=
  match x with
  | PyInt a => PyInt (a * a)
  | PyFloat f => PyFloat (PrimFloat.mul f f)
  end.

Definition pynum_is_zero (x : pynum) : bool :=
  match x with
  | PyInt a => a =? 0
  | PyFloat f => PrimFloat.eqb f (float_of_Z 0)
  end.

Definition pynum_quot (x y : pynum) : pynum :=
  match x, y with
  | PyInt a, PyInt b => PyInt (a `div` b)
  | _, _ => PyFloat (PrimFloat.div (to_float x) (to_float y))
  end.

Definition pynum_sqrt (x : pynum) : option pynum :=
  let f := to_float x in
  if PrimFloat.ltb f (float_of_Z 0) then None else Some (PyFloat (PrimFloat.sqrt f)).

(** [f == z] for a float and an integer: Python compares the two values
    exactly, without rounding the integer to a float. *)
Definition float_eq_Z (f : PrimFloat.float) (z : Z) : bool :=
  match FloatOps.Prim2SF f with
  | SpecFloat.S754_zero _ => z =? 0
  | SpecFloat.S754_finite s m e =>
      let v := if s then Z.neg m else Z.pos m in
      if 0 <=? e then z =? v * 2 ^ e
      else (Z.pos m `mod` 2 ^ (- e) =? 0) && (z =? v `div` 2 ^ (- e))
  | _ => false
  end.

Definition pynum_ne (x y : pynum) : bool :=
  match x, y with
  | PyInt a, PyInt b => negb (a =? b)
  | PyInt a, PyFloat g => negb (float_eq_Z g a)
  | PyFloat f, PyInt b => negb (float_eq_Z f b)
  | PyFloat f, PyFloat g => negb (PrimFloat.eqb f g)
  end.

(** The population standard deviation, accumulated from left to right. *)
Definition pynum_std (l : list Z) : pynum :=
  let fl := float_of_Z <$> l in
  let cnt := float_of_Z (len l) in
  let mean := PrimFloat.div (fold_left PrimFloat.add fl (float_of_Z 0)) cnt in
  let sq := (fun x => PrimFloat.mul (PrimFloat.sub x mean) (PrimFloat.sub x mean)) <$> fl in
  PyFloat (PrimFloat.sqrt (PrimFloat.div (fold_left PrimFloat.add sq (float_of_Z 0)) cnt)).

#[global] Instance pynum_PyNum : PyNum pynum := {|
  pyint := PyInt;
  pyfloat := fun z => PyFloat (float_of_Z z);
  add := pynum_add;
  mul := pynum_mul;
  pow2 := pynum_pow2;
  is_zero := pynum_is_zero;
  quot := pynum_quot;
  sqrt_opt := pynum_sqrt;
  ne := pynum_ne;
  np_std := pynum_std
|}.

(** ** Example containers, with integer ids in their usual order *)

Definition chain_neighbors : dict Z (list Z) := [(0, [1]); (1, [0; 2]); (2, [1])].
Definition chain_weights : dict Z (list pynum) :=
  [(0, [PyInt 1]); (1, [PyInt 1; PyInt 1]); (2, [PyInt 1])].

Definition chain : result (W Z pynum) := new_W Z.le chain_neighbors (Some chain_weights) None.

(** The weights [__init__] stores: the ones supplied, or the synthesized
    ones when the argument is absent or empty. *)
Definition captured_weights {K F : Type} `{EqDecision K} `{PyNum F}
    (neighbors_ : dict K (list K)) (weights_ : option (dict K (list F)))
    : result (dict K (list F)) :=
  if falsy weights_ then default_weights neighbors_ else Ok (default [] weights_).

(** The object at the moment [__init__] calls [_characteristics]. *)
Definition init_state {K F : Type} `{EqDecision K} `{PyNum F} (Kle : relation K)
    `{!RelDecision Kle} (neighbors_ : dict K (list K)) (ws : dict K (list F))
    (id_order : option (list K)) : W K F :=
  {| neighbors := neighbors_; weights := ws; transformations := [("O", ws)];
     _id_order := match id_order with
                  | None => merge_sort Kle (keys neighbors_)
                  | Some l => l
                  end;
     _id_order_set := match id_order with None => false | Some _ => true end;
     _W__neighbors_0 := None; neighbor_0_ids := None; _idx := 0;
     n_1 := len neighbors_ - 1; _transform := None;
     chars := with_n (len neighbors_) (with_islands [] (chars (blank (K:=K) (F:=F)))) |}.

(** ** Containers

    The objects a program can hold: what the class call returned, and what
    any call of a method, failed or not, left of such an object. *)

Inductive reachable {K F : Type} `{EqDecision K} `{PyNum F} (Kle : relation K)
    `{!RelDecision Kle} : W K F -> Prop :=
  | reach_new nb wt ord w :
      new_W Kle nb wt ord = Ok w -> reachable Kle w
  | reach_set_transform value w :
      reachable Kle w -> reachable Kle (state_of (set_transform value w))
  | reach_set_id_order ordered_ids w :
      reachable Kle w -> reachable Kle (state_of (__set_id_order ordered_ids w))
  | reach_neighbor_offsets w :
      reachable Kle w -> reachable Kle (state_of (neighbor_offsets w)).

(** A property of the object that a computation keeps, whatever its outcome. *)
Definition preserves {K F A : Type} (P : W K F -> Prop) (m : @M K F A) : Prop :=
  forall w, P w -> P (state_of (m w)).

(** The names of the supported transformations. *)
Definition transform_names : list string := ["B"; "R"; "D"; "V"; "O"].

(** The cache of transformations holds only names under which
    [set_transform] stores. *)
Definition cache_names_ok {K F : Type} (w : W K F) : Prop :=
  forall name, has_key (transformations w) name = true ->
               name ∈ ["O"; "R"; "D"; "B"].

(** The iteration order lists exactly the ids of the container. *)
Definition ids_aligned {K F : Type} (w : W K F) : Prop :=
  forall x, x ∈ _id_order w <-> x ∈ keys (neighbors w).

(** The example container of the specification, as an object. *)
Definition chain_W : W Z pynum :=
  match chain with
  | Ok w => w
  | Raise _ => blank
  end.

(** A container with an island: id 2 has no neighbors. *)
Definition island_neighbors : dict Z (list Z) := [(0, [1]); (1, [0]); (2, [])].

Definition island_W : W Z pynum :=
  match new_W Z.le island_neighbors None None with
  | Ok w => w
  | Raise _ => blank
  end.

(** The second sentence on unsupported names as the specification has it,
    transform indicator included. *)
Definition unsupported_name_changes_nothing : Prop :=
  forall (w : W Z pynum) (value : string),
    reachable Z.le w ->
    upper value ∉ transform_names ->
    output_of (set_transform value w) = ["unsupported weights transformation"] /\
    weights (state_of (set_transform value w)) = weights w /\
    chars (state_of (set_transform value w)) = chars w /\
    _transform (state_of (set_transform value w)) = _transform w.

(** Row standardization as a mapping: every weight of a row over the row
    sum, [sum(wijs)*1.0], of that row. *)
Definition row_sum_of {F : Type} `{PyNum F} (wijs : list F) : F :=
  mul (pysum wijs) (pyfloat 1).

Definition row_standardized {K F : Type} `{PyNum F} (ws : dict K (list F))
    : dict K (list F) :=
  (fun iw : K * list F => (iw.1, (fun wij => quot wij (row_sum_of iw.2)) <$> iw.2)) <$> ws.

(** The derived attributes a returning characteristics pass leaves, from
    the values its steps computed. *)
Definition chars_after {K F : Type} `{PyNum F} (w : W K F) (a : @moments K F)
    (s1v s2v mean pct : F) (mx mn : Z) (asymmetries : list (asym_entry K))
    : characteristics K F :=
  {| s0 := m_s0 a; s1 := s1v; s2 := s2v; cardinalities := m_cardinalities a;
     max_neighbors := mx; min_neighbors := mn;
     sd := np_std (values (m_cardinalities a)); mean_neighbors := mean;
     n := len (weights w); pct_nonzero := pct; nonzero := m_nonzero a;
     asymmetric := match asymmetries with [] => 0 | _ :: _ => 1 end;
     islands := fst <$> filter (fun ic => ic.2 = 0) (items (m_cardinalities a));
     histogram := py_zip (py_range mn (mx + 2))
                    (hist_counts (values (m_cardinalities a)) (py_range mn (mx + 2))) |}.

(** Inputs with one weight too many for id 0. *)
Definition surplus_neighbors : dict Z (list Z) := [(0, [1]); (1, [0])].


(** *** The asymmetry check, edge by edge

    The weight lists are aligned with the neighbor lists: every id with a
    neighbor list has a weight list of the same length. *)
Definition aligned {K F : Type} `{EqDecision K} (w : W K F) : Prop :=
  forall i ns, dict_find (neighbors w) i = Some ns ->
    exists ws, dict_find (weights w) i = Some ws /\ length ws = length ns.

(** [j] lists [i] as a neighbor. *)
Definition lists_neighbor {K F : Type} `{EqDecision K} (w : W K F) (j i : K) : bool :=
  match dict_find (neighbors w) j with
  | Some neighbors_j => contains i neighbors_j
  | None => false
  end.

(** The weight stored at position [pos] of [i], and the reciprocal weight
    [w_ji]: the weight [j] stores at the first position where it lists [i]. *)
Definition weight_at {K F : Type} `{EqDecision K} (w : W K F) (i : K) (pos : nat)
    : option F :=
  ws ← dict_find (weights w) i; ws !! pos.

Definition reciprocal {K F : Type} `{EqDecision K} (w : W K F) (i j : K) : option F :=
  neighbors_j ← dict_find (neighbors w) j;
  p ← index_of i neighbors_j;
  weight_at w j p.

(** What the specification has [asymmetry] record for the directed edge
    from [i] to its neighbor [j] in position [pos]. *)
Definition edge_entry {K F : Type} `{EqDecision K} `{PyNum F} (w : W K F)
    (nonzero : bool) (i : K) (pj : nat * K) : list (asym_entry K) :=
  if lists_neighbor w pj.2 i then
    match weight_at w i pj.1, reciprocal w i pj.2 with
    | Some wij, Some wji =>
        if negb nonzero && ne wij wji then [((i, pj.2), Some (pj.2, i))] else []
    | _, _ => []
    end
  else [((i, pj.2), None)].

(** The entries in the order in which the mapping [neighbors] enumerates
    its ids (the loop is over [self.neighbors.iteritems()]) and, within an
    id, in the order of its neighbor list. *)
Definition asymmetry_spec {K F : Type} `{EqDecision K} `{PyNum F} (w : W K F)
    (nonzero : bool) : list (asym_entry K) :=
  items (neighbors w) ≫= fun item =>
    enumerate item.2 ≫= edge_entry w nonzero item.1.

(** A decision procedure for [aligned]. *)
Definition aligned_check {K F : Type} `{EqDecision K} (w : W K F) : bool :=
  forallb (fun item : K * list K =>
             match dict_find (weights w) item.1 with
             | Some ws => bool_decide (length ws = length item.2)
             | None => false
             end) (items (neighbors w)).

(** The first container of the docstring of [asymmetry]. *)
Definition doc_neighbors : dict Z (list Z) :=
  [(0, [1; 2; 3]); (1, [1; 2; 3]); (2, [0; 1]); (3, [0; 1])].
Definition doc_weights : dict Z (list pynum) :=
  [(0, [PyInt 1; PyInt 1; PyInt 1]); (1, [PyInt 1; PyInt 1; PyInt 1]);
   (2, [PyInt 1; PyInt 1]); (3, [PyInt 1; PyInt 1])].

Definition doc_W : W Z pynum :=
  match new_W Z.le doc_neighbors (Some doc_weights) None with
  | Ok w => w
  | Raise _ => blank
  end.

(** *** The moment [s1], as the specification words it

    The directed edges the characteristics pass visits: for the ids in
    iteration order, the neighbors in stored order, each with its position.
    The directed edges stored: the same over the items of [neighbors]. *)
Definition neighbors_of {K F : Type} `{EqDecision K} (w : W K F) (i : K) : list K :=
  default [] (dict_find (neighbors w) i).

Definition visited_edges {K F : Type} `{EqDecision K} (w : W K F)
    : list (K * (nat * K)) :=
  _id_order w ≫= fun i => pair i <$> enumerate (neighbors_of w i).

Definition stored_edges {K F : Type} (w : W K F) : list (K * (nat * K)) :=
  items (neighbors w) ≫= fun item => pair item.1 <$> enumerate item.2.

(** [w_ij] of a stored edge, and [w_ji], which counts as the integer 0 when
    [j] does not list [i]. *)
Definition edge_wij {K F : Type} `{EqDecision K} `{PyNum F} (w : W K F)
    (e : K * (nat * K)) : F :=
  default (pyint 0) (weight_at w e.1 e.2.1).

Definition edge_wji {K F : Type} `{EqDecision K} `{PyNum F} (w : W K F)
    (e : K * (nat * K)) : F :=
  default (pyint 0) (reciprocal w e.1 e.2.2).

(** One half of the sum of [(w_ij + w_ji)^2], accumulated from [0.0] along
    the visited edges. *)
Definition sum_sq_edges {K F : Type} `{EqDecision K} `{PyNum F} (w : W K F)
    (s : F) (edges : list (K * (nat * K))) : F :=
  fold_left (fun s e => add s (mul (add (edge_wij w e) (edge_wji w e))
                                   (add (edge_wij w e) (edge_wji w e)))) edges s.

Definition s1_spec {K F : Type} `{EqDecision K} `{PyNum F} (w : W K F) : F :=
  quot (sum_sq_edges w (pyfloat 0) (visited_edges w)) (pyfloat 2).

(** Every neighbor list is free of repetitions. *)
Definition duplicate_free {K F : Type} `{EqDecision K} (w : W K F) : Prop :=
  forall i ns, dict_find (neighbors w) i = Some ns -> NoDup ns.

(** A decision procedure for [duplicate_free]. *)
Definition duplicate_free_check {K F : Type} `{EqDecision K} (w : W K F) : bool :=
  forallb (fun item : K * list K => bool_decide (NoDup item.2)) (items (neighbors w)).

(** *** Consistency of the derived attributes

    The two equations between derived attributes: the cardinalities add up
    to [nonzero], and the counts of the histogram add up to [n]. *)
Definition consistent {K F : Type} (c : characteristics K F) : Prop :=
  sumZ (values (cardinalities c)) = nonzero c /\
  sumZ (snd <$> histogram c) = n c.

(** A mapping has distinct keys and the iteration order of the object is an
    arrangement of them. *)
Definition same_ids {K F V : Type} (w : W K F) (ws : dict K V) : Prop :=
  NoDup (keys ws) /\ _id_order w ≡ₚ keys ws.

(** The current weights and every cached transformation are keyed by the
    ids of the iteration order. *)
Definition ids_consistent {K F : Type} `{EqDecision K} (w : W K F) : Prop :=
  same_ids w (weights w) /\
  forall name ws, dict_find (transformations w) name = Some ws -> same_ids w ws.

(** Arguments of the class call as the data model has them: distinct ids,
    weights (when supplied and not empty) keyed by the same ids, and an
    explicit order (when supplied) that is an arrangement of the ids. *)
Definition well_formed_input {K F : Type} (nb : dict K (list K))
    (wt : option (dict K (list F))) (ord : option (list K)) : Prop :=
  NoDup (keys nb) /\
  match wt with
  | Some ((_ :: _) as ws) => NoDup (keys ws) /\ keys ws ≡ₚ keys nb
  | _ => True
  end /\
  match ord with
  | Some id_order => id_order ≡ₚ keys nb
  | None => True
  end.

(** ** Indexing and iteration *)

(** How a call of [next] ends: with a value, with [StopIteration], or with
    another exception. *)
Inductive next_outcome (V : Type) : Type :=
  | Yields (v : V)
  | StopIteration
  | Fails (e : exn).
Arguments Yields {V} v.
Arguments StopIteration {V}.
Arguments Fails {V} e.

Section Access.
Context {K : Type} `{EqDecision K} {F : Type} `{PyNum F}.
#[local] Abbreviation W := (W K F).
#[local] Abbreviation M := (@M K F).

(** [dict(pairs)]: the pairs are stored from left to right, a later pair
    replacing the value of an earlier one with the same key. *)
Definition dict_of_pairs {V} (pairs : list (K * V)) : dict K V :=
  fold_left (fun d kv => setitem d kv.1 kv.2) pairs [].

(** [__getitem__]: [dict(zip(self.neighbors[key], self.weights[key]))] *)
Definition __getitem__ (key : K) : M (dict K F) :=
  w ← get;
  neighbors_key ← lift (getitem (neighbors w) key);
  weights_key ← lift (getitem (weights w) key);
  mret (dict_of_pairs (py_zip neighbors_key weights_key)).

(** The instance of [_W_iter] that [__iter__] returns.  Its attribute [w]
    is a reference to the container: [next] reads the container as it is
    when [next] is called. *)
Record _W_iter : Type := {
  it_n : Z;
  it_idx : Z
}.

(** [__iter__]: [_W_iter(self)] *)
Definition __iter__ (w : W) : _W_iter :=
  {| it_n := len (_id_order w); it_idx := 0 |}.

(** [_W_iter.next]: the iterator after the call and how the call ended. *)
Definition next (it : _W_iter) (w : W) : _W_iter * next_outcome (dict K F) :=
  if bool_decide (it_n it <= it_idx it) then
    ({| it_n := it_n it; it_idx := 0 |}, StopIteration)
  else
    match list_getitem (_id_order w) (Z.to_nat (it_idx it)) with
    | Raise e => (it, Fails e)
    | Ok key =>
        match outcome_of (__getitem__ key w) with
        | Raise e => (it, Fails e)
        | Ok value => ({| it_n := it_n it; it_idx := it_idx it + 1 |}, Yields value)
        end
    end.

(** [list(it)], or the body-free loop [for value in it]: [next] is called
    until it raises.  [None] when [fuel] calls were not enough. *)
Fixpoint drain (fuel : nat) (it : _W_iter) (w : W)
    : option (_W_iter * result (list (dict K F))) :=
  match fuel with
  | O => None
  | S fuel' =>
      match next it w with
      | (it', StopIteration) => Some (it', Ok [])
      | (it', Fails e) => Some (it', Raise e)
      | (it', Yields value) =>
          match drain fuel' it' w with
          | Some (it'', Ok values) => Some (it'', Ok (value :: values))
          | other => other
          end
      end
  end.

End Access.

(** A container in which id 0 lists id 1 twice, with different weights. *)
Definition repeat_neighbors : dict Z (list Z) := [(0, [1; 1]); (1, [0])].
Definition repeat_weights : dict Z (list pynum) :=
  [(0, [PyInt 2; PyInt 7]); (1, [PyInt 2])].

Definition repeat_W : W Z pynum :=
  match new_W Z.le repeat_neighbors (Some repeat_weights) None with
  | Ok w => w
  | Raise _ => blank
  end.

(** *** Offsets

    The first position of each of the given neighbors in an order, as the
    offsets getter computes them when every one of them is listed, and the
    body of its loop as a function of the cache being filled. *)
Definition positions_in {K : Type} `{EqDecision K} (order ns : list K) : list nat :=
  (fun neigh => default 0%nat (index_of neigh order)) <$> ns.

Definition offsets_step {K F : Type} `{EqDecision K} (w : W K F)
    (c : dict K (list nat)) (id : K) : result (dict K (list nat)) :=
  ns ← getitem (neighbors w) id;
  offs ← comprehension (fun neigh => list_index neigh (_id_order w)) ns;
  Ok (setitem c id offs).

(** The mapping the offsets getter computes: for every id, the positions
    of its neighbors in the iteration order. *)
Definition offsets_mapping {K F : Type} `{EqDecision K} (w : W K F)
    : dict K (list nat) :=
  (fun ix : K * list K => (ix.1, positions_in (_id_order w) ix.2)) <$> neighbors w.

(** A container built with an explicit order that leaves out id 1. *)
Definition partial_order_W : W Z pynum :=
  match new_W Z.le surplus_neighbors None (Some [0]) with
  | Ok w => w
  | Raise _ => blank
  end.

(** A decision procedure: every stored neighbor is listed in [order]. *)
Definition neighbors_listed {K F : Type} `{EqDecision K} (w : W K F)
    (order : list K) : bool :=
  forallb (fun ix : K * list K => forallb (fun j => contains j order) ix.2)
          (neighbors w).

(** *** The binary and the doubly standardized mappings

    Every stored weight replaced by [1.0], and every stored weight times a
    scale. *)
Definition binarized {K F : Type} `{PyNum F} (ws : dict K (list F)) : dict K (list F) :=
  (fun iw : K * list F => (iw.1, (fun _ => pyfloat 1) <$> iw.2)) <$> ws.


(** Containers with a row of weights that sums to zero, and with weights
    that are all zero. *)
Definition zero_row_W : W Z pynum :=
  match new_W Z.le surplus_neighbors (Some [(0, [PyInt 0]); (1, [PyInt 1])]) None with
  | Ok w => w
  | Raise _ => blank
  end.

Definition zero_W : W Z pynum :=
  match new_W Z.le surplus_neighbors (Some [(0, [PyInt 0]); (1, [PyInt 0])]) None with
  | Ok w => w
  | Raise _ => blank
  end.

(** *** The moment [s0], as the sum of the stored weights

    [w_ij] added up from [0.0] along the visited edges. *)
Definition sum_edges {K F : Type} `{EqDecision K} `{PyNum F} (w : W K F)
    (s : F) (edges : list (K * (nat * K))) : F :=
  fold_left (fun s e => add s (edge_wij w e)) edges s.

Definition s0_spec {K F : Type} `{EqDecision K} `{PyNum F} (w : W K F) : F :=
  sum_edges w (pyfloat 0) (visited_edges w).



(** A container whose island, id 2, was given a weight. *)
Definition weighted_island_weights : dict Z (list pynum) :=
  [(0, [PyInt 1]); (1, [PyInt 1]); (2, [PyInt 0])].

Definition weighted_island_W : W Z pynum :=
  match new_W Z.le island_neighbors (Some weighted_island_weights) None with
  | Ok w => w
  | Raise _ => blank
  end.

(** The sentence on islands as the specification has it: on every
    container an island has an empty weight list, so that the loop of the
    branch R divides nothing at an island. *)
Definition islands_never_divide : Prop :=
  forall (w : W Z pynum) (i : Z),
    reachable Z.le w ->
    dict_find (neighbors w) i = Some [] ->
    dict_find (weights w) i = Some [] /\
    forall acc, is_ok (row_standardize_row (weights w) acc i) = true.

(** *** The moment [s1] as the specification has it

    The directed edges stored, as pairs of ids; the pairs present in
    either direction: every stored pair and its reverse, each once; [w_ij],
    the integer 0 when [i] does not list [j]; and one half of the sum of
    [(w_ij + w_ji)^2] over the pairs present in either direction. *)
Definition directed_edges {K F : Type} (w : W K F) : list (K * K) :=
  items (neighbors w) ≫= fun item => pair item.1 <$> item.2.

Definition either_direction_edges {K F : Type} `{EqDecision K} (w : W K F)
    : list (K * K) :=
  remove_dups (directed_edges w ++ ((fun e : K * K => (e.2, e.1)) <$> directed_edges w)).

Definition weight_of {K F : Type} `{EqDecision K} `{PyNum F} (w : W K F) (i j : K) : F :=
  default (pyint 0) (reciprocal w j i).

Definition s1_either_direction {K F : Type} `{EqDecision K} `{PyNum F} (w : W K F) : F :=
  quot (fold_left (fun s (e : K * K) =>
                     add s (mul (add (weight_of w e.1 e.2) (weight_of w e.2 e.1))
                                (add (weight_of w e.1 e.2) (weight_of w e.2 e.1))))
                  (either_direction_edges w) (pyfloat 0))
       (pyfloat 2).

Definition s1_sums_either_direction : Prop :=
  forall w : W Z pynum,
    reachable Z.le w -> duplicate_free w -> s1 (chars w) = s1_either_direction w.

(** *** Consistency through the life of a container

    The number of neighbors a pass over the iteration order visits. *)
Definition visited_count {K F : Type} `{EqDecision K} (w : W K F) : Z :=
  sumZ ((fun i => len (neighbors_of w i)) <$> _id_order w).

(** The derived counts agree with the object they were derived from. *)
Definition counts_in_step {K F : Type} `{EqDecision K} (w : W K F) : Prop :=
  nonzero (chars w) = visited_count w /\
  sumZ (values (cardinalities (chars w))) = visited_count w /\
  sumZ (snd <$> histogram (chars w)) = len (weights w) /\
  n (chars w) = len (weights w).

Definition steady {K F : Type} `{EqDecision K} (w : W K F) : Prop :=
  ids_consistent w /\ counts_in_step w.

(** The objects obtained from [w0] by assignments to [transform], whether
    they return or raise, by assignments to [id_order] of sequences without
    a repeated id, whether accepted or refused, and by accesses to
    [neighbor_offsets]. *)
Inductive evolved {K F : Type} `{EqDecision K} `{PyNum F} (w0 : W K F) : W K F -> Prop :=
  | evolved_refl : evolved w0 w0
  | evolved_transform value w :
      evolved w0 w -> evolved w0 (state_of (set_transform value w))
  | evolved_order ordered_ids w :
      evolved w0 w -> NoDup ordered_ids ->
      evolved w0 (state_of (__set_id_order ordered_ids w))
  | evolved_offsets w :
      evolved w0 w -> evolved w0 (state_of (neighbor_offsets w)).

(** The sentence on consistency as the specification has it: after the
    class call and after every transform switch that returns, on whatever
    container. *)
Definition always_consistent : Prop :=
  (forall nb wt ord (w : W Z pynum),
     new_W Z.le nb wt ord = Ok w -> consistent (chars w)) /\
  (forall (w : W Z pynum) (value : string),
     reachable Z.le w ->
     outcome_of (set_transform value w) = Ok tt ->
     consistent (chars (state_of (set_transform value w)))).

(** *** Weight lists that cover the neighbor lists

    Every stored neighbor list that is not empty has a weight list at
    least as long: what the reads [self.weights[i][pos]] of the asymmetry
    check need. *)
Definition covers {K F : Type} `{EqDecision K} (nb : dict K (list K))
    (ws : dict K (list F)) : Prop :=
  forall i ns, (i, ns) ∈ nb -> ns <> [] ->
    exists wi, dict_find ws i = Some wi /\ (length ns <= length wi)%nat.

(** The current weights and every cached transformation cover the
    neighbor lists. *)
Definition shaped {K F : Type} `{EqDecision K} (w : W K F) : Prop :=
  covers (neighbors w) (weights w) /\
  forall name ws, dict_find (transformations w) name = Some ws ->
    covers (neighbors w) ws.

(** A mapping with, under every id of [ws], a list as long as the one [ws]
    has. *)
Definition same_lengths {K A B : Type} `{EqDecision K} (ws : dict K (list A))
    (r : dict K (list B)) : Prop :=
  forall i wi, dict_find ws i = Some wi ->
    exists ri, dict_find r i = Some ri /\ length ri = length wi.

(** The entries of the asymmetry check as the specification orders them:
    by the iteration order. *)
Definition asymmetry_in_id_order {K F : Type} `{EqDecision K} `{PyNum F} (w : W K F)
    (nonzero : bool) : list (asym_entry K) :=
  _id_order w ≫= fun i => enumerate (neighbors_of w i) ≫= edge_entry w nonzero i.

Definition asymmetry_follows_id_order : Prop :=
  forall (w : W Z pynum) (nonzero : bool),
    reachable Z.le w ->
    outcome_of (asymmetry nonzero w) = Ok (asymmetry_in_id_order w nonzero).

(** A container whose explicit order runs against the order of its
    [neighbors] mapping. *)
Definition reversed_neighbors : dict Z (list Z) := [(0, [1]); (1, [2]); (2, [])].

Definition reversed_order_W : W Z pynum :=
  match new_W Z.le reversed_neighbors None (Some [2; 1; 0]) with
  | Ok w => w
  | Raise _ => blank
  end.

(* PROPERTIES *)

(** * Properties *)

(** ** The monad of methods *)

Section monad_facts.
Context {K : Type} `{EqDecision K} {F : Type} `{PyNum F}.
#[local] Abbreviation W := (W K F).
#[local] Abbreviation M := (@M K F).

Lemma bind_run {A B} (m : M A) (f : A -> M B) (w : W) :
  (m ≫= f) w =
  match outcome_of (m w) with
  | Raise e => (state_of (m w), output_of (m w), Raise e)
  | Ok a => (state_of (f a (state_of (m w))),
             output_of (m w) ++ output_of (f a (state_of (m w))),
             outcome_of (f a (state_of (m w))))
  end.
Proof. reflexivity. Qed.

Lemma bind_ok_inv {A B} (m : M A) (f : A -> M B) (w w' : W) o (b : B) :
  (m ≫= f) w = (w', o, Ok b) ->
  exists a, outcome_of (m w) = Ok a /\
            state_of (f a (state_of (m w))) = w' /\
            outcome_of (f a (state_of (m w))) = Ok b.
Proof.
  rewrite bind_run. destruct (outcome_of (m w)) as [e|a]; [discriminate|].
  intros [= <- <- Hb]. by exists a.
Qed.

Lemma run_eta {A} (x : W * list string * result A) :
  (state_of x, output_of x, outcome_of x) = x.
Proof. by destruct x as [[? ?] ?]. Qed.

(** Running the primitive computations. *)
Lemma bind_modify {B} (g : W -> W) (f : unit -> M B) (w : W) :
  (modify g ≫= f) w = f tt (g w).
Proof. rewrite bind_run. simpl. apply run_eta. Qed.

Lemma bind_get {B} (f : W -> M B) (w : W) : (get ≫= f) w = f w w.
Proof. rewrite bind_run. simpl. apply run_eta. Qed.

Lemma bind_ret {A B} (a : A) (f : A -> M B) (w : W) : (mret a ≫= f) w = f a w.
Proof. rewrite bind_run. simpl. apply run_eta. Qed.

Lemma bind_lift_Ok {A B} (a : A) (f : A -> M B) (w : W) :
  (lift (Ok a) ≫= f) w = f a w.
Proof. rewrite bind_run. simpl. apply run_eta. Qed.

Lemma bind_lift_Raise {A B} (e : exn) (f : A -> M B) (w : W) :
  (lift (Raise e) ≫= f) w = (w, [], Raise e).
Proof. by rewrite bind_run. Qed.

Lemma bind_assoc {A B D} (m : M A) (f : A -> M B) (g : B -> M D) (w : W) :
  ((m ≫= f) ≫= g) w = (m ≫= fun a => f a ≫= g) w.
Proof.
  rewrite (bind_run (m ≫= f) g w).
  rewrite (bind_run m (fun a => f a ≫= g) w).
  rewrite (bind_run m f w).
  destruct (outcome_of (m w)) as [e|a]; [done|].
  rewrite (bind_run (f a) g).
  unfold state_of, output_of, outcome_of; simpl.
  destruct (f a (m w).1.1).2 as [e|b]; [done|].
  simpl. by rewrite <- app_assoc.
Qed.

Lemma preserves_bind {A B} (P : W -> Prop) (m : M A) (f : A -> M B) :
  preserves P m -> (forall a, preserves P (f a)) -> preserves P (m ≫= f).
Proof.
  intros Hm Hf w Hw. rewrite bind_run.
  destruct (outcome_of (m w)) as [e|a]; [by apply Hm|]. by apply Hf, Hm.
Qed.

Lemma preserves_ret {A} (P : W -> Prop) (a : A) : preserves P (mret a).
Proof. by intros w Hw. Qed.

Lemma preserves_get (P : W -> Prop) : preserves P get.
Proof. by intros w Hw. Qed.

Lemma preserves_lift {A} (P : W -> Prop) (r : result A) : preserves P (lift r).
Proof. by intros w Hw. Qed.

Lemma preserves_print (P : W -> Prop) s : preserves P (print s).
Proof. by intros w Hw. Qed.

Lemma preserves_modify (P : W -> Prop) (f : W -> W) :
  (forall w, P w -> P (f w)) -> preserves P (modify f).
Proof. intros Hf w Hw. by apply Hf. Qed.

Lemma preserves_asymmetry (P : W -> Prop) nz : preserves P (asymmetry nz).
Proof. by intros w Hw. Qed.

(** [_characteristics] writes derived attributes only. *)
Lemma preserves_characteristics (P : W -> Prop) :
  (forall f w, P w -> P (with_chars f w)) -> preserves P _characteristics.
Proof.
  intros HP. unfold _characteristics.
  repeat first
    [ apply preserves_bind; [|intros]
    | apply preserves_get | apply preserves_lift | apply preserves_asymmetry
    | apply preserves_modify; intros; by apply HP
    | match goal with |- preserves _ (let '(_, _) := ?x in _) => destruct x end ].
Qed.

End monad_facts.

(** Symbolic execution of a method body. *)
Ltac run_M :=
  repeat (first
    [ rewrite bind_assoc | rewrite bind_modify | rewrite bind_get
    | rewrite bind_ret | rewrite bind_lift_Ok | rewrite bind_lift_Raise ];
    cbv beta).

(** ** Dictionaries and lists *)

Section dict_facts.
Context {K : Type} `{EqDecision K} {V : Type}.
Implicit Types (d : dict K V) (k : K) (v : V).

Lemma dict_find_setitem d k v k' :
  dict_find (setitem d k v) k' = if decide (k = k') then Some v else dict_find d k'.
Proof.
  induction d as [|[k0 v0] d IH]; simpl.
  - by destruct (decide (k = k')).
  - destruct (decide (k0 = k)) as [->|Hne]; simpl.
    + by destruct (decide (k = k')).
    + destruct (decide (k0 = k')) as [->|]; [|done].
      by destruct (decide (k = k')) as [->|].
Qed.

Lemma has_key_setitem d k v k' :
  has_key (setitem d k v) k' = if decide (k = k') then true else has_key d k'.
Proof. unfold has_key. rewrite dict_find_setitem. by destruct (decide (k = k')). Qed.

Lemma getitem_Ok d k v : getitem d k = Ok v <-> dict_find d k = Some v.
Proof. unfold getitem. destruct (dict_find d k); split; congruence. Qed.

Lemma has_key_true d k : has_key d k = true <-> exists v, dict_find d k = Some v.
Proof.
  unfold has_key. destruct (dict_find d k); split; try done; eauto.
  by intros [? ?].
Qed.

Lemma dict_find_None d k : dict_find d k = None <-> k ∉ keys d.
Proof.
  induction d as [|[k0 v0] d IH]; simpl.
  - split; [intros _; apply not_elem_of_nil|done].
  - rewrite not_elem_of_cons. destruct (decide (k0 = k)) as [->|Hne].
    + split; [done|]. by intros [? _].
    + rewrite IH. split; [|tauto]. intros ?; split; [congruence|done].
Qed.

Lemma dict_find_Some_In d k v : dict_find d k = Some v -> (k, v) ∈ d.
Proof.
  induction d as [|[k0 v0] d IH]; simpl; [done|].
  destruct (decide (k0 = k)) as [->|Hne].
  - intros [= ->]. apply list_elem_of_here.
  - intros ?. apply list_elem_of_further. auto.
Qed.

Lemma dict_find_NoDup d k v : NoDup (keys d) -> (k, v) ∈ d -> dict_find d k = Some v.
Proof.
  induction d as [|[k0 v0] d IH]; simpl.
  - intros _ Hin. by apply elem_of_nil in Hin.
  - rewrite NoDup_cons. intros [Hk0 Hnd] [Heq|Hin]%elem_of_cons.
    + injection Heq as -> ->. by rewrite decide_True.
    + destruct (decide (k0 = k)) as [->|Hne]; [|by apply IH].
      exfalso. apply Hk0. apply list_elem_of_fmap. by exists (k, v).
Qed.

Lemma keys_setitem_fresh d k v : k ∉ keys d -> setitem d k v = d ++ [(k, v)].
Proof.
  induction d as [|[k0 v0] d IH]; simpl; [done|].
  rewrite not_elem_of_cons. intros [Hne Hk].
  rewrite decide_False by congruence. by rewrite IH.
Qed.

End dict_facts.


(** ** Construction *)

Section construction.
Context {K : Type} `{EqDecision K} (Kle : relation K) `{!RelDecision Kle}.
Context {F : Type} `{PyNum F}.
#[local] Abbreviation W := (W K F).

(** [W(...)] returns an object exactly when the characteristics pass that
    [__init__] runs on [init_state] returns; the object is what that pass
    left, with [_transform] set to [None]. *)
Lemma new_W_inv nb wt ord (w : W) :
  new_W Kle nb wt ord = Ok w ->
  exists ws,
    captured_weights nb wt = Ok ws /\
    outcome_of (_characteristics (init_state Kle nb ws ord)) = Ok tt /\
    w = with__transform None (state_of (_characteristics (init_state Kle nb ws ord))).
Proof.
  unfold new_W, captured_weights, __init__.
  assert (Hfin : forall ws : dict K (list F),
    (let (p, r) := (_characteristics ≫= λ _ : (), modify (with__transform None))
                     (init_state Kle nb ws ord) in
     let (w0, _) := p in match r with Raise e => Raise e | Ok _ => Ok w0 end) = Ok w ->
    outcome_of (_characteristics (init_state Kle nb ws ord)) = Ok tt /\
    w = with__transform None (state_of (_characteristics (init_state Kle nb ws ord)))).
  { intros ws. rewrite bind_run.
    destruct (outcome_of (_characteristics (init_state Kle nb ws ord))) as [e|[]];
      simpl; [done|]. by intros [= <-]. }
  destruct (falsy wt) eqn:Hf.
  - destruct (default_weights nb) as [e|ws] eqn:Hd.
    + destruct ord; run_M; done.
    + destruct ord; run_M; intros Hw; exists ws; (split; [done|]); exact (Hfin _ Hw).
  - destruct wt as [[|kv ws]|]; try done.
    destruct ord; run_M; intros Hw; exists (kv :: ws); (split; [done|]);
      exact (Hfin _ Hw).
Qed.
End construction.


(** ** The original weights survive every transformation *)

Section original.
Context {K : Type} `{EqDecision K} (Kle : relation K) `{!RelDecision Kle}.
Context {F : Type} `{PyNum F}.
#[local] Abbreviation W := (W K F).

(** No call of [set_transform] changes the entry ["O"] of the cache. *)
Lemma set_transform_keeps_O (orig : dict K (list F)) (value : string) :
  preserves (fun w : W => dict_find (transformations w) "O" = Some orig)
            (set_transform value).
Proof.
  unfold set_transform.
  apply preserves_bind; [by apply preserves_modify|intros _].
  apply preserves_bind; [apply preserves_get|intros w].
  assert (Hc : preserves (fun w : W => dict_find (transformations w) "O" = Some orig)
                         _characteristics)
    by (by apply preserves_characteristics).
  assert (Hset : forall (name : string) (ws : dict K (list F)), name <> "O" ->
    preserves (fun w : W => dict_find (transformations w) "O" = Some orig)
      (modify (fun w => with_transformations (setitem (transformations w) name ws) w))).
  { intros name ws Hne. apply preserves_modify. intros w' Hw'. simpl.
    rewrite dict_find_setitem. by rewrite decide_False. }
  repeat first
    [ apply preserves_bind; [|intros]
    | apply preserves_get | apply preserves_lift | apply preserves_print
    | exact Hc
    | apply Hset; congruence
    | by apply preserves_modify
    | match goal with
      | |- preserves _ (if has_key ?d ?k then _ else _) => destruct (has_key d k)
      | |- preserves _ (if decide ?P then _ else _) => destruct (decide P)
      end ].
Qed.

Lemma set_transforms_keeps_O (orig : dict K (list F)) (values : list string) (w : W) :
  dict_find (transformations w) "O" = Some orig ->
  dict_find (transformations (set_transforms values w)) "O" = Some orig.
Proof.
  revert w. induction values as [|v values IH]; intros w Hw; simpl; [done|].
  apply IH. by apply set_transform_keeps_O.
Qed.

(** A name found in the cache: the cached weights become current and the
    characteristics are recomputed; nothing is standardized again. *)
Lemma set_transform_cached (value : string) (ws : dict K (list F)) (w : W) :
  dict_find (transformations w) (upper value) = Some ws ->
  set_transform value w =
  _characteristics (with_weights ws (with__transform (Some (upper value)) w)).
Proof.
  intros Hc. unfold set_transform. generalize dependent (upper value). intros name Hc.
  run_M. cbn [transformations with__transform].
  unfold has_key, getitem. rewrite Hc. by run_M.
Qed.

(** Selecting ["O"] puts the cached original back as the current weights. *)
Lemma set_transform_O_restores (orig : dict K (list F)) (w : W) :
  dict_find (transformations w) "O" = Some orig ->
  weights (state_of (set_transform "O" w)) = orig.
Proof.
  intros HO. rewrite (set_transform_cached "O" orig) by done.
  by apply (preserves_characteristics (fun w' : W => weights w' = orig)).
Qed.

(** The constructed object holds the captured weights, also under ["O"]. *)
Lemma new_W_weights nb wt ord (w : W) :
  new_W Kle nb wt ord = Ok w ->
  captured_weights nb wt = Ok (weights w) /\
  dict_find (transformations w) "O" = Some (weights w).
Proof.
  intros (ws & Hws & _ & ->)%new_W_inv. cbn [weights transformations with__transform].
  assert (Hk : weights (state_of (_characteristics (init_state Kle nb ws ord))) = ws)
    by (by apply (preserves_characteristics (fun w' : W => weights w' = ws))).
  rewrite Hk. split; [done|].
  by apply (preserves_characteristics
              (fun w' : W => dict_find (transformations w') "O" = Some ws)).
Qed.

(** C1.  For a container built by the class call, whatever sequence of
    transformations named B, R, D or V (in any letter case) is selected
    afterwards, and whether or not some of these calls raise, selecting
    ["O"] makes [weights] equal to the mapping captured at construction:
    the same ids in the same order with the same weight lists. *)
Theorem C1_original_restored nb wt ord (w0 : W) (values : list string) :
  new_W Kle nb wt ord = Ok w0 ->
  Forall (fun value => upper value ∈ ["B"; "R"; "D"; "V"]) values ->
  weights (state_of (set_transform "O" (set_transforms values w0))) = weights w0 /\
  captured_weights nb wt = Ok (weights w0).
Proof.
  intros Hnew _. destruct (new_W_weights _ _ _ _ Hnew) as [Hcap HO].
  split; [|done].
  apply set_transform_O_restores. by apply set_transforms_keeps_O.
Qed.

End original.


Lemma chain_is_chain_W : chain = Ok chain_W.
Proof. vm_compute. reflexivity. Qed.

Lemma C1_witness :
  weights (state_of (set_transform "O" (set_transforms ["r"; "V"; "d"; "B"] chain_W)))
    = weights chain_W /\
  captured_weights chain_neighbors (Some chain_weights) = Ok (weights chain_W).
Proof.
  apply (C1_original_restored Z.le chain_neighbors (Some chain_weights) None chain_W
           ["r"; "V"; "d"; "B"]).
  - vm_compute. reflexivity.
  - repeat constructor.
Defined.

(** ** Unsupported transformation names *)

Section unsupported.
Context {K : Type} `{EqDecision K} (Kle : relation K) `{!RelDecision Kle}.
Context {F : Type} `{PyNum F}.
#[local] Abbreviation W := (W K F).

Lemma cache_names_ok_setitem (w : W) (name : string) (ws : dict K (list F)) :
  name ∈ ["O"; "R"; "D"; "B"] ->
  cache_names_ok w ->
  cache_names_ok (with_transformations (setitem (transformations w) name ws) w).
Proof.
  intros Hn Hw k. cbn [transformations with_transformations].
  rewrite has_key_setitem. destruct (decide (name = k)) as [<-|]; [done|apply Hw].
Qed.

Lemma set_transform_cache_names value :
  preserves (cache_names_ok (K:=K) (F:=F)) (set_transform value).
Proof.
  unfold set_transform. generalize (upper value). clear value. intros value.
  apply preserves_bind; [by apply preserves_modify|intros _].
  apply preserves_bind; [apply preserves_get|intros w].
  assert (Hc : preserves (cache_names_ok (K:=K) (F:=F)) _characteristics)
    by (by apply preserves_characteristics).
  repeat first
    [ apply preserves_bind; [|intros]
    | apply preserves_get | apply preserves_lift | apply preserves_print
    | exact Hc
    | by apply preserves_modify
    | match goal with
      | |- preserves _ (if has_key ?d ?k then _ else _) => destruct (has_key d k)
      | |- preserves _ (if decide ?P then _ else _) => destruct (decide P) as [->|]
      | |- preserves _ (modify _) =>
          apply preserves_modify; intros; apply cache_names_ok_setitem; [|done];
          apply list_elem_of_In; simpl; tauto
      end ].
Qed.

Lemma for_each_preserves {A} (P : W -> Prop) (l : list A) (body : A -> M unit) :
  (forall x, preserves P (body x)) -> preserves P (for_each l body).
Proof.
  intros Hb. induction l as [|x l IH]; simpl; [apply preserves_ret|].
  apply preserves_bind; [apply Hb|intros _; apply IH].
Qed.

(** Neither the order setter nor the offsets getter touches the weights, the
    cache of transformations or the derived attributes. *)
Lemma set_id_order_keeps (P : W -> Prop) ids :
  (forall w a b c d e, P w ->
     P (with__W__neighbors_0 a (with_neighbor_0_ids b (with__id_order_set c
          (with__idx d (with__id_order e w)))))) ->
  preserves P (__set_id_order ids).
Proof.
  intros HP w Hw. unfold __set_id_order. run_M.
  destruct (same_set (_id_order w) ids); run_M; [by apply HP|done].
Qed.

Lemma neighbor_offsets_keeps (P : W -> Prop) :
  (forall w a, P w -> P (with__W__neighbors_0 a w)) ->
  preserves P neighbor_offsets.
Proof.
  intros HP. unfold neighbor_offsets.
  apply preserves_bind; [apply preserves_get|intros w].
  destruct (cache_truthy (_W__neighbors_0 w)); [apply preserves_ret|].
  apply preserves_bind; [by apply preserves_modify; intros; apply HP|intros _].
  apply preserves_bind; [|intros _].
  - apply for_each_preserves. intros id.
    repeat first
      [ apply preserves_bind; [|intros]
      | apply preserves_get | apply preserves_lift
      | by apply preserves_modify; intros; apply HP ].
  - apply preserves_bind; [apply preserves_get|intros; apply preserves_ret].
Qed.

Lemma reachable_cache_names (w : W) : reachable Kle w -> cache_names_ok w.
Proof.
  induction 1 as [nb wt ord w Hnew|value w _ IH|ids w _ IH|w _ IH].
  - apply new_W_inv in Hnew as (ws & _ & _ & ->).
    assert (Hi : cache_names_ok (init_state Kle nb ws ord)).
    { intros k. unfold has_key. simpl. destruct (decide ("O" = k)) as [<-|]; [|done].
      intros _. apply list_elem_of_In; simpl; tauto. }
    by apply (preserves_characteristics (cache_names_ok (K:=K) (F:=F))).
  - by apply set_transform_cache_names.
  - revert IH. apply (set_id_order_keeps cache_names_ok). by intros.
  - revert IH. apply (neighbor_offsets_keeps cache_names_ok). by intros.
Qed.

(** C2 (amended).  On a name whose upper-cased form is none of B, R, D, V,
    O, [set_transform] prints the unsupported-transformation message and
    returns; the weights, the cache of transformations, the iteration order
    and every derived characteristic are what they were before the call.
    The object after the call is the object before it with [_transform]
    holding the upper-cased name. *)
Theorem C2_unsupported_name (w : W) (value : string) :
  reachable Kle w ->
  upper value ∉ transform_names ->
  output_of (set_transform value w) = ["unsupported weights transformation"] /\
  outcome_of (set_transform value w) = Ok tt /\
  weights (state_of (set_transform value w)) = weights w /\
  transformations (state_of (set_transform value w)) = transformations w /\
  _id_order (state_of (set_transform value w)) = _id_order w /\
  chars (state_of (set_transform value w)) = chars w /\
  state_of (set_transform value w) = with__transform (Some (upper value)) w.
Proof.
  intros Hr Hn.
  assert (Hrun : set_transform value w =
                 (with__transform (Some (upper value)) w,
                  ["unsupported weights transformation"], Ok tt)).
  { unfold set_transform. revert Hn. generalize (upper value). intros name Hn.
    run_M. cbn [transformations with__transform].
    destruct (has_key (transformations w) name) eqn:Hk.
    { exfalso. apply Hn. apply (reachable_cache_names w Hr) in Hk.
      apply list_elem_of_In in Hk. apply list_elem_of_In. simpl in *. tauto. }
    assert (Hne : forall t, t ∈ transform_names -> name <> t) by (by intros t Ht ->).
    rewrite !decide_False by (apply Hne, list_elem_of_In; simpl; tauto).
    done. }
  by rewrite Hrun.
Qed.

End unsupported.

Lemma chain_W_reachable : reachable Z.le chain_W.
Proof.
  apply (reach_new Z.le chain_neighbors (Some chain_weights) None).
  vm_compute. reflexivity.
Qed.

Lemma C2_witness :
  output_of (set_transform "x" chain_W) = ["unsupported weights transformation"] /\
  outcome_of (set_transform "x" chain_W) = Ok tt /\
  weights (state_of (set_transform "x" chain_W)) = weights chain_W /\
  transformations (state_of (set_transform "x" chain_W)) = transformations chain_W /\
  _id_order (state_of (set_transform "x" chain_W)) = _id_order chain_W /\
  chars (state_of (set_transform "x" chain_W)) = chars chain_W /\
  state_of (set_transform "x" chain_W) = with__transform (Some (upper "x")) chain_W.
Proof.
  apply (C2_unsupported_name Z.le chain_W "x").
  - apply (reach_new Z.le chain_neighbors (Some chain_weights) None).
    vm_compute. reflexivity.
  - vm_compute. intros Hin. apply list_elem_of_In in Hin. simpl in Hin.
    repeat destruct Hin as [Hin|Hin]; try discriminate Hin. exact Hin.
Defined.

(** C2, counterexample.  On the example container the unsupported name
    ["x"] changes the transform indicator from [None] to ["X"]. *)
Lemma C2_counterexample : ~ unsupported_name_changes_nothing.
Proof.
  intros Hc. destruct (Hc chain_W "x") as (_ & _ & _ & Ht).
  - exact chain_W_reachable.
  - intros Hin. apply list_elem_of_In in Hin. vm_compute in Hin.
    repeat destruct Hin as [Hin|Hin]; try discriminate Hin. exact Hin.
  - vm_compute in Ht. discriminate Ht.
Qed.


(** ** The example of the specification *)

(** C6.  The container built from neighbors [{0:[1],1:[0,2],2:[1]}] and
    weights [{0:[1],1:[1,1],2:[1]}] has [n = 3], [nonzero = 4], [s0 = 4.0],
    no islands, cardinalities [{0:1, 1:2, 2:1}] and [asymmetric = 0], the
    integer that Python compares equal to [False]. *)
Theorem C6_chain_characteristics :
  exists w : W Z pynum,
    new_W Z.le chain_neighbors (Some chain_weights) None = Ok w /\
    n (chars w) = 3 /\
    nonzero (chars w) = 4 /\
    s0 (chars w) = PyFloat (float_of_Z 4) /\
    islands (chars w) = [] /\
    cardinalities (chars w) = [(0, 1); (1, 2); (2, 1)] /\
    asymmetric (chars w) = 0.
Proof. exists chain_W. vm_compute. repeat split; reflexivity. Qed.

(** ** The variance-stabilizing transformation is not cached *)

Section variance.
Context {K : Type} `{EqDecision K} (Kle : relation K) `{!RelDecision Kle}.
Context {F : Type} `{PyNum F}.
#[local] Abbreviation W := (W K F).

(** The branch V leaves the cache of transformations as it found it. *)
Lemma set_transform_V_cache (w : W) (value : string) :
  upper value = "V" ->
  has_key (transformations w) "V" = false ->
  transformations (state_of (set_transform value w)) = transformations w.
Proof.
  intros Hv Hk. unfold set_transform. rewrite Hv. run_M.
  cbn [transformations with__transform]. rewrite Hk.
  rewrite !decide_False by done. rewrite decide_True by done.
  set (w1 := with__transform (Some "V") w).
  change (transformations w) with (transformations w1).
  generalize w1. clear. intros w.
  apply (preserves_bind (fun w' : W => transformations w' = transformations w));
    [apply preserves_lift|intros ws| done].
  apply preserves_bind; [by apply preserves_modify|intros _].
  by apply preserves_characteristics.
Qed.

(** C4 at the branch V.  On every container, after [transform] is set to
    V (in either letter case), the cache of transformations has no entry
    under ["V"]: the branch computes the weights and never stores them. *)
Theorem C4_variance_not_cached (w : W) (value : string) :
  reachable Kle w ->
  upper value = "V" ->
  has_key (transformations (state_of (set_transform value w))) "V" = false.
Proof.
  intros Hr Hv.
  assert (Hk : has_key (transformations w) "V" = false).
  { destruct (has_key (transformations w) "V") eqn:Hk; [|done].
    apply (reachable_cache_names Kle w Hr) in Hk.
    apply list_elem_of_In in Hk. simpl in Hk.
    repeat destruct Hk as [Hk|Hk]; try discriminate Hk. destruct Hk. }
  by rewrite set_transform_V_cache.
Qed.

End variance.

Lemma C4_variance_not_cached_witness :
  has_key (transformations (state_of (set_transform "v" chain_W))) "V" = false.
Proof.
  apply (C4_variance_not_cached Z.le chain_W "v").
  - apply (reach_new Z.le chain_neighbors (Some chain_weights) None).
    vm_compute. reflexivity.
  - vm_compute. reflexivity.
Defined.


(** ** Setting the iteration order *)

Section id_order.
Context {K : Type} `{EqDecision K} (Kle : relation K) `{!RelDecision Kle}.
Context {F : Type} `{PyNum F}.
#[local] Abbreviation W := (W K F).

Lemma same_set_spec (a b : list K) :
  same_set a b = true <-> (forall x, x ∈ a <-> x ∈ b).
Proof.
  unfold same_set, contains. rewrite andb_true_iff, !forallb_forall.
  split.
  - intros [Hab Hba] x. split; intros Hx.
    + apply list_elem_of_In, Hab in Hx. by apply bool_decide_eq_true in Hx.
    + apply list_elem_of_In, Hba in Hx. by apply bool_decide_eq_true in Hx.
  - intros Heq. split; intros x Hx%list_elem_of_In; apply bool_decide_eq_true;
      by apply Heq.
Qed.

(** What an assignment to [id_order] does, on any object: the comparison
    is with the elements of the current order. *)
Lemma set_id_order_run (w : W) (ordered_ids : list K) :
  ((forall x, x ∈ ordered_ids <-> x ∈ _id_order w) /\
   __set_id_order ordered_ids w =
     (with__W__neighbors_0 None (with_neighbor_0_ids (Some [])
        (with__id_order_set true (with__idx 0 (with__id_order ordered_ids w)))),
      [], Ok tt))
  \/
  (~ (forall x, x ∈ ordered_ids <-> x ∈ _id_order w) /\
   __set_id_order ordered_ids w =
     (w, [], Raise (Exception "ordered_ids do not align with W ids"))).
Proof.
  unfold __set_id_order. run_M.
  destruct (same_set (_id_order w) ordered_ids) eqn:Hs.
  - left. pose proof (proj1 (same_set_spec _ _) Hs) as Hs'. run_M. split; [|done].
    intros x. symmetry. apply Hs'.
  - right. split; [|done]. intros Heq.
    assert (Hs' : same_set (_id_order w) ordered_ids = true); [|congruence].
    apply (proj2 (same_set_spec _ _)). intros x. symmetry. apply Heq.
Qed.

(** C3.  On every container, assigning a sequence to [id_order] does one of
    two things, and which one is decided by comparing the elements of the
    sequence with the elements of the current iteration order, not with
    the ids of the container.  When the two sets are equal the call
    returns, the sequence is the new order, the order is marked as set by
    the user and the cache of neighbor offsets is dropped; weights,
    neighbors, cached transformations and derived characteristics are
    untouched.  Otherwise the call raises the exception with the alignment
    message and the object is exactly what it was.  The docstring of the
    setter has the check against the keys of [weights]: the two agree on a
    container whose order lists exactly its ids, and differ on one that the
    class call built from an [id_order] that does not. *)
Theorem C3_set_id_order (w : W) (ordered_ids : list K) :
  ((forall x, x ∈ ordered_ids <-> x ∈ _id_order w) /\
   outcome_of (__set_id_order ordered_ids w) = Ok tt /\
   _id_order (state_of (__set_id_order ordered_ids w)) = ordered_ids /\
   _id_order_set (state_of (__set_id_order ordered_ids w)) = true /\
   _W__neighbors_0 (state_of (__set_id_order ordered_ids w)) = None /\
   cache_truthy (_W__neighbors_0 (state_of (__set_id_order ordered_ids w))) = false /\
   neighbors (state_of (__set_id_order ordered_ids w)) = neighbors w /\
   weights (state_of (__set_id_order ordered_ids w)) = weights w /\
   transformations (state_of (__set_id_order ordered_ids w)) = transformations w /\
   chars (state_of (__set_id_order ordered_ids w)) = chars w)
  \/
  (~ (forall x, x ∈ ordered_ids <-> x ∈ _id_order w) /\
   __set_id_order ordered_ids w =
     (w, [], Raise (Exception "ordered_ids do not align with W ids"))).
Proof.
  destruct (set_id_order_run w ordered_ids) as [[Hs ->]|[Hs ->]]; [left|right]; done.
Qed.

(** On a container whose iteration order lists exactly its ids, the
    comparison is the one with the ids. *)
Lemma set_id_order_on_aligned (w : W) (ordered_ids : list K) :
  ids_aligned w ->
  ((forall x, x ∈ ordered_ids <-> x ∈ keys (neighbors w)) <->
   outcome_of (__set_id_order ordered_ids w) = Ok tt) /\
  (outcome_of (__set_id_order ordered_ids w) <> Ok tt ->
   __set_id_order ordered_ids w =
     (w, [], Raise (Exception "ordered_ids do not align with W ids"))).
Proof.
  intros Ha.
  assert (Hiff : (forall x, x ∈ ordered_ids <-> x ∈ keys (neighbors w)) <->
                 (forall x, x ∈ ordered_ids <-> x ∈ _id_order w)).
  { split; intros Hx x; [rewrite (Ha x)|rewrite <- (Ha x)]; apply Hx. }
  destruct (set_id_order_run w ordered_ids) as [[Hs ->]|[Hs ->]].
  - split; [|done]. split; [done|]. intros _. by apply Hiff.
  - split; [|done]. split; [|done]. intros Hx. destruct Hs. by apply Hiff.
Qed.

(** The default order of [__init__] lists exactly the ids. *)
Lemma new_W_default_aligned nb wt (w : W) :
  new_W Kle nb wt None = Ok w -> ids_aligned w.
Proof.
  intros (ws & _ & _ & ->)%new_W_inv.
  assert (Hi : ids_aligned (init_state Kle nb ws None)).
  { intros x. simpl. by rewrite merge_sort_Permutation. }
  revert Hi.
  apply (preserves_characteristics (ids_aligned (K:=K) (F:=F))). by intros.
Qed.

(** The transformations keep the order aligned, and so does the setter. *)
Lemma set_transform_aligned value :
  preserves (ids_aligned (K:=K) (F:=F)) (set_transform value).
Proof.
  unfold set_transform. generalize (upper value). clear value. intros value.
  assert (Hc : preserves (ids_aligned (K:=K) (F:=F)) _characteristics)
    by (by apply preserves_characteristics).
  repeat first
    [ apply preserves_bind; [|intros]
    | apply preserves_get | apply preserves_lift | apply preserves_print
    | exact Hc
    | by apply preserves_modify
    | match goal with
      | |- preserves _ (if has_key ?d ?k then _ else _) => destruct (has_key d k)
      | |- preserves _ (if decide ?P then _ else _) => destruct (decide P)
      end ].
Qed.

Lemma set_id_order_aligned ordered_ids :
  preserves (ids_aligned (K:=K) (F:=F)) (__set_id_order ordered_ids).
Proof.
  intros w Ha. unfold __set_id_order. run_M.
  destruct (same_set (_id_order w) ordered_ids) eqn:Hs; run_M; [|done].
  pose proof (proj1 (same_set_spec _ _) Hs) as Hs'.
  intros x. simpl. rewrite <- (Ha x). symmetry. apply Hs'.
Qed.

End id_order.

(** C3, at a container built from an explicit order that leaves out an
    id.  The class call [W({0:[1],1:[0]}, None, [0])] returns; on the
    object, whose ids (the keys of [neighbors] and of [weights]) are 0 and
    1, the sequence [[0; 1]] of exactly these ids is refused with the
    alignment exception, and the sequence [[0; 0]], which lacks id 1, is
    accepted and becomes the order. *)
Lemma C3_failing_input :
  new_W Z.le surplus_neighbors None (Some [0]) = Ok partial_order_W /\
  keys (neighbors partial_order_W) = [0; 1] /\
  keys (weights partial_order_W) = [0; 1] /\
  __set_id_order [0; 1] partial_order_W =
    (partial_order_W, [], Raise (Exception "ordered_ids do not align with W ids")) /\
  outcome_of (__set_id_order [0; 0] partial_order_W) = Ok tt /\
  _id_order (state_of (__set_id_order [0; 0] partial_order_W)) = [0; 0].
Proof. vm_compute. repeat split; reflexivity. Qed.


(** ** Loops that rebuild a weights mapping row by row *)

Section rows.
Context {K : Type} `{EqDecision K} {A B : Type}.

Lemma dict_find_app (d1 d2 : dict K A) (k : K) :
  dict_find (d1 ++ d2) k =
  match dict_find d1 k with
  | Some v => Some v
  | None => dict_find d2 k
  end.
Proof.
  induction d1 as [|[k0 v0] d1 IH]; simpl; [done|].
  by destruct (decide (k0 = k)).
Qed.

(** A loop [for i in ws: out[i] = g(ws[i])] over a mapping with distinct
    keys builds the mapping of the same keys, in the same order. *)
Lemma foldM_rows (g : A -> B) (step : dict K B -> K -> result (dict K B))
    (pre suf : dict K A) :
  NoDup (keys (pre ++ suf)) ->
  (forall acc i x, (i, x) ∈ suf -> dict_find (pre ++ suf) i = Some x ->
     step acc i = Ok (setitem acc i (g x))) ->
  foldM step ((fun ix : K * A => (ix.1, g ix.2)) <$> pre) (keys suf) =
  Ok ((fun ix : K * A => (ix.1, g ix.2)) <$> (pre ++ suf)).
Proof.
  revert pre. induction suf as [|[i x] suf IH]; intros pre Hnd Hstep; simpl.
  - by rewrite app_nil_r.
  - assert (Hi : i ∉ keys pre).
    { unfold keys in Hnd. rewrite fmap_app in Hnd.
      apply NoDup_app in Hnd as (_ & Hd & _). intros Hin.
      apply (Hd i Hin). simpl. apply list_elem_of_here. }
    assert (Hf : dict_find (pre ++ (i, x) :: suf) i = Some x).
    { rewrite dict_find_app. apply dict_find_None in Hi. rewrite Hi. simpl.
      by rewrite decide_True. }
    rewrite (Hstep _ i x); [|apply list_elem_of_here|done]. simpl.
    rewrite keys_setitem_fresh.
    2:{ unfold keys. rewrite <- list_fmap_compose. exact Hi. }
    specialize (IH (pre ++ [(i, x)])).
    rewrite fmap_app in IH. simpl in IH. rewrite <- app_assoc in IH. simpl in IH.
    apply IH; [done|].
    intros acc j y Hj Hfj. apply Hstep; [by apply list_elem_of_further|done].
Qed.

Lemma foldM_rows_all (g : A -> B) (step : dict K B -> K -> result (dict K B))
    (ws : dict K A) :
  NoDup (keys ws) ->
  (forall acc i x, (i, x) ∈ ws -> dict_find ws i = Some x ->
     step acc i = Ok (setitem acc i (g x))) ->
  foldM step [] (keys ws) = Ok ((fun ix : K * A => (ix.1, g ix.2)) <$> ws).
Proof. intros Hnd Hstep. by apply (foldM_rows g step [] ws). Qed.

End rows.

(** ** Row standardization *)

Section row_standardization.
Context {K : Type} `{EqDecision K} (Kle : relation K) `{!RelDecision Kle}.
Context {F : Type} `{PyNum F}.
#[local] Abbreviation W := (W K F).

Lemma comprehension_cons {X Y} (f : X -> result Y) (x : X) (l : list X) :
  comprehension f (x :: l) = (y ← f x; ys ← comprehension f l; Ok (y :: ys)).
Proof. reflexivity. Qed.

Lemma comprehension_pydiv (d : F) (wijs : list F) :
  wijs = [] \/ is_zero d = false ->
  comprehension (fun wij => pydiv wij d) wijs = Ok ((fun wij => quot wij d) <$> wijs).
Proof.
  intros [->|Hd]; [done|].
  induction wijs as [|x wijs IH]; [done|].
  rewrite comprehension_cons, IH. unfold pydiv. by rewrite Hd.
Qed.

(** C10 (amended).  When every non-empty row of the current weights has a
    nonzero row sum, the row-standardization loop returns: no division by
    zero is raised.  An id with an empty weight list takes part in no
    division, whatever its row sum, and has the empty list again in the
    result; on a container whose weight lists have the lengths of its
    neighbor lists every island is such an id.  Setting [transform] to R
    on a container that has no cached R then is the characteristics pass
    on the object holding these weights, as current weights and under
    ["R"] in the cache. *)
Theorem C10_row_standardization_total (w : W) (value : string) :
  NoDup (keys (weights w)) ->
  (forall i wijs, (i, wijs) ∈ weights w -> wijs <> [] ->
     is_zero (row_sum_of wijs) = false) ->
  upper value = "R" ->
  has_key (transformations w) "R" = false ->
  row_standardize (weights w) = Ok (row_standardized (weights w)) /\
  (forall i, dict_find (weights w) i = Some [] ->
     row_standardize_row (weights w) [] i = Ok [(i, [])] /\
     dict_find (row_standardized (weights w)) i = Some []) /\
  (aligned w ->
   forall i, dict_find (neighbors w) i = Some [] ->
     dict_find (weights w) i = Some [] /\
     dict_find (row_standardized (weights w)) i = Some []) /\
  set_transform value w =
    _characteristics
      (with_weights (row_standardized (weights w))
         (with_transformations
            (setitem (transformations w) "R" (row_standardized (weights w)))
            (with__transform (Some "R") w))).
Proof.
  intros Hnd Hnz Hv Hk.
  assert (Hrs : row_standardize (weights w) = Ok (row_standardized (weights w))).
  { unfold row_standardize, row_standardized.
    apply (foldM_rows_all (fun wijs => (fun wij => quot wij (row_sum_of wijs)) <$> wijs));
      [done|].
    intros acc i wijs Hin Hf. unfold row_standardize_row, getitem. rewrite Hf. simpl.
    fold (row_sum_of wijs). rewrite comprehension_pydiv; [done|].
    destruct wijs as [|x wijs]; [by left|right]. by apply (Hnz i). }
  assert (Hempty : forall i, dict_find (weights w) i = Some [] ->
            dict_find (row_standardized (weights w)) i = Some []).
  { intros i Hi. apply dict_find_NoDup.
    - unfold row_standardized, keys. by rewrite <- list_fmap_compose.
    - apply dict_find_Some_In in Hi. unfold row_standardized.
      apply list_elem_of_fmap. by exists (i, []). }
  split; [done|]. split; [|split].
  - intros i Hi. split; [|by apply Hempty].
    unfold row_standardize_row, getitem. by rewrite Hi.
  - intros Hal i Hi. destruct (Hal i [] Hi) as (ws & Hws & Hlen).
    destruct ws; [|done]. split; [done|]. by apply Hempty.
  - unfold set_transform. rewrite Hv. run_M.
    cbn [transformations weights with__transform]. rewrite Hk.
    rewrite decide_True by done. rewrite Hrs. by run_M.
Qed.

End row_standardization.

Lemma island_W_new : new_W Z.le island_neighbors None None = Ok island_W.
Proof. vm_compute. reflexivity. Qed.

Lemma C10_witness :
  row_standardize (weights island_W) = Ok (row_standardized (weights island_W)) /\
  (forall i, dict_find (weights island_W) i = Some [] ->
     row_standardize_row (weights island_W) [] i = Ok [(i, [])] /\
     dict_find (row_standardized (weights island_W)) i = Some []) /\
  (aligned island_W ->
   forall i, dict_find (neighbors island_W) i = Some [] ->
     dict_find (weights island_W) i = Some [] /\
     dict_find (row_standardized (weights island_W)) i = Some []) /\
  set_transform "r" island_W =
    _characteristics
      (with_weights (row_standardized (weights island_W))
         (with_transformations
            (setitem (transformations island_W) "R" (row_standardized (weights island_W)))
            (with__transform (Some "R") island_W))).
Proof.
  apply (C10_row_standardization_total island_W "r").
  - apply (bool_decide_unpack _). vm_compute. exact I.
  - intros i wijs Hin Hne. apply list_elem_of_In in Hin. vm_compute in Hin.
    destruct Hin as [Hin|[Hin|[Hin|[]]]]; injection Hin as <- <-;
      first [ vm_compute; reflexivity | by destruct Hne ].
  - vm_compute. reflexivity.
  - vm_compute. reflexivity.
Defined.

(** C10, counterexample.  The class call does not compare the lengths of
    the weight lists with those of the neighbor lists: with neighbors
    [{0:[1],1:[0],2:[]}] and weights [{0:[1],1:[1],2:[0]}] it returns a
    container whose island, id 2, has the weight list [[0]]; selecting R
    divides by the zero row sum of that island and raises
    ZeroDivisionError. *)
Lemma C10_counterexample : ~ islands_never_divide.
Proof.
  intros Hc.
  destruct (Hc weighted_island_W 2) as [Hw _].
  - apply (reach_new Z.le island_neighbors (Some weighted_island_weights) None).
    vm_compute. reflexivity.
  - vm_compute. reflexivity.
  - vm_compute in Hw. discriminate Hw.
Qed.

Example weighted_island_R :
  new_W Z.le island_neighbors (Some weighted_island_weights) None = Ok weighted_island_W /\
  islands (chars weighted_island_W) = [2] /\
  row_standardize_row (weights weighted_island_W) [] 2 = Raise ZeroDivisionError /\
  outcome_of (set_transform "R" weighted_island_W) = Raise ZeroDivisionError.
Proof. vm_compute. repeat split; reflexivity. Qed.


(** ** What a returning characteristics pass computed *)

Section characteristics_inv.
Context {K : Type} `{EqDecision K} {F : Type} `{PyNum F}.
#[local] Abbreviation W := (W K F).

Lemma bind_asymmetry {B} (nz : bool) (f : list (asym_entry K) -> M B) (w : W) :
  (asymmetry nz ≫= f) w = (lift (asymmetry_of w nz) ≫= f) w.
Proof. reflexivity. Qed.

Lemma asymmetry_of_with_chars (g : characteristics K F -> characteristics K F)
    (w : W) (nz : bool) :
  asymmetry_of (with_chars g w) nz = asymmetry_of w nz.
Proof. reflexivity. Qed.

Lemma characteristics_ok_inv (w : W) :
  outcome_of (_characteristics w) = Ok tt ->
  exists a s1v s2v mx mn mean pct asymmetries,
    moments_loop w = Ok a /\
    pydiv (m_s1 a) (pyfloat 2) = Ok s1v /\
    s2_of a = Ok s2v /\
    py_max (values (m_cardinalities a)) = Ok mx /\
    py_min (values (m_cardinalities a)) = Ok mn /\
    pydiv (pyint (sumZ (values (m_cardinalities a))))
          (mul (pyint (len (weights w))) (pyfloat 1)) = Ok mean /\
    pydiv (pyint (m_nonzero a))
          (mul (mul (pyfloat 1) (pyint (len (weights w)))) (pyint (len (weights w))))
      = Ok pct /\
    asymmetry_of w true = Ok asymmetries /\
    state_of (_characteristics w) =
      with_chars (fun _ => chars_after w a s1v s2v mean pct mx mn asymmetries) w.
Proof.
  unfold _characteristics. run_M.
  destruct (moments_loop w) as [e|a] eqn:Ha; run_M; [by simpl|].
  destruct (pydiv (m_s1 a) (pyfloat 2)) as [e|s1v] eqn:Hs1; run_M; [by simpl|].
  destruct (s2_of a) as [e|s2v] eqn:Hs2; run_M; [by simpl|].
  destruct (py_max (values (m_cardinalities a))) as [e|mx] eqn:Hmx; run_M; [by simpl|].
  destruct (py_min (values (m_cardinalities a))) as [e|mn] eqn:Hmn; run_M; [by simpl|].
  destruct (pydiv (pyint (sumZ (values (m_cardinalities a))))
              (mul (pyint (len (weights w))) (pyfloat 1))) as [e|mean] eqn:Hmean;
    run_M; [by simpl|].
  destruct (pydiv (pyint (m_nonzero a))
              (mul (mul (pyfloat 1) (pyint (len (weights w)))) (pyint (len (weights w)))))
    as [e|pct] eqn:Hpct; run_M; [by simpl|].
  rewrite bind_asymmetry, !asymmetry_of_with_chars.
  destruct (asymmetry_of w true) as [e|asym] eqn:Has; run_M; [by simpl|].
  intros _. exists a, s1v, s2v, mx, mn, mean, pct, asym.
  repeat (split; [done|]). reflexivity.
Qed.

End characteristics_inv.


(** ** Loops with exceptions *)

Section loops.
Context {A B : Type}.

Lemma foldM_cons (f : A -> B -> result A) (a : A) (x : B) (l : list B) :
  foldM f a (x :: l) = (a' ← f a x; foldM f a' l).
Proof. reflexivity. Qed.

Lemma foldM_app (f : A -> B -> result A) (a : A) (l1 l2 : list B) :
  foldM f a (l1 ++ l2) = (a' ← foldM f a l1; foldM f a' l2).
Proof.
  revert a. induction l1 as [|x l1 IH]; intros a; [done|].
  rewrite <- app_comm_cons, !foldM_cons. destruct (f a x) as [e|a']; [done|].
  apply IH.
Qed.

(** A loop whose body raises at one of its elements raises. *)
Lemma foldM_raises (f : A -> B -> result A) (a : A) (l : list B) (x : B) :
  x ∈ l -> (forall a', is_ok (f a' x) = false) -> is_ok (foldM f a l) = false.
Proof.
  intros Hx Hf. revert a. induction l as [|y l IH]; intros a.
  - by apply elem_of_nil in Hx.
  - rewrite foldM_cons. apply elem_of_cons in Hx as [<-|Hx].
    + specialize (Hf a). by destruct (f a x).
    + destruct (f a y) as [e|a']; [done|]. by apply IH.
Qed.

End loops.

(** A loop that appends to a list. *)
Lemma foldM_appends {X Y} (f : list Y -> X -> result (list Y)) (g : X -> list Y)
    (acc : list Y) (l : list X) :
  (forall acc' x, x ∈ l -> f acc' x = Ok (acc' ++ g x)) ->
  foldM f acc l = Ok (acc ++ (l ≫= g)).
Proof.
  revert acc. induction l as [|x l IH]; intros acc Hf; simpl.
  - by rewrite app_nil_r.
  - rewrite Hf by apply list_elem_of_here. simpl.
    rewrite IH; [by rewrite <- app_assoc|].
    intros acc' y Hy. apply Hf. by apply list_elem_of_further.
Qed.

(** ** Positions in Python lists *)

Section index.
Context {A : Type} `{EqDecision A}.

Lemma index_of_None (x : A) (l : list A) : index_of x l = None <-> x ∉ l.
Proof.
  induction l as [|y l IH]; simpl.
  - split; [intros _; apply not_elem_of_nil|done].
  - rewrite not_elem_of_cons. destruct (decide (y = x)) as [->|Hne].
    + split; [done|]. by intros [? _].
    + rewrite fmap_None, IH. split; [|tauto]. intros ?; split; [congruence|done].
Qed.

Lemma index_of_Some (x : A) (l : list A) (p : nat) :
  index_of x l = Some p -> l !! p = Some x.
Proof.
  revert p. induction l as [|y l IH]; intros p; simpl; [done|].
  destruct (decide (y = x)) as [->|Hne].
  - by intros [= <-].
  - intros (q & Hq & ->)%fmap_Some. simpl. by apply IH.
Qed.

(** In a list without repetition the first position of an element is its
    position. *)
Lemma index_of_NoDup (x : A) (l : list A) (p : nat) :
  NoDup l -> l !! p = Some x -> index_of x l = Some p.
Proof.
  revert p. induction l as [|y l IH]; intros p Hnd Hp; [done|].
  apply NoDup_cons in Hnd as [Hy Hnd]. simpl.
  destruct p as [|p]; simpl in Hp.
  - injection Hp as ->. by rewrite decide_True.
  - destruct (decide (y = x)) as [->|Hne].
    + exfalso. apply Hy. by apply list_elem_of_lookup_2 in Hp.
    + by rewrite (IH p).
Qed.

Lemma contains_true (x : A) (l : list A) : contains x l = true <-> x ∈ l.
Proof. unfold contains. apply bool_decide_eq_true. Qed.

Lemma contains_false (x : A) (l : list A) : contains x l = false <-> x ∉ l.
Proof. unfold contains. apply bool_decide_eq_false. Qed.

End index.

Lemma enumerate_elem {A} (l : list A) (p : nat) (x : A) :
  (p, x) ∈ enumerate l <-> l !! p = Some x.
Proof.
  unfold enumerate. rewrite elem_of_lookup_imap. split.
  - by intros (i & y & [= -> ->] & Hl).
  - intros Hl. by exists p, x.
Qed.


(** ** The exceptions of the class call *)

Section builtin.
Context {K : Type} `{EqDecision K} (Kle : relation K) `{!RelDecision Kle}.
Context {F : Type} `{PyNum F}.
#[local] Abbreviation W := (W K F).
#[local] Abbreviation M := (@M K F).


















End builtin.


(** ** Weights shorter than the neighbor list *)

Section short_weights.
Context {K : Type} `{EqDecision K} (Kle : relation K) `{!RelDecision Kle}.
Context {F : Type} `{PyNum F}.
#[local] Abbreviation W := (W K F).

(** [asymmetry] reads [self.weights[i][pos]] at every stored position of
    every id, outside of its [try]: a weight list shorter than the
    neighbor list makes it raise. *)
Lemma asymmetry_short_raises (w : W) (nz : bool) (i : K) (ns : list K) (ws : list F) :
  (i, ns) ∈ neighbors w ->
  dict_find (weights w) i = Some ws ->
  (length ws < length ns)%nat ->
  is_ok (asymmetry_of w nz) = false.
Proof.
  intros Hin Hws Hlen. unfold asymmetry_of, items.
  apply (foldM_raises _ _ _ (i, ns)); [done|]. intros acc.
  unfold asymmetry_row.
  destruct (lookup_lt_is_Some_2 ns (length ws) Hlen) as [j Hj].
  apply (foldM_raises _ _ _ (length ws, j)); [by apply enumerate_elem|].
  intros acc'. unfold asymmetry_edge, getitem, list_getitem. rewrite Hws. simpl.
  by rewrite (lookup_ge_None_2 ws (length ws)).
Qed.


End short_weights.




(** ** The asymmetry check *)

Section asymmetry_facts.
Context {K : Type} `{EqDecision K} {F : Type} `{PyNum F}.
#[local] Abbreviation W := (W K F).

Lemma asymmetry_edge_spec (w : W) (nz : bool) (i : K) (ns : list K)
    (acc : list (asym_entry K)) (pj : nat * K) :
  aligned w ->
  dict_find (neighbors w) i = Some ns ->
  pj ∈ enumerate ns ->
  asymmetry_edge w nz i acc pj = Ok (acc ++ edge_entry w nz i pj).
Proof.
  intros Hal Hns Hpj. destruct pj as [pos j]. apply enumerate_elem in Hpj.
  destruct (Hal i ns Hns) as (ws & Hws & Hlen).
  destruct (lookup_lt_is_Some_2 ws pos) as [wij Hwij].
  { rewrite Hlen. by apply lookup_lt_Some in Hpj. }
  unfold asymmetry_edge, edge_entry, lists_neighbor, weight_at, reciprocal,
    getitem, list_getitem, list_index.
  cbn [fst snd]. rewrite Hws. simpl. rewrite Hwij. simpl.
  destruct (dict_find (neighbors w) j) as [nj|] eqn:Hnj.
  - destruct (Hal j nj Hnj) as (wj & Hwj & Hlenj). rewrite Hwj. simpl.
    destruct (index_of i nj) as [p|] eqn:Hp; simpl.
    + assert (Hin : contains i nj = true).
      { apply contains_true. apply index_of_Some in Hp.
        by apply list_elem_of_lookup_2 in Hp. }
      rewrite Hin.
      destruct (lookup_lt_is_Some_2 wj p) as [wji Hwji].
      { rewrite Hlenj. apply index_of_Some in Hp. by apply lookup_lt_Some in Hp. }
      rewrite Hwji. unfold weight_at. rewrite Hwj. simpl. rewrite Hwji.
      destruct (negb nz && ne wij wji); [done|]. by rewrite app_nil_r.
    + assert (Hin : contains i nj = false).
      { apply contains_false. by apply index_of_None. }
      by rewrite Hin.
  - simpl. by destruct (dict_find (weights w) j).
Qed.

(** With [nonzero] true only missing reciprocals are reported. *)
Lemma asymmetry_spec_nonzero (w : W) (e : asym_entry K) :
  e ∈ asymmetry_spec w true -> e.2 = None.
Proof.
  unfold asymmetry_spec. intros (item & He & _)%list_elem_of_bind.
  apply list_elem_of_bind in He as (pj & He & _).
  unfold edge_entry in He. simpl in He.
  destruct (lists_neighbor w pj.2 item.1).
  - destruct (weight_at w item.1 pj.1), (reciprocal w item.1 pj.2);
      by apply elem_of_nil in He.
  - apply list_elem_of_singleton in He. by subst.
Qed.

Lemma aligned_check_sound (w : W) : aligned_check w = true -> aligned w.
Proof.
  unfold aligned_check. rewrite forallb_forall. intros Hc i ns Hns.
  apply dict_find_Some_In, list_elem_of_In in Hns. specialize (Hc _ Hns).
  simpl in Hc. destruct (dict_find (weights w) i) as [ws|]; [|done].
  exists ws. split; [done|]. by apply bool_decide_eq_true in Hc.
Qed.

End asymmetry_facts.

(** The docstring example: only the edge from 0 to 1 lacks its reciprocal. *)
Example doc_asymmetry : asymmetry_spec doc_W true = [((0, 1), None)].
Proof. vm_compute. reflexivity. Qed.


(** ** The double loop of the characteristics pass *)

Section moments_facts.
Context {K : Type} `{EqDecision K} {F : Type} `{PyNum F}.
#[local] Abbreviation W := (W K F).

Lemma bind_Ok_inv {X Y} (m : result X) (f : X -> result Y) (y : Y) :
  m ≫= f = Ok y -> exists x, m = Ok x /\ f x = Ok y.
Proof. destruct m as [e|x]; [done|]. intros Hf. by exists x. Qed.

Lemma fold_left_add_from (l : list Z) (z : Z) :
  fold_left Z.add l z = z + fold_left Z.add l 0.
Proof.
  revert z. induction l as [|x l IH]; intros z; simpl; [lia|].
  rewrite (IH (z + x)). rewrite (IH (0 + x)). lia.
Qed.

Lemma sumZ_cons (x : Z) (l : list Z) : sumZ (x :: l) = x + sumZ l.
Proof. unfold sumZ. simpl. apply fold_left_add_from. Qed.

(** What one returning step of the inner loop did to the local variables. *)
Lemma edge_step_inv (w : W) (i : K) (ni : list K) (wi : list F)
    (a a' : moments) (j : K) :
  edge_step w i ni wi a j = Ok a' ->
  m_nonzero a' = m_nonzero a + 1 /\
  m_cardinalities a' = m_cardinalities a /\
  exists wij wji,
    m_s1 a' = add (m_s1 a) (mul (add wij wji) (add wij wji)) /\
    m_s0 a' = add (m_s0 a) wij /\
    wji = default (pyint 0) (reciprocal w i j) /\
    match index_of j ni with
    | Some p => wi !! p = Some wij
    | None => wij = pyint 0
    end.
Proof.
  unfold edge_step. intros Hs.
  apply bind_Ok_inv in Hs as (wj & Hwj & Hs).
  apply bind_Ok_inv in Hs as (nj & Hnj & Hs).
  apply bind_Ok_inv in Hs as (wji & Hwji & Hs).
  apply bind_Ok_inv in Hs as (wij & Hwij & Hs).
  apply bind_Ok_inv in Hs as (c & Hc & Hs).
  apply bind_Ok_inv in Hs as (r & Hr & Hs).
  injection Hs as <-. cbn [m_nonzero m_cardinalities m_s1 m_s0].
  split; [done|]. split; [done|]. exists wij, wji.
  split; [done|]. split; [done|].
  apply getitem_Ok in Hwj, Hnj. split.
  - unfold reciprocal, weight_at. rewrite Hnj. simpl.
    destruct (contains i nj) eqn:Hin.
    + apply bind_Ok_inv in Hwji as (ji & Hji & Hwji).
      unfold list_index in Hji. destruct (index_of i nj) as [p|]; [|done].
      injection Hji as ->. simpl. rewrite Hwj. simpl.
      unfold list_getitem in Hwji. destruct (wj !! ji); [|done].
      by injection Hwji as ->.
    + injection Hwji as <-. apply contains_false, index_of_None in Hin.
      by rewrite Hin.
  - destruct (contains j ni) eqn:Hin.
    + apply bind_Ok_inv in Hwij as (ij & Hij & Hwij).
      unfold list_index in Hij. destruct (index_of j ni) as [p|]; [|done].
      injection Hij as ->. unfold list_getitem in Hwij.
      destruct (wi !! ij); [|done]. by injection Hwij as ->.
    + injection Hwij as <-. apply contains_false, index_of_None in Hin.
      by rewrite Hin.
Qed.

Lemma sum_sq_edges_app (w : W) (s : F) (l1 l2 : list (K * (nat * K))) :
  sum_sq_edges w s (l1 ++ l2) = sum_sq_edges w (sum_sq_edges w s l1) l2.
Proof. unfold sum_sq_edges. apply fold_left_app. Qed.

Lemma sum_sq_edges_cons (w : W) (s : F) (e : K * (nat * K)) (l : list (K * (nat * K))) :
  sum_sq_edges w s (e :: l) =
  sum_sq_edges w (add s (mul (add (edge_wij w e) (edge_wji w e))
                             (add (edge_wij w e) (edge_wji w e)))) l.
Proof. reflexivity. Qed.

(** The inner loop, counting only. *)
Lemma inner_loop_counts (w : W) (i : K) (ni : list K) (wi : list F)
    (a a' : moments) (l : list K) :
  foldM (edge_step w i ni wi) a l = Ok a' ->
  m_nonzero a' = m_nonzero a + len l /\
  m_cardinalities a' = m_cardinalities a.
Proof.
  revert a. induction l as [|j l IH]; intros a.
  - intros [= <-]. unfold len. simpl. split; [lia|done].
  - rewrite foldM_cons. intros (a1 & H1 & Hl)%bind_Ok_inv.
    apply edge_step_inv in H1 as (Hn & Hc & _).
    apply IH in Hl as [Hn' Hc']. rewrite Hn', Hc', Hn, Hc.
    unfold len. simpl. split; [lia|done].
Qed.

(** The inner loop on a neighbor list without repetition: every neighbor
    contributes the square of its stored weight plus the reciprocal one. *)
Lemma inner_loop_s1 (w : W) (i : K) (wi : list F) (pre suf : list K)
    (a a' : moments) :
  NoDup (pre ++ suf) ->
  dict_find (weights w) i = Some wi ->
  foldM (edge_step w i (pre ++ suf) wi) a suf = Ok a' ->
  m_s1 a' = sum_sq_edges w (m_s1 a)
              (pair i <$> imap (fun p j => (length pre + p, j)%nat) suf).
Proof.
  intros Hnd Hwi. revert pre a Hnd.
  induction suf as [|j suf IH]; intros pre a Hnd.
  - by intros [= <-].
  - rewrite foldM_cons. intros (a1 & H1 & Hl)%bind_Ok_inv.
    apply edge_step_inv in H1 as (_ & _ & wij & wji & Hs1 & _ & Hwji & Hwij).
    assert (Hpos : (pre ++ j :: suf) !! length pre = Some j).
    { by rewrite lookup_app_r, Nat.sub_diag by lia. }
    rewrite (index_of_NoDup j _ (length pre) Hnd Hpos) in Hwij.
    replace (pre ++ j :: suf) with ((pre ++ [j]) ++ suf) in Hl, Hnd
      by (by rewrite <- app_assoc).
    apply IH in Hl; [|done]. rewrite Hl, Hs1.
    rewrite imap_cons, fmap_cons, sum_sq_edges_cons.
    assert (Hij : edge_wij w (i, ((length pre + 0)%nat, j)) = wij).
    { unfold edge_wij, weight_at. cbn [fst snd]. rewrite Hwi. simpl.
      by rewrite Nat.add_0_r, Hwij. }
    assert (Hji : edge_wji w (i, ((length pre + 0)%nat, j)) = wji).
    { unfold edge_wji. cbn [fst snd]. by rewrite Hwji. }
    rewrite Hij, Hji. f_equal. f_equal. apply imap_ext. intros p x _. simpl.
    rewrite length_app. simpl. f_equal. lia.
Qed.

(** One pass of the outer loop. *)
Lemma row_step_inv (w : W) (a a' : moments) (i : K) :
  row_step w a i = Ok a' ->
  m_nonzero a' = m_nonzero a + len (neighbors_of w i) /\
  m_cardinalities a' = setitem (m_cardinalities a) i (len (neighbors_of w i)) /\
  (NoDup (neighbors_of w i) ->
   m_s1 a' = sum_sq_edges w (m_s1 a) (pair i <$> enumerate (neighbors_of w i))).
Proof.
  unfold row_step. intros (ni & Hni & Hs)%bind_Ok_inv.
  apply bind_Ok_inv in Hs as (wi & Hwi & Hs).
  apply getitem_Ok in Hni, Hwi. unfold neighbors_of. rewrite Hni. simpl.
  pose proof (inner_loop_counts _ _ _ _ _ _ _ Hs) as [Hn Hc].
  split; [done|]. split; [done|].
  intros Hnd. by apply (inner_loop_s1 w i wi [] ni) in Hs.
Qed.

(** The whole double loop. *)
Lemma rows_loop_inv (w : W) (a a' : moments) (l : list K) :
  foldM (row_step w) a l = Ok a' ->
  m_nonzero a' = m_nonzero a + sumZ ((fun i => len (neighbors_of w i)) <$> l) /\
  m_cardinalities a' =
    fold_left (fun c i => setitem c i (len (neighbors_of w i))) l (m_cardinalities a) /\
  (duplicate_free w ->
   m_s1 a' = sum_sq_edges w (m_s1 a)
               (l ≫= fun i => pair i <$> enumerate (neighbors_of w i))).
Proof.
  revert a. induction l as [|i l IH]; intros a.
  - intros [= <-]. unfold sumZ. simpl. split; [lia|done].
  - rewrite foldM_cons. intros (a1 & H1 & Hl)%bind_Ok_inv.
    assert (Hdup : duplicate_free w -> NoDup (neighbors_of w i)).
    { intros Hd. unfold neighbors_of.
      destruct (dict_find (neighbors w) i) as [ni|] eqn:Hni; [by apply (Hd i)|].
      apply NoDup_nil_2. }
    apply row_step_inv in H1 as (Hn & Hc & Hs).
    apply IH in Hl as (Hn' & Hc' & Hs'). rewrite Hn', Hc', Hn, Hc.
    split; [|split; [done|]].
    + rewrite fmap_cons, sumZ_cons. lia.
    + intros Hd. rewrite Hs' by done. rewrite Hs by auto.
      simpl. by rewrite sum_sq_edges_app.
Qed.

End moments_facts.


(** ** The moment [s1] *)

Section s1_facts.
Context {K : Type} `{EqDecision K} {F : Type} `{PyNum F}.
#[local] Abbreviation W := (W K F).

(** With distinct keys, the neighbor list found for the id of an item is
    the list of that item. *)
Lemma neighbors_of_item (w : W) (item : K * list K) :
  NoDup (keys (neighbors w)) -> item ∈ items (neighbors w) ->
  neighbors_of w item.1 = item.2.
Proof.
  intros Hnd Hin. unfold neighbors_of. destruct item as [i ns].
  by rewrite (dict_find_NoDup _ _ _ Hnd Hin).
Qed.

(** The directed edges stored are those of the keys in dictionary order. *)
Lemma stored_edges_keys (w : W) :
  NoDup (keys (neighbors w)) ->
  stored_edges w =
    keys (neighbors w) ≫= fun i => pair i <$> enumerate (neighbors_of w i).
Proof.
  intros Hnd. unfold stored_edges, keys. rewrite list_fmap_bind.
  apply Forall_bind_ext, Forall_forall. intros item Hin. simpl.
  by rewrite (neighbors_of_item w item Hnd Hin).
Qed.

(** The pass visits every stored directed edge once when the iteration order
    is an arrangement of the ids. *)
Lemma visited_stored (w : W) :
  NoDup (keys (neighbors w)) ->
  _id_order w ≡ₚ keys (neighbors w) ->
  visited_edges w ≡ₚ stored_edges w.
Proof.
  intros Hnd Hp. rewrite stored_edges_keys by done.
  unfold visited_edges. by rewrite Hp.
Qed.

(** The accumulator [s1] of a returning double loop. *)
Lemma moments_loop_s1 (w : W) (a : moments) :
  duplicate_free w -> moments_loop w = Ok a ->
  m_s1 a = sum_sq_edges w (pyfloat 0) (visited_edges w).
Proof.
  intros Hd Ha. unfold moments_loop in Ha.
  apply rows_loop_inv in Ha as (_ & _ & Hs). by apply Hs.
Qed.

(** C5 (amended).  On a container whose neighbor lists are free of
    repetitions, a returning characteristics pass (the constructor and
    every returning transform switch end with one) stores as [s1] one half
    of the sum of [(w_ij + w_ji)^2], accumulated from [0.0] over the
    directed edges in the order they are visited: for the ids of the
    iteration order, the neighbors in stored order.  Here [w_ij] is the
    weight at the position of [j] in the list of [i], and [w_ji] is the
    integer 0 when [j] does not list [i].  When the ids are distinct and
    the iteration order is an arrangement of them, the visited edges are
    exactly the stored directed edges, each one once: a pair stored from
    both sides is counted from each side, a pair stored from one side only
    is counted once. *)
Theorem C5_s1_half_sum (w : W) :
  duplicate_free w ->
  outcome_of (_characteristics w) = Ok tt ->
  s1 (chars (state_of (_characteristics w))) = s1_spec w /\
  (NoDup (keys (neighbors w)) -> _id_order w ≡ₚ keys (neighbors w) ->
   visited_edges w ≡ₚ stored_edges w).
Proof.
  intros Hd Hok.
  destruct (characteristics_ok_inv w Hok)
    as (a & s1v & s2v & mx & mn & mean & pct & asy & Ha & Hs1 & _ & _ & _ & _ & _ & _ & Hst).
  split; [|apply visited_stored].
  rewrite Hst. simpl. unfold s1_spec.
  rewrite <- (moments_loop_s1 w a Hd Ha).
  unfold pydiv in Hs1. destruct (is_zero (pyfloat 2)); [done|]. by injection Hs1.
Qed.

Lemma duplicate_free_check_sound (w : W) :
  duplicate_free_check w = true -> duplicate_free w.
Proof.
  unfold duplicate_free_check. rewrite forallb_forall. intros Hc i ns Hns.
  apply dict_find_Some_In, list_elem_of_In in Hns. specialize (Hc _ Hns).
  by apply bool_decide_eq_true in Hc.
Qed.

End s1_facts.

Lemma C5_witness :
  s1 (chars (state_of (_characteristics doc_W))) = s1_spec doc_W /\
  (NoDup (keys (neighbors doc_W)) -> _id_order doc_W ≡ₚ keys (neighbors doc_W) ->
   visited_edges doc_W ≡ₚ stored_edges doc_W).
Proof.
  apply (C5_s1_half_sum doc_W).
  - apply duplicate_free_check_sound. vm_compute. reflexivity.
  - vm_compute. reflexivity.
Defined.

(** On the docstring container the ten stored directed edges give
    [s1 = 37.0 / 2]: nine of them have a reciprocal weight, the edge from 0
    to 1 has none. *)
Example doc_s1 :
  s1_spec doc_W = quot (PyFloat (float_of_Z 37)) (PyFloat (float_of_Z 2)) /\
  length (stored_edges doc_W) = 10%nat.
Proof. vm_compute. split; reflexivity. Qed.

(** C5, counterexample.  In the docstring container id 0 lists id 1 and
    id 1 does not list id 0.  The pass visits the ten stored directed edges
    and stores [s1 = 37.0 / 2]; the pairs present in either direction are
    eleven, the pair from 1 to 0 among them, and one half of the sum over
    them is [38.0 / 2]. *)
Lemma C5_counterexample : ~ s1_sums_either_direction.
Proof.
  intros Hc. specialize (Hc doc_W).
  assert (Hs : s1 (chars doc_W) = s1_either_direction doc_W).
  { apply Hc.
    - apply (reach_new Z.le doc_neighbors (Some doc_weights) None).
      vm_compute. reflexivity.
    - apply duplicate_free_check_sound. vm_compute. reflexivity. }
  apply (f_equal (fun x => ne x (s1_either_direction doc_W))) in Hs.
  vm_compute in Hs. discriminate Hs.
Qed.

Example doc_s1_either :
  length (either_direction_edges doc_W) = 11%nat /\
  s1 (chars doc_W) = quot (PyFloat (float_of_Z 37)) (PyFloat (float_of_Z 2)) /\
  s1_either_direction doc_W = quot (PyFloat (float_of_Z 38)) (PyFloat (float_of_Z 2)).
Proof. vm_compute. repeat split; reflexivity. Qed.



(** ** Counting: histogram, maximum and minimum *)

Lemma sumZ_app (l1 l2 : list Z) : sumZ (l1 ++ l2) = sumZ l1 + sumZ l2.
Proof.
  induction l1 as [|x l1 IH]; simpl.
  - unfold sumZ at 2. simpl. lia.
  - rewrite !sumZ_cons. lia.
Qed.

Lemma len_cons {A} (x : A) (l : list A) : len (x :: l) = 1 + len l.
Proof. unfold len. simpl. lia. Qed.

(** Two disjoint conditions that together make a third split its count. *)
Lemma len_filter_split (P Q R : Z -> Prop) `{!forall v, Decision (P v)}
    `{!forall v, Decision (Q v)} `{!forall v, Decision (R v)} (a : list Z) :
  (forall v, R v <-> P v \/ Q v) -> (forall v, P v -> Q v -> False) ->
  len (filter P a) + len (filter Q a) = len (filter R a).
Proof.
  intros HR HPQ. induction a as [|v a IH]; [done|].
  rewrite !filter_cons.
  destruct (decide (P v)) as [HP|HP], (decide (Q v)) as [HQ|HQ],
           (decide (R v)) as [Hr|Hr]; rewrite ?len_cons; try lia;
    first [ by destruct (HPQ v) | destruct Hr; apply HR; tauto
          | apply HR in Hr; tauto ].
Qed.

Lemma len_filter_all (P : Z -> Prop) `{!forall v, Decision (P v)} (a : list Z) :
  Forall P a -> len (filter P a) = len a.
Proof.
  induction 1 as [|v a Hv Ha IH]; [done|].
  rewrite filter_cons, decide_True by done. rewrite !len_cons. lia.
Qed.

Lemma hist_counts_step (a : list Z) (lo hi x : Z) (rest : list Z) :
  hist_counts a (lo :: hi :: x :: rest) =
  count_in lo hi false a :: hist_counts a (hi :: x :: rest).
Proof. reflexivity. Qed.

(** Over consecutive integer edges the counts add up to the number of
    values between the first and the last edge, both included. *)
Lemma hist_counts_sum (a : list Z) (k : nat) (lo : Z) :
  sumZ (hist_counts a (seqZ lo (Z.of_nat k + 2))) =
  len (filter (fun v => lo <= v <= lo + Z.of_nat k + 1) a).
Proof.
  revert lo. induction k as [|k IH]; intros lo.
  - rewrite (seqZ_cons lo) by lia. rewrite (seqZ_cons (Z.succ lo)) by lia.
    rewrite seqZ_nil by lia. simpl. unfold sumZ, count_in. simpl.
    rewrite Z.add_0_l. f_equal. apply list_filter_iff. intros v. lia.
  - rewrite (seqZ_cons lo) by lia.
    replace (Z.pred (Z.of_nat (S k) + 2)) with (Z.of_nat k + 2) by lia.
    specialize (IH (Z.succ lo)).
    assert (Htl : exists y rest,
      seqZ (Z.succ lo) (Z.of_nat k + 2) = Z.succ lo :: y :: rest).
    { rewrite (seqZ_cons (Z.succ lo)) by lia.
      rewrite (seqZ_cons (Z.succ (Z.succ lo))) by lia. eauto. }
    destruct Htl as (y & rest & Htl). rewrite Htl in IH |- *.
    rewrite hist_counts_step, sumZ_cons, IH. unfold count_in.
    apply len_filter_split; intros v; lia.
Qed.

Lemma hist_counts_length (a edges : list Z) :
  (length (hist_counts a edges) <= length edges)%nat.
Proof.
  induction edges as [|lo [|hi [|x rest]] IH]; simpl in *; lia.
Qed.

Lemma fold_left_max_bounds (l : list Z) (x : Z) :
  x <= fold_left Z.max l x /\ Forall (fun v => v <= fold_left Z.max l x) l.
Proof.
  revert x. induction l as [|y l IH]; intros x; simpl; [split; [lia|constructor]|].
  destruct (IH (Z.max x y)) as [Hx Hl]. split; [lia|].
  constructor; [lia|done].
Qed.

Lemma fold_left_min_bounds (l : list Z) (x : Z) :
  fold_left Z.min l x <= x /\ Forall (fun v => fold_left Z.min l x <= v) l.
Proof.
  revert x. induction l as [|y l IH]; intros x; simpl; [split; [lia|constructor]|].
  destruct (IH (Z.min x y)) as [Hx Hl]. split; [lia|].
  constructor; [lia|done].
Qed.

(** [max] and [min] of a list bound its elements. *)
Lemma py_max_min_bounds (l : list Z) (mx mn : Z) :
  py_max l = Ok mx -> py_min l = Ok mn ->
  mn <= mx /\ Forall (fun v => mn <= v <= mx) l.
Proof.
  destruct l as [|x l]; [done|]. simpl. intros [= <-] [= <-].
  destruct (fold_left_max_bounds l x) as [Hx Hl].
  destruct (fold_left_min_bounds l x) as [Hx' Hl'].
  split; [lia|]. constructor; [lia|].
  rewrite Forall_forall in *. intros v Hv. split; auto.
Qed.

(** The counts of the cardinality histogram add up to the number of
    cardinalities. *)
Lemma histogram_total (l : list Z) (mx mn : Z) :
  py_max l = Ok mx -> py_min l = Ok mn ->
  sumZ (snd <$> py_zip (py_range mn (mx + 2)) (hist_counts l (py_range mn (mx + 2))))
  = len l.
Proof.
  intros Hmx Hmn. destruct (py_max_min_bounds l mx mn Hmx Hmn) as [Hle Hall].
  unfold py_zip. rewrite snd_zip by apply hist_counts_length.
  unfold py_range. replace (mx + 2 - mn) with (Z.of_nat (Z.to_nat (mx - mn)) + 2) by lia.
  rewrite hist_counts_sum. apply len_filter_all.
  eapply Forall_impl; [exact Hall|]. intros v Hv. simpl in Hv. lia.
Qed.


(** ** Consistency of the derived attributes *)

Section consistency.
Context {K : Type} `{EqDecision K} (Kle : relation K) `{!RelDecision Kle}.
Context {F : Type} `{PyNum F}.
#[local] Abbreviation W := (W K F).

(** Assignments under distinct fresh keys append, in order. *)
Lemma fold_setitem_fresh {V} (g : K -> V) (l : list K) (d : dict K V) :
  NoDup l -> (forall i, i ∈ l -> i ∉ keys d) ->
  fold_left (fun c i => setitem c i (g i)) l d = d ++ ((fun i => (i, g i)) <$> l).
Proof.
  revert d. induction l as [|i l IH]; intros d Hnd Hd; simpl.
  - by rewrite app_nil_r.
  - apply NoDup_cons in Hnd as [Hi Hnd].
    rewrite keys_setitem_fresh by apply Hd, list_elem_of_here.
    rewrite IH; [by rewrite <- app_assoc|done|].
    intros j Hj. unfold keys. rewrite fmap_app. simpl.
    rewrite elem_of_app, list_elem_of_singleton. intros [Hjd|Hji].
    + by apply (Hd j); [apply list_elem_of_further|].
    + by subst j.
Qed.

(** The cardinalities of a returning double loop over distinct ids: one
    entry per id, and their total is the count of visited neighbors. *)
Lemma moments_loop_cardinalities (w : W) (a : moments) :
  NoDup (_id_order w) -> moments_loop w = Ok a ->
  m_cardinalities a = (fun i => (i, len (neighbors_of w i))) <$> _id_order w /\
  sumZ (values (m_cardinalities a)) = m_nonzero a.
Proof.
  intros Hnd Ha. unfold moments_loop in Ha.
  apply rows_loop_inv in Ha as (Hn & Hc & _). simpl in Hn, Hc.
  rewrite fold_setitem_fresh in Hc; [|done|intros i _; apply not_elem_of_nil].
  simpl in Hc. split; [done|]. rewrite Hn, Hc. unfold values.
  by rewrite <- list_fmap_compose.
Qed.

(** A returning characteristics pass on an object whose weights are keyed
    by the ids of the iteration order leaves consistent attributes. *)
Lemma characteristics_consistent (w : W) :
  same_ids w (weights w) ->
  outcome_of (_characteristics w) = Ok tt ->
  consistent (chars (state_of (_characteristics w))).
Proof.
  intros [Hnd Hp] Hok.
  destruct (characteristics_ok_inv w Hok)
    as (a & s1v & s2v & mx & mn & mean & pct & asy & Ha & _ & _ & Hmx & Hmn & _ & _ & _ & Hst).
  assert (Hnd' : NoDup (_id_order w)) by (by rewrite Hp).
  destruct (moments_loop_cardinalities w a Hnd' Ha) as [Hc Hs].
  rewrite Hst. split; simpl; [done|].
  rewrite (histogram_total _ _ _ Hmx Hmn). rewrite Hc. unfold values, len.
  rewrite !length_fmap. f_equal. rewrite (Permutation_length Hp).
  unfold keys. by rewrite length_fmap.
Qed.

(** A returning loop whose body assigns one entry under the id it is at
    builds, from the empty mapping, a mapping with the ids in loop order. *)
Lemma foldM_setitem_keys {V} (step : dict K V -> K -> result (dict K V))
    (l : list K) (acc r : dict K V) :
  (forall acc i acc', step acc i = Ok acc' -> exists v, acc' = setitem acc i v) ->
  NoDup l -> (forall i, i ∈ l -> i ∉ keys acc) ->
  foldM step acc l = Ok r -> keys r = keys acc ++ l.
Proof.
  intros Hstep. revert acc. induction l as [|i l IH]; intros acc Hnd Hacc.
  - intros [= <-]. by rewrite app_nil_r.
  - rewrite foldM_cons. intros (acc' & Hi & Hl)%bind_Ok_inv.
    apply NoDup_cons in Hnd as [Hil Hnd].
    apply Hstep in Hi as [v ->].
    rewrite keys_setitem_fresh in Hl by apply Hacc, list_elem_of_here.
    apply IH in Hl; [|done|].
    + rewrite Hl. unfold keys. rewrite fmap_app. simpl. by rewrite <- app_assoc.
    + intros j Hj. unfold keys. rewrite fmap_app. simpl.
      rewrite elem_of_app, list_elem_of_singleton. intros [Hjd|Hji].
      * by apply (Hacc j); [apply list_elem_of_further|].
      * by subst j.
Qed.

(** The four standardizations return mappings with the keys of the
    weights they read, in the same order. *)
Lemma row_standardize_keys (ws r : dict K (list F)) :
  NoDup (keys ws) -> row_standardize ws = Ok r -> keys r = keys ws.
Proof.
  intros Hnd Hr. unfold row_standardize in Hr.
  apply foldM_setitem_keys in Hr; [done| |done|intros i _; apply not_elem_of_nil].
  intros acc i acc'. unfold row_standardize_row.
  intros (wijs & _ & (new & _ & [= <-])%bind_Ok_inv)%bind_Ok_inv. eauto.
Qed.

Lemma doubly_standardize_keys (ws r : dict K (list F)) (s0 : F) :
  NoDup (keys ws) -> doubly_standardize ws s0 = Ok r -> keys r = keys ws.
Proof.
  intros Hnd Hr. unfold doubly_standardize in Hr.
  apply bind_Ok_inv in Hr as (scale & _ & Hr).
  apply foldM_setitem_keys in Hr; [done| |done|intros i _; apply not_elem_of_nil].
  intros acc i acc'. intros (wijs & _ & [= <-])%bind_Ok_inv. eauto.
Qed.

Lemma binarize_keys (ws r : dict K (list F)) :
  NoDup (keys ws) -> binarize ws = Ok r -> keys r = keys ws.
Proof.
  intros Hnd Hr. unfold binarize in Hr.
  apply foldM_setitem_keys in Hr; [done| |done|intros i _; apply not_elem_of_nil].
  intros acc i acc'. intros (wijs & _ & [= <-])%bind_Ok_inv. eauto.
Qed.

Lemma variance_stabilize_keys (ws r : dict K (list F)) (n : Z) :
  NoDup (keys ws) -> variance_stabilize ws n = Ok r -> keys r = keys ws.
Proof.
  intros Hnd Hr. unfold variance_stabilize in Hr.
  apply bind_Ok_inv in Hr as (l & _ & Hr).
  apply bind_Ok_inv in Hr as (nQ & _ & Hr).
  apply foldM_setitem_keys in Hr; [done| |done|intros i _; apply not_elem_of_nil].
  intros acc i acc'. intros (wijs & _ & [= <-])%bind_Ok_inv. eauto.
Qed.

(** The characteristics pass keeps the keys where they are. *)
Lemma characteristics_ids (w : W) :
  ids_consistent w -> ids_consistent (state_of (_characteristics w)).
Proof. apply (preserves_characteristics (ids_consistent (K:=K) (F:=F))). by intros. Qed.

Lemma ids_consistent_store (w : W) (name : string) (ws : dict K (list F)) :
  ids_consistent w -> keys ws = keys (weights w) ->
  ids_consistent
    (with_weights ws (with_transformations (setitem (transformations w) name ws) w)).
Proof.
  intros [[Hnd Hp] Hc] Hk.
  assert (Hs : same_ids w ws) by (unfold same_ids; by rewrite Hk).
  split; [exact Hs|]. intros name' ws'. simpl. rewrite dict_find_setitem.
  destruct (decide (name = name')); [by intros [= <-]|apply Hc].
Qed.

(** An assignment to [transform] that returns keeps the keys in place and
    leaves consistent attributes. *)
Lemma set_transform_consistent (value : string) (w : W) :
  ids_consistent w -> consistent (chars w) ->
  outcome_of (set_transform value w) = Ok tt ->
  ids_consistent (state_of (set_transform value w)) /\
  consistent (chars (state_of (set_transform value w))).
Proof.
  intros Hi Hc. unfold set_transform. generalize (upper value). intros name. run_M.
  assert (Hi1 : ids_consistent (with__transform (Some name) w)) by exact Hi.
  assert (Hc1 : consistent (chars (with__transform (Some name) w))) by exact Hc.
  revert Hi1 Hc1. generalize (with__transform (Some name) w). clear w Hi Hc.
  intros w Hi Hc.
  assert (Hstore : forall ws : dict K (list F), keys ws = keys (weights w) ->
    outcome_of (_characteristics
      (with_weights ws (with_transformations (setitem (transformations w) name ws) w)))
      = Ok tt ->
    ids_consistent (state_of (_characteristics
      (with_weights ws (with_transformations (setitem (transformations w) name ws) w)))) /\
    consistent (chars (state_of (_characteristics
      (with_weights ws (with_transformations (setitem (transformations w) name ws) w)))))).
  { intros ws Hk Hok. pose proof (ids_consistent_store w name ws Hi Hk) as Hi'.
    split; [by apply characteristics_ids|].
    apply characteristics_consistent; [apply Hi'|done]. }
  destruct (has_key (transformations w) name) eqn:Hk.
  { apply has_key_true in Hk as [ws Hws]. unfold getitem. rewrite Hws. run_M.
    intros Hok.
    assert (Hi' : ids_consistent (with_weights ws w)).
    { split; [exact (proj2 Hi name ws Hws)|exact (proj2 Hi)]. }
    split; [by apply characteristics_ids|].
    apply characteristics_consistent; [apply Hi'|done]. }
  destruct (decide (name = "R")) as [HR|HR].
  { destruct (row_standardize (weights w)) as [err|ws] eqn:Hr; run_M; [done|].
    apply Hstore. apply row_standardize_keys; [apply Hi|done]. }
  destruct (decide (name = "D")) as [HD|HD].
  { rewrite bind_run.
    destruct (outcome_of (_characteristics w)) as [err|[]] eqn:Hok1; [done|].
    pose proof (characteristics_ids w Hi) as Hi2.
    assert (Hw2 : weights (state_of (_characteristics w)) = weights w)
      by (by apply (preserves_characteristics
                      (fun w' : W => weights w' = weights w))).
    revert Hi2 Hw2. generalize (state_of (_characteristics w)). intros w2 Hi2 Hw2.
    unfold state_of at 1 2, outcome_of at 1. simpl. run_M.
    destruct (doubly_standardize (weights w2) (s0 (chars w2))) as [err|ws] eqn:Hd;
      run_M; [done|].
    intros Hok. pose proof (doubly_standardize_keys _ _ _ (proj1 (proj1 Hi2)) Hd) as Hk2.
    pose proof (ids_consistent_store w2 name ws Hi2 Hk2) as Hi'.
    split; [by apply characteristics_ids|].
    apply characteristics_consistent; [apply Hi'|done]. }
  destruct (decide (name = "B")) as [HB|HB].
  { destruct (binarize (weights w)) as [err|ws] eqn:Hr; run_M; [done|].
    apply Hstore. apply binarize_keys; [apply Hi|done]. }
  destruct (decide (name = "V")) as [HV|HV].
  { destruct (variance_stabilize (weights w) (n (chars w))) as [err|ws] eqn:Hr;
      run_M; [done|].
    intros Hok. pose proof (variance_stabilize_keys _ _ _ (proj1 (proj1 Hi)) Hr) as Hk2.
    assert (Hi' : ids_consistent (with_weights ws w)).
    { split; [|exact (proj2 Hi)]. unfold same_ids. simpl. rewrite Hk2. apply Hi. }
    split; [by apply characteristics_ids|].
    apply characteristics_consistent; [apply Hi'|done]. }
  destruct (decide (name = "O")) as [HO|HO].
  { unfold has_key in Hk. unfold getitem.
    destruct (dict_find (transformations w) name); [done|]. by run_M. }
  by intros _.
Qed.

Lemma default_weights_keys (nb : dict K (list K)) (ws : dict K (list F)) :
  NoDup (keys nb) -> default_weights nb = Ok ws -> keys ws = keys nb.
Proof.
  intros Hnd Hr. unfold default_weights in Hr.
  apply foldM_setitem_keys in Hr; [done| |done|intros i _; apply not_elem_of_nil].
  intros acc i acc'. intros (ns & _ & [= <-])%bind_Ok_inv. eauto.
Qed.

(** The class call on well-formed arguments returns an object with the
    keys in place and consistent attributes. *)
Lemma new_W_consistent nb wt ord (w : W) :
  well_formed_input nb wt ord -> new_W Kle nb wt ord = Ok w ->
  ids_consistent w /\ consistent (chars w).
Proof.
  intros (Hnb & Hwt & Hord) (ws & Hws & Hok & ->)%new_W_inv.
  assert (Hk : NoDup (keys ws) /\ keys ws ≡ₚ keys nb).
  { unfold captured_weights in Hws. destruct wt as [[|kv wt]|]; simpl in Hws.
    - apply default_weights_keys in Hws; [|done]. by rewrite Hws.
    - by injection Hws as <-.
    - apply default_weights_keys in Hws; [|done]. by rewrite Hws. }
  destruct Hk as [Hnd Hp].
  assert (Hi : ids_consistent (init_state Kle nb ws ord)).
  { assert (Hs : same_ids (init_state Kle nb ws ord) ws).
    { split; [done|]. simpl. rewrite Hp. destruct ord as [o|]; [done|].
      apply merge_sort_Permutation. }
    split; [exact Hs|]. intros name ws'. simpl.
    destruct (decide ("O" = name)); [by intros [= <-]|done]. }
  split.
  - apply (characteristics_ids _ Hi).
  - apply characteristics_consistent; [apply Hi|done].
Qed.

End consistency.

(** The hypothesis on the explicit order is needed: [__init__] takes any
    sequence, and with an id listed twice the pass counts its neighbors
    twice while the mapping of cardinalities has it once. *)
Example repeated_id_inconsistent :
  exists w : W Z pynum,
    new_W Z.le chain_neighbors (Some chain_weights) (Some [0; 0; 1; 2]) = Ok w /\
    nonzero (chars w) = 5 /\ sumZ (values (cardinalities (chars w))) = 4.
Proof.
  eexists. split; [vm_compute; reflexivity|]. vm_compute. split; reflexivity.
Qed.


(** ** Indexing by id *)

Section getitem_facts.
Context {K : Type} `{EqDecision K} {F : Type} `{PyNum F}.
#[local] Abbreviation W := (W K F).

Lemma fold_setitem_find {V} (l : list (K * V)) (d : dict K V) (k : K) :
  dict_find (fold_left (fun d kv => setitem d kv.1 kv.2) l d) k =
  match dict_find (reverse l) k with
  | Some v => Some v
  | None => dict_find d k
  end.
Proof.
  revert d. induction l as [|[k0 v0] l IH]; intros d; simpl; [done|].
  rewrite IH, reverse_cons, dict_find_app, dict_find_setitem. simpl.
  destruct (dict_find (reverse l) k); [done|]. by destruct (decide (k0 = k)).
Qed.

Lemma fold_setitem_pairs {V} (l : list (K * V)) (d : dict K V) :
  NoDup (keys d ++ l.*1) ->
  fold_left (fun d kv => setitem d kv.1 kv.2) l d = d ++ l.
Proof.
  revert d. induction l as [|[k0 v0] l IH]; intros d Hnd; simpl.
  - by rewrite app_nil_r.
  - simpl in Hnd. rewrite keys_setitem_fresh.
    2:{ apply NoDup_app in Hnd as (_ & Hd & _). intros Hin.
        apply (Hd k0 Hin). apply list_elem_of_here. }
    rewrite IH; [by rewrite <- app_assoc|].
    unfold keys in *. rewrite fmap_app. simpl.
    rewrite <- (app_assoc (fst <$> d) [k0] l.*1). exact Hnd.
Qed.

Lemma dict_of_pairs_NoDup {V} (l : list (K * V)) :
  NoDup l.*1 -> dict_of_pairs l = l.
Proof. intros Hnd. unfold dict_of_pairs. by rewrite fold_setitem_pairs. Qed.

Lemma NoDup_fst_zip {V} (ns : list K) (ws : list V) :
  NoDup ns -> NoDup (zip ns ws).*1.
Proof.
  intros Hnd. apply (sublist_NoDup _ ns); [done|]. clear Hnd.
  revert ws. induction ns as [|x ns IH]; intros [|y ws]; csimpl;
    try apply sublist_nil_l.
  apply sublist_skip, IH.
Qed.

Lemma dict_find_zip {V} (ns : list K) (ws : list V) (pos : nat) (j : K) :
  NoDup ns -> ns !! pos = Some j -> dict_find (zip ns ws) j = ws !! pos.
Proof.
  revert ws pos. induction ns as [|x ns IH]; intros ws pos Hnd Hj; [done|].
  apply NoDup_cons in Hnd as [Hx Hnd].
  destruct ws as [|y ws]; simpl.
  { by destruct pos. }
  destruct pos as [|pos]; simpl in *.
  - injection Hj as ->. by rewrite decide_True.
  - rewrite decide_False; [by apply IH|].
    intros ->. apply Hx. by apply list_elem_of_lookup_2 in Hj.
Qed.

Lemma getitem_run (w : W) (key : K) :
  __getitem__ key w =
  (w, [], ns ← getitem (neighbors w) key; ws ← getitem (weights w) key;
          Ok (dict_of_pairs (py_zip ns ws))).
Proof.
  unfold __getitem__. run_M.
  destruct (getitem (neighbors w) key) as [e|ns]; run_M; [done|].
  destruct (getitem (weights w) key) as [e|ws]; run_M; done.
Qed.

(** X1.  Indexing by an id whose neighbor list is free of repetitions returns
    the neighbor ids paired with the weights position by position: looking
    up the neighbor in position [pos] gives the weight in position [pos]
    (nothing when the weight list is too short for it). *)
Theorem getitem_positional (w : W) (key : K) (ns : list K) (ws : list F) :
  dict_find (neighbors w) key = Some ns ->
  dict_find (weights w) key = Some ws ->
  NoDup ns ->
  __getitem__ key w = (w, [], Ok (zip ns ws)) /\
  forall pos j, ns !! pos = Some j -> dict_find (zip ns ws) j = ws !! pos.
Proof.
  intros Hns Hws Hnd. split.
  - rewrite getitem_run. unfold getitem. rewrite Hns, Hws. simpl.
    unfold py_zip. by rewrite dict_of_pairs_NoDup by by apply NoDup_fst_zip.
  - intros pos j. by apply dict_find_zip.
Qed.

(** X2.  Whatever the neighbor list, the mapping returned by indexing holds for
    a neighbor id the weight paired with its last occurrence among the
    zipped positions. *)
Theorem getitem_last_wins (w : W) (key j : K) (d : dict K F) :
  outcome_of (__getitem__ key w) = Ok d ->
  exists ns ws, dict_find (neighbors w) key = Some ns /\
                dict_find (weights w) key = Some ws /\
                dict_find d j = dict_find (reverse (zip ns ws)) j.
Proof.
  rewrite getitem_run. unfold outcome_of, getitem. simpl.
  destruct (dict_find (neighbors w) key) as [ns|]; [|done].
  destruct (dict_find (weights w) key) as [ws|]; [|done]. simpl.
  intros [= <-]. exists ns, ws. split; [done|]. split; [done|].
  unfold dict_of_pairs, py_zip. rewrite fold_setitem_find.
  by destruct (dict_find (reverse (zip ns ws)) j).
Qed.

(** X3.  Indexing reads the object and leaves it alone; it raises exactly when
    the id is missing from [neighbors] or from [weights], and then the
    exception is KeyError. *)
Theorem getitem_KeyError (w : W) (key : K) :
  state_of (__getitem__ key w) = w /\
  output_of (__getitem__ key w) = [] /\
  is_ok (outcome_of (__getitem__ key w)) =
    has_key (neighbors w) key && has_key (weights w) key /\
  (is_ok (outcome_of (__getitem__ key w)) = false ->
   outcome_of (__getitem__ key w) = Raise KeyError).
Proof.
  rewrite getitem_run. unfold outcome_of, state_of, output_of, getitem, has_key. simpl.
  destruct (dict_find (neighbors w) key) as [ns|]; [|done].
  destruct (dict_find (weights w) key) as [ws|]; done.
Qed.

(** X4.  An id with an empty neighbor list (an island) indexes to the empty
    mapping, whatever weights are stored for it. *)
Theorem getitem_island (w : W) (key : K) :
  dict_find (neighbors w) key = Some [] ->
  has_key (weights w) key = true ->
  __getitem__ key w = (w, [], Ok []).
Proof.
  intros Hns [ws Hws]%has_key_true. rewrite getitem_run. unfold getitem.
  by rewrite Hns, Hws.
Qed.

End getitem_facts.

Lemma getitem_positional_witness :
  __getitem__ 1 chain_W = (chain_W, [], Ok (zip [0; 2] [PyInt 1; PyInt 1])) /\
  forall pos j, [0; 2] !! pos = Some j ->
    dict_find (zip [0; 2] [PyInt 1; PyInt 1]) j = [PyInt 1; PyInt 1] !! pos.
Proof.
  apply (getitem_positional chain_W 1 [0; 2] [PyInt 1; PyInt 1]).
  - vm_compute. reflexivity.
  - vm_compute. reflexivity.
  - apply (bool_decide_unpack _). vm_compute. exact I.
Defined.

Lemma getitem_last_wins_witness :
  exists ns ws, dict_find (neighbors repeat_W) 0 = Some ns /\
                dict_find (weights repeat_W) 0 = Some ws /\
                dict_find [(1, PyInt 7)] 1 = dict_find (reverse (zip ns ws)) 1.
Proof.
  apply (getitem_last_wins repeat_W 0 1 [(1, PyInt 7)]).
  vm_compute. reflexivity.
Defined.

Lemma getitem_island_witness : __getitem__ 2 island_W = (island_W, [], Ok []).
Proof.
  apply (getitem_island island_W 2).
  - vm_compute. reflexivity.
  - vm_compute. reflexivity.
Defined.

(** ** Iteration *)

Section iteration.
Context {K : Type} `{EqDecision K} {F : Type} `{PyNum F}.
#[local] Abbreviation W := (W K F).

Lemma drain_S (fuel : nat) (it : _W_iter) (w : W) :
  drain (S fuel) it w =
  match next it w with
  | (it', StopIteration) => Some (it', Ok [])
  | (it', Fails e) => Some (it', Raise e)
  | (it', Yields value) =>
      match drain fuel it' w with
      | Some (it'', Ok values) => Some (it'', Ok (value :: values))
      | other => other
      end
  end.
Proof. reflexivity. Qed.

(** From position [k], with more fuel than ids left, the loop returns the
    mappings of the ids left, or the exception of the first id whose
    indexing raises; when it returns, the position is back at 0. *)
Lemma drain_from (w : W) (m k fuel : nat) :
  (k + m)%nat = length (_id_order w) -> (m < fuel)%nat ->
  exists it',
    drain fuel {| it_n := len (_id_order w); it_idx := Z.of_nat k |} w =
      Some (it', comprehension (fun i => outcome_of (__getitem__ i w))
                   (drop k (_id_order w))) /\
    (is_ok (comprehension (fun i => outcome_of (__getitem__ i w))
              (drop k (_id_order w))) = true ->
     it' = __iter__ w).
Proof.
  revert k fuel. induction m as [|m IH]; intros k fuel Hk Hf;
    (destruct fuel as [|fuel]; [lia|]); rewrite drain_S; unfold next;
    cbn [it_n it_idx].
  - rewrite bool_decide_eq_true_2 by (unfold len; lia).
    rewrite drop_ge by lia. by eexists.
  - rewrite bool_decide_eq_false_2 by (unfold len; lia).
    rewrite Nat2Z.id. unfold list_getitem.
    destruct (_id_order w !! k) as [key|] eqn:Hkey.
    2:{ apply lookup_ge_None in Hkey. lia. }
    rewrite (drop_S _ _ _ Hkey), comprehension_cons.
    destruct (outcome_of (__getitem__ key w)) as [e|value]; cbn [mbind result_bind].
    + by eexists.
    + destruct (IH (S k) fuel) as (it' & Hd & Hit); [lia|lia|].
      replace (Z.of_nat k + 1) with (Z.of_nat (S k)) by lia. rewrite Hd.
      destruct (comprehension (fun i => outcome_of (__getitem__ i w))
                  (drop (S k) (_id_order w))) as [e|values]; cbn [mbind result_bind].
      * by eexists.
      * eexists. split; [done|]. intros _. by apply Hit.
Qed.

(** X5.  Iterating over a container from a fresh iterator visits the ids in the
    iteration order and yields the mapping [w[i]] of each; an exception of
    an indexing ends the loop with that exception.  The number of calls of
    [next] is at most one more than the number of ids.  When the loop
    ends normally the iterator is as [__iter__] returned it, so that a
    second loop over the same iterator yields the same again. *)
Theorem iteration_in_order (w : W) :
  exists it',
    drain (S (length (_id_order w))) (__iter__ w) w =
      Some (it', comprehension (fun i => outcome_of (__getitem__ i w)) (_id_order w)) /\
    (is_ok (comprehension (fun i => outcome_of (__getitem__ i w)) (_id_order w)) = true ->
     it' = __iter__ w /\
     drain (S (length (_id_order w))) it' w =
     drain (S (length (_id_order w))) (__iter__ w) w).
Proof.
  destruct (drain_from w (length (_id_order w)) 0 (S (length (_id_order w))))
    as (it' & Hd & Hit); [lia|lia|].
  exists it'. split; [exact Hd|]. intros Hok. specialize (Hit Hok).
  split; [done|]. by rewrite Hit.
Qed.

(** X6.  A container changed after the iterator was made: the iterator keeps
    the length it read at creation and reads the order at each call, so a
    shorter order put in place meanwhile makes [next] run off its end. *)
Theorem next_after_shorter_order (w w' : W) (k : nat) :
  (length (_id_order w') <= k < length (_id_order w))%nat ->
  next {| it_n := it_n (__iter__ w); it_idx := Z.of_nat k |} w' =
  ({| it_n := it_n (__iter__ w); it_idx := Z.of_nat k |}, Fails IndexError).
Proof.
  intros Hk. unfold next. cbn [it_n it_idx __iter__].
  rewrite bool_decide_eq_false_2 by (unfold len; lia).
  rewrite Nat2Z.id. unfold list_getitem.
  by rewrite (proj2 (lookup_ge_None _ _)) by lia.
Qed.

End iteration.

Lemma next_after_shorter_order_witness :
  next {| it_n := it_n (__iter__ (state_of (__set_id_order [0; 1; 2; 2] chain_W)));
          it_idx := Z.of_nat 3 |} chain_W =
  ({| it_n := it_n (__iter__ (state_of (__set_id_order [0; 1; 2; 2] chain_W)));
      it_idx := Z.of_nat 3 |}, Fails IndexError).
Proof.
  apply (next_after_shorter_order
           (state_of (__set_id_order [0; 1; 2; 2] chain_W)) chain_W 3).
  vm_compute. lia.
Defined.

(** The loop over the example container. *)
Example chain_iteration :
  snd <$> drain 4 (__iter__ chain_W) chain_W =
  Some (Ok [[(1, PyInt 1)]; [(0, PyInt 1); (2, PyInt 1)]; [(1, PyInt 1)]]).
Proof. vm_compute. reflexivity. Qed.


(** ** Neighbor offsets *)

Section offsets.
Context {K : Type} `{EqDecision K} {F : Type} `{PyNum F}.
#[local] Abbreviation W := (W K F).

(** The loop of the getter, started with cache [c], against the loop over
    the cache alone: when that one returns, the getter's loop returns and
    the object differs from the one it started on in the cache only; when
    that one raises, the getter's loop raises the same. *)
Lemma offsets_loop_run (w : W) (l : list K) (c : dict K (list nat)) :
  match foldM (offsets_step w) c l with
  | Ok c' =>
      for_each l (fun id =>
        w ← get;
        ns ← lift (getitem (neighbors w) id);
        offs ← lift (comprehension (fun neigh => list_index neigh (_id_order w)) ns);
        modify (with__W__neighbors_0
                  (Some (setitem (default [] (_W__neighbors_0 w)) id offs))))
        (with__W__neighbors_0 (Some c) w)
      = (with__W__neighbors_0 (Some c') w, [], Ok tt)
  | Raise e =>
      outcome_of
        (for_each l (fun id =>
           w ← get;
           ns ← lift (getitem (neighbors w) id);
           offs ← lift (comprehension (fun neigh => list_index neigh (_id_order w)) ns);
           modify (with__W__neighbors_0
                     (Some (setitem (default [] (_W__neighbors_0 w)) id offs))))
           (with__W__neighbors_0 (Some c) w))
      = Raise e
  end.
Proof.
  revert c. induction l as [|id l IH]; intros c; [done|].
  cbn [for_each]. rewrite foldM_cons.
  specialize (IH (setitem c id (default [] (match
    (ns ← getitem (neighbors w) id;
     comprehension (fun neigh => list_index neigh (_id_order w)) ns)
    with Ok offs => Some offs | Raise _ => None end)))).
  set (loop := foldM (offsets_step w)) in *. unfold offsets_step.
  run_M. cbn [neighbors _id_order _W__neighbors_0 with__W__neighbors_0 default].
  destruct (getitem (neighbors w) id) as [e|ns]; run_M; [done|].
  cbn [mbind result_bind] in IH |- *.
  destruct (comprehension (fun neigh => list_index neigh (_id_order w)) ns)
    as [e|offs]; run_M; [done|].
  cbn [mbind result_bind]. exact IH.
Qed.

(** The getter on an object whose cache is not filled. *)
Lemma neighbor_offsets_run (w : W) :
  cache_truthy (_W__neighbors_0 w) = false ->
  match foldM (offsets_step w) [] (keys (neighbors w)) with
  | Ok d => neighbor_offsets w = (with__W__neighbors_0 (Some d) w, [], Ok (Some d))
  | Raise e => outcome_of (neighbor_offsets w) = Raise e
  end.
Proof.
  intros Hc. unfold neighbor_offsets. run_M. rewrite Hc. run_M.
  cbn [neighbors with__W__neighbors_0].
  pose proof (offsets_loop_run w (keys (neighbors w)) []) as Hl.
  rewrite bind_run.
  match goal with
  | |- context [for_each ?l ?b ?s] => set (x := for_each l b s) in *
  end.
  match type of Hl with
  | context [for_each ?l ?b ?s] => change (for_each l b s) with x in Hl
  end.
  destruct (foldM (offsets_step w) [] (keys (neighbors w))) as [e|d].
  - by rewrite Hl.
  - rewrite Hl. cbn [outcome_of state_of output_of fst snd]. by run_M.
Qed.

(** Every listed neighbor has a position; asking for the position of an
    unlisted one raises ValueError. *)
Lemma offsets_comprehension (order ns : list K) :
  (forall j, j ∈ ns -> j ∈ order) ->
  comprehension (fun neigh => list_index neigh order) ns = Ok (positions_in order ns).
Proof.
  induction ns as [|j ns IH]; intros Hin; [done|].
  rewrite comprehension_cons, IH by (intros; apply Hin; by apply list_elem_of_further).
  unfold list_index, positions_in. rewrite fmap_cons.
  destruct (index_of j order) as [p|] eqn:Hp; [done|].
  apply index_of_None in Hp. destruct Hp. apply Hin, list_elem_of_here.
Qed.

Lemma offsets_comprehension_raises (order ns : list K) (j : K) :
  j ∈ ns -> j ∉ order ->
  comprehension (fun neigh => list_index neigh order) ns = Raise ValueError.
Proof.
  intros Hj Hno. induction ns as [|x ns IH]; [by apply elem_of_nil in Hj|].
  rewrite comprehension_cons.
  destruct (list_index x order) as [e|p] eqn:Hp.
  - unfold list_index in Hp. destruct (index_of x order); [done|].
    by injection Hp as <-.
  - cbn [mbind result_bind]. apply elem_of_cons in Hj as [->|Hj].
    + unfold list_index in Hp. destruct (index_of x order) as [q|] eqn:Hq; [|done].
      apply index_of_Some in Hq. destruct Hno. by apply list_elem_of_lookup_2 in Hq.
    + by rewrite IH.
Qed.

Lemma offsets_comprehension_cases (order ns : list K) :
  comprehension (fun neigh => list_index neigh order) ns = Ok (positions_in order ns) \/
  comprehension (fun neigh => list_index neigh order) ns = Raise ValueError.
Proof.
  destruct (decide (Forall (fun j => j ∈ order) ns)) as [Hall|Hnot].
  - left. apply offsets_comprehension. by apply Forall_forall.
  - right. apply not_Forall_Exists in Hnot; [|apply _].
    apply Exists_exists in Hnot as (j & Hj & Hno).
    by apply (offsets_comprehension_raises order ns j).
Qed.

Lemma offsets_fold_ok (w : W) :
  NoDup (keys (neighbors w)) ->
  (forall i ns j, (i, ns) ∈ neighbors w -> j ∈ ns -> j ∈ _id_order w) ->
  foldM (offsets_step w) [] (keys (neighbors w)) = Ok (offsets_mapping w).
Proof.
  intros Hnd Hin. unfold offsets_mapping.
  apply (foldM_rows_all (positions_in (_id_order w))); [done|].
  intros acc i ns Hi Hf. unfold offsets_step, getitem. rewrite Hf.
  cbn [mbind result_bind]. rewrite offsets_comprehension; [done|].
  intros j Hj. by apply (Hin i ns).
Qed.

Lemma offsets_fold_cases (w : W) (l : list K) (c : dict K (list nat)) :
  (forall id, id ∈ l -> id ∈ keys (neighbors w)) ->
  foldM (offsets_step w) c l = Raise ValueError \/
  (is_ok (foldM (offsets_step w) c l) = true /\
   forall id ns j, id ∈ l -> dict_find (neighbors w) id = Some ns -> j ∈ ns ->
     j ∈ _id_order w).
Proof.
  revert c. induction l as [|id l IH]; intros c Hl.
  - right. split; [done|]. intros id ns j Hid. by apply elem_of_nil in Hid.
  - rewrite foldM_cons. set (loop := foldM (offsets_step w)) in *.
    unfold offsets_step, getitem.
    destruct (dict_find (neighbors w) id) as [ns|] eqn:Hns.
    2:{ apply dict_find_None in Hns. destruct Hns. apply Hl, list_elem_of_here. }
    cbn [mbind result_bind].
    destruct (decide (Forall (fun j => j ∈ _id_order w) ns)) as [Hall|Hnot].
    + rewrite offsets_comprehension by by apply Forall_forall.
      cbn [mbind result_bind].
      destruct (IH (setitem c id (positions_in (_id_order w) ns))) as [Hr|[Hok Hrest]].
      * intros id' Hid'. by apply Hl, list_elem_of_further.
      * by left.
      * right. split; [done|]. intros id' ns' j [->|Hid']%elem_of_cons Hns' Hj.
        -- rewrite Hns in Hns'. injection Hns' as <-.
           by apply (proj1 (Forall_forall _ _) Hall).
        -- by apply (Hrest id' ns').
    + left. apply not_Forall_Exists in Hnot; [|apply _].
      apply Exists_exists in Hnot as (j & Hj & Hno).
      by rewrite (offsets_comprehension_raises _ ns j).
Qed.

(** X7.  The offsets getter on a container whose cache is not filled, whose ids
    are distinct and whose neighbors are all listed in the iteration
    order: it returns, and stores as the cache, the mapping from every id
    to the positions of its neighbors; the position at [pos] leads back,
    through the iteration order, to the neighbor at [pos].  Unless the
    container has no id at all, a second access returns the cached mapping
    and changes nothing. *)
Theorem neighbor_offsets_positions (w : W) :
  cache_truthy (_W__neighbors_0 w) = false ->
  NoDup (keys (neighbors w)) ->
  (forall i ns j, (i, ns) ∈ neighbors w -> j ∈ ns -> j ∈ _id_order w) ->
  neighbor_offsets w =
    (with__W__neighbors_0 (Some (offsets_mapping w)) w, [], Ok (Some (offsets_mapping w))) /\
  (forall i ns pos j,
     dict_find (neighbors w) i = Some ns -> ns !! pos = Some j ->
     exists p, (offs ← dict_find (offsets_mapping w) i; offs !! pos) = Some p /\
               _id_order w !! p = Some j) /\
  (neighbors w <> [] ->
   neighbor_offsets (with__W__neighbors_0 (Some (offsets_mapping w)) w) =
     (with__W__neighbors_0 (Some (offsets_mapping w)) w, [],
      Ok (Some (offsets_mapping w)))).
Proof.
  intros Hc Hnd Hin. split; [|split].
  - pose proof (neighbor_offsets_run w Hc) as Hrun.
    by rewrite (offsets_fold_ok w Hnd Hin) in Hrun.
  - intros i ns pos j Hns Hj.
    assert (Hd : dict_find (offsets_mapping w) i = Some (positions_in (_id_order w) ns)).
    { apply dict_find_NoDup.
      - unfold offsets_mapping, keys. by rewrite <- list_fmap_compose.
      - apply dict_find_Some_In in Hns. unfold offsets_mapping.
        apply list_elem_of_fmap. by exists (i, ns). }
    rewrite Hd. cbn [mbind option_bind]. unfold positions_in.
    rewrite list_lookup_fmap, Hj. cbn [fmap option_fmap option_map].
    destruct (index_of j (_id_order w)) as [p|] eqn:Hp.
    + exists p. split; [done|]. by apply index_of_Some.
    + apply index_of_None in Hp. destruct Hp. apply (Hin i ns).
      * by apply dict_find_Some_In.
      * by apply list_elem_of_lookup_2 in Hj.
  - intros Hne. unfold neighbor_offsets. run_M.
    cbn [_W__neighbors_0 with__W__neighbors_0]. unfold offsets_mapping.
    by destruct (neighbors w).
Qed.

(** X8.  A neighbor that the iteration order does not list makes the getter
    raise ValueError, the exception of [list.index]. *)
Theorem neighbor_offsets_unlisted (w : W) (i j : K) (ns : list K) :
  cache_truthy (_W__neighbors_0 w) = false ->
  (i, ns) ∈ neighbors w -> j ∈ ns -> j ∉ _id_order w ->
  NoDup (keys (neighbors w)) ->
  outcome_of (neighbor_offsets w) = Raise ValueError.
Proof.
  intros Hc Hi Hj Hno Hnd.
  pose proof (neighbor_offsets_run w Hc) as Hrun.
  destruct (offsets_fold_cases w (keys (neighbors w)) []) as [Hr|[Hok Hall]]; [done| |].
  - by rewrite Hr in Hrun.
  - destruct Hno. apply (Hall i ns); [|by apply dict_find_NoDup|done].
    apply list_elem_of_fmap. by exists (i, ns).
Qed.

(** X9.  After an assignment to [id_order] that returns, on a container with
    distinct ids all of whose stored neighbors are listed in the new order,
    the getter computes the positions in the new order, whatever cache was
    filled before. *)
Theorem offsets_follow_order (w : W) (ordered_ids : list K) :
  same_set (_id_order w) ordered_ids = true ->
  NoDup (keys (neighbors w)) ->
  (forall i ns j, (i, ns) ∈ neighbors w -> j ∈ ns -> j ∈ ordered_ids) ->
  outcome_of (neighbor_offsets (state_of (__set_id_order ordered_ids w))) =
  Ok (Some ((fun ix : K * list K => (ix.1, positions_in ordered_ids ix.2))
              <$> neighbors w)).
Proof.
  intros Hs Hnd Hin. unfold __set_id_order. run_M. rewrite Hs. run_M.
  cbn [state_of fst].
  match goal with
  | |- outcome_of (neighbor_offsets ?x) = _ => set (w' := x)
  end.
  pose proof (neighbor_offsets_run w' eq_refl) as Hrun.
  rewrite (offsets_fold_ok w' Hnd Hin) in Hrun. by rewrite Hrun.
Qed.

Lemma neighbors_listed_sound (w : W) (order : list K) :
  neighbors_listed w order = true ->
  forall i ns j, (i, ns) ∈ neighbors w -> j ∈ ns -> j ∈ order.
Proof.
  unfold neighbors_listed. rewrite forallb_forall. intros Hall i ns j Hi Hj.
  apply list_elem_of_In, Hall in Hi. cbn [snd] in Hi.
  rewrite forallb_forall in Hi. apply list_elem_of_In, Hi in Hj.
  by apply bool_decide_eq_true in Hj.
Qed.

End offsets.

Lemma neighbor_offsets_positions_witness :
  neighbor_offsets chain_W =
    (with__W__neighbors_0 (Some (offsets_mapping chain_W)) chain_W, [],
     Ok (Some (offsets_mapping chain_W))) /\
  (forall i ns pos j,
     dict_find (neighbors chain_W) i = Some ns -> ns !! pos = Some j ->
     exists p, (offs ← dict_find (offsets_mapping chain_W) i; offs !! pos) = Some p /\
               _id_order chain_W !! p = Some j) /\
  (neighbors chain_W <> [] ->
   neighbor_offsets (with__W__neighbors_0 (Some (offsets_mapping chain_W)) chain_W) =
     (with__W__neighbors_0 (Some (offsets_mapping chain_W)) chain_W, [],
      Ok (Some (offsets_mapping chain_W)))).
Proof.
  apply (neighbor_offsets_positions chain_W).
  - vm_compute. reflexivity.
  - apply (bool_decide_unpack _). vm_compute. exact I.
  - apply neighbors_listed_sound. vm_compute. reflexivity.
Defined.

Lemma neighbor_offsets_unlisted_witness :
  outcome_of (neighbor_offsets partial_order_W) = Raise ValueError.
Proof.
  apply (neighbor_offsets_unlisted partial_order_W 0 1 [1]).
  - vm_compute. reflexivity.
  - vm_compute. apply list_elem_of_here.
  - apply list_elem_of_here.
  - apply (bool_decide_unpack _). vm_compute. exact I.
  - apply (bool_decide_unpack _). vm_compute. exact I.
Defined.

Lemma offsets_follow_order_witness :
  outcome_of (neighbor_offsets (state_of (__set_id_order [1; 0; 2] chain_W))) =
  Ok (Some ((fun ix : Z * list Z => (ix.1, positions_in [1; 0; 2] ix.2))
              <$> neighbors chain_W)).
Proof.
  apply (offsets_follow_order chain_W [1; 0; 2]).
  - vm_compute. reflexivity.
  - apply (bool_decide_unpack _). vm_compute. exact I.
  - apply neighbors_listed_sound. vm_compute. reflexivity.
Defined.

(** The offsets of the example container, in its default order and after
    the order was set to [[1; 0; 2]]. *)
Example chain_offsets :
  offsets_mapping chain_W = [(0, [1%nat]); (1, [0%nat; 2%nat]); (2, [1%nat])] /\
  outcome_of (neighbor_offsets (state_of (__set_id_order [1; 0; 2] chain_W))) =
    Ok (Some [(0, [0%nat]); (1, [1%nat; 2%nat]); (2, [0%nat])]).
Proof. vm_compute. split; reflexivity. Qed.


(** ** Letter case of transformation names *)

Lemma upper_ascii_idemp (c : Ascii.ascii) : upper_ascii (upper_ascii c) = upper_ascii c.
Proof.
  unfold upper_ascii.
  destruct ((97 <=? Ascii.nat_of_ascii c)%nat && (Ascii.nat_of_ascii c <=? 122)%nat)
    eqn:Hc; [|by rewrite Hc].
  apply andb_true_iff in Hc as [Hlo Hhi].
  apply Nat.leb_le in Hlo, Hhi.
  rewrite Ascii.nat_ascii_embedding by lia.
  destruct (97 <=? Ascii.nat_of_ascii c - 32)%nat eqn:Hlo'; [|done].
  apply Nat.leb_le in Hlo'.
  destruct (Ascii.nat_of_ascii c - 32 <=? 122)%nat eqn:Hhi'; [|done].
  lia.
Qed.

Lemma upper_idemp (s : string) : upper (upper s) = upper s.
Proof. induction s as [|c s IH]; simpl; [done|]. by rewrite upper_ascii_idemp, IH. Qed.

Section transform_facts.
Context {K : Type} `{EqDecision K} {F : Type} `{PyNum F}.
#[local] Abbreviation W := (W K F).

(** X10.  A transformation name counts in its upper-cased form only: the call
    with a name and the call with its upper-cased form do the same. *)
Theorem set_transform_case_insensitive (value : string) (w : W) :
  set_transform value w = set_transform (upper value) w.
Proof. unfold set_transform. by rewrite upper_idemp. Qed.

(** X11.  After any call of [set_transform], also one that raised or that had an
    unsupported name, the getter returns the upper-cased name given. *)
Theorem get_transform_last_assigned (value : string) (w : W) :
  get_transform (state_of (set_transform value w)) =
  (state_of (set_transform value w), [], Ok (Some (upper value))).
Proof.
  unfold get_transform. run_M.
  assert (Ht : _transform (state_of (set_transform value w)) = Some (upper value)).
  { unfold set_transform. generalize (upper value). intros name.
    rewrite bind_modify.
    match goal with
    | |- _transform (state_of (?m ?w1)) = _ =>
        cut (preserves (fun w' : W => _transform w' = Some name) m);
          [intros Hp; exact (Hp w1 eq_refl)|]
    end.
    assert (Hc : preserves (fun w' : W => _transform w' = Some name) _characteristics)
      by (by apply preserves_characteristics).
    repeat first
      [ apply preserves_bind; [|intros]
      | apply preserves_get | apply preserves_lift | apply preserves_print
      | exact Hc
      | by apply preserves_modify
      | match goal with
        | |- preserves _ (if has_key ?d ?k then _ else _) => destruct (has_key d k)
        | |- preserves _ (if decide ?P then _ else _) => destruct (decide P)
        end ]. }
  by rewrite Ht.
Qed.

(** The characteristics pass from the values of its steps. *)
Lemma characteristics_run (w : W) (a : moments) (s1v s2v mean pct : F) (mx mn : Z)
    (asymmetries : list (asym_entry K)) :
  moments_loop w = Ok a ->
  pydiv (m_s1 a) (pyfloat 2) = Ok s1v ->
  s2_of a = Ok s2v ->
  py_max (values (m_cardinalities a)) = Ok mx ->
  py_min (values (m_cardinalities a)) = Ok mn ->
  pydiv (pyint (sumZ (values (m_cardinalities a))))
        (mul (pyint (len (weights w))) (pyfloat 1)) = Ok mean ->
  pydiv (pyint (m_nonzero a))
        (mul (mul (pyfloat 1) (pyint (len (weights w)))) (pyint (len (weights w))))
    = Ok pct ->
  asymmetry_of w true = Ok asymmetries ->
  _characteristics w =
    (with_chars (fun _ => chars_after w a s1v s2v mean pct mx mn asymmetries) w, [], Ok tt).
Proof.
  intros Ha Hs1 Hs2 Hmx Hmn Hmean Hpct Has.
  unfold _characteristics. run_M. rewrite Ha. run_M. rewrite Hs1. run_M.
  rewrite Hs2. run_M. rewrite Hmx. run_M. rewrite Hmn. run_M.
  rewrite Hmean. run_M. rewrite Hpct. run_M.
  rewrite bind_asymmetry, !asymmetry_of_with_chars, Has. run_M.
  reflexivity.
Qed.

(** A returning pass prints nothing, and a second pass right after it
    returns and changes nothing. *)
Lemma characteristics_again (w : W) :
  outcome_of (_characteristics w) = Ok tt ->
  _characteristics w = (state_of (_characteristics w), [], Ok tt) /\
  _characteristics (state_of (_characteristics w)) =
    (state_of (_characteristics w), [], Ok tt).
Proof.
  intros Hok.
  destruct (characteristics_ok_inv w Hok)
    as (a & s1v & s2v & mx & mn & mean & pct & asy
        & Ha & Hs1 & Hs2 & Hmx & Hmn & Hmean & Hpct & Has & Hst).
  rewrite Hst. split.
  - by apply characteristics_run.
  - by rewrite (characteristics_run
                  (with_chars (fun _ => chars_after w a s1v s2v mean pct mx mn asy) w)
                  a s1v s2v mean pct mx mn asy).
Qed.

(** What a returning call for one of the cached names did: it left a
    mapping under that name in the cache, made it the current weights, and
    ended with a returning characteristics pass. *)
Lemma set_transform_ok_shape (value : string) (w : W) :
  outcome_of (set_transform value w) = Ok tt ->
  upper value ∈ ["R"; "D"; "B"; "O"] ->
  exists w1 : W,
    dict_find (transformations w1) (upper value) = Some (weights w1) /\
    _transform w1 = Some (upper value) /\
    outcome_of (_characteristics w1) = Ok tt /\
    state_of (set_transform value w) = state_of (_characteristics w1).
Proof.
  unfold set_transform. generalize (upper value). intros name. run_M.
  assert (H1 : _transform (with__transform (Some name) w) = Some name) by done.
  revert H1. generalize (with__transform (Some name) w). clear w. intros w Ht.
  destruct (has_key (transformations w) name) eqn:Hk.
  { apply has_key_true in Hk as [ws Hws]. unfold getitem. rewrite Hws. run_M.
    intros Hok _. by exists (with_weights ws w). }
  destruct (decide (name = "R")) as [HR|HR].
  { destruct (row_standardize (weights w)) as [err|ws]; run_M; [done|].
    intros Hok _.
    exists (with_weights ws (with_transformations (setitem (transformations w) name ws) w)).
    split; [|done]. cbn [transformations weights with_weights with_transformations].
    rewrite dict_find_setitem. by rewrite decide_True. }
  destruct (decide (name = "D")) as [HD|HD].
  { rewrite bind_run.
    destruct (outcome_of (_characteristics w)) as [err|[]] eqn:Hok1; [done|].
    assert (Ht2 : _transform (state_of (_characteristics w)) = Some name)
      by (revert Ht; by apply (preserves_characteristics
                                 (fun w' : W => _transform w' = Some name))).
    revert Ht2. generalize (state_of (_characteristics w)). intros w2 Ht2.
    unfold state_of at 1 3, outcome_of at 1. cbn [fst snd]. run_M.
    destruct (doubly_standardize (weights w2) (s0 (chars w2))) as [err|ws];
      run_M; [done|].
    intros Hok _.
    exists (with_weights ws (with_transformations (setitem (transformations w2) name ws) w2)).
    split; [|done]. cbn [transformations weights with_weights with_transformations].
    rewrite dict_find_setitem. by rewrite decide_True. }
  destruct (decide (name = "B")) as [HB|HB].
  { destruct (binarize (weights w)) as [err|ws]; run_M; [done|].
    intros Hok _.
    exists (with_weights ws (with_transformations (setitem (transformations w) name ws) w)).
    split; [|done]. cbn [transformations weights with_weights with_transformations].
    rewrite dict_find_setitem. by rewrite decide_True. }
  destruct (decide (name = "V")) as [HV|HV].
  { intros _ Hin. apply list_elem_of_In in Hin. simpl in Hin.
    destruct Hin as [Hn|[Hn|[Hn|[Hn|[]]]]]; congruence. }
  destruct (decide (name = "O")) as [HO|HO].
  { unfold has_key in Hk. unfold getitem.
    destruct (dict_find (transformations w) name); [done|]. by run_M. }
  intros _ Hin. apply list_elem_of_In in Hin. simpl in Hin.
  destruct Hin as [Hn|[Hn|[Hn|[Hn|[]]]]]; congruence.
Qed.

(** X12.  After a returning call for R, D, B or O, the current weights are the
    mapping cached under that name. *)
Theorem set_transform_stores (value : string) (w : W) :
  outcome_of (set_transform value w) = Ok tt ->
  upper value ∈ ["R"; "D"; "B"; "O"] ->
  dict_find (transformations (state_of (set_transform value w))) (upper value) =
  Some (weights (state_of (set_transform value w))).
Proof.
  intros Hok Hin.
  destruct (set_transform_ok_shape value w Hok Hin) as (w1 & Hc & _ & _ & ->).
  revert Hc.
  apply (preserves_characteristics
           (fun w' : W => dict_find (transformations w') (upper value) = Some (weights w'))).
  by intros.
Qed.

(** X13.  Selecting again the transformation that a returning call for R, D, B
    or O just selected returns, prints nothing and changes nothing. *)
Theorem set_transform_again (value : string) (w : W) :
  outcome_of (set_transform value w) = Ok tt ->
  upper value ∈ ["R"; "D"; "B"; "O"] ->
  set_transform value (state_of (set_transform value w)) =
  (state_of (set_transform value w), [], Ok tt).
Proof.
  intros Hok Hin.
  destruct (set_transform_ok_shape value w Hok Hin) as (w1 & Hc & Ht & Hok1 & ->).
  set (w' := state_of (_characteristics w1)).
  assert (Hc' : dict_find (transformations w') (upper value) = Some (weights w')).
  { revert Hc. apply (preserves_characteristics
      (fun w' : W => dict_find (transformations w') (upper value) = Some (weights w'))).
    by intros. }
  assert (Ht' : _transform w' = Some (upper value)).
  { revert Ht. by apply (preserves_characteristics
      (fun w' : W => _transform w' = Some (upper value))). }
  rewrite (set_transform_cached value (weights w') w' Hc').
  assert (Heta : with_weights (weights w') (with__transform (Some (upper value)) w') = w').
  { rewrite <- Ht'. by destruct w'. }
  rewrite Heta. unfold w'. by apply characteristics_again.
Qed.

End transform_facts.

(** ** The loops of the transformations *)

Section transform_loops.
Context {K : Type} `{EqDecision K} {F : Type} `{PyNum F}.
#[local] Abbreviation W := (W K F).





(** X15.  Selecting D on a container that has no cached D and whose weights add
    up to zero: the characteristics are recomputed from the current
    weights, then the call raises ZeroDivisionError; weights and cache are
    what they were. *)
Theorem doubly_standardize_zero_sum (w : W) (value : string) :
  upper value = "D" ->
  has_key (transformations w) "D" = false ->
  outcome_of (_characteristics (with__transform (Some "D") w)) = Ok tt ->
  is_zero (s0 (chars (state_of (_characteristics (with__transform (Some "D") w))))) = true ->
  set_transform value w =
    (state_of (_characteristics (with__transform (Some "D") w)), [],
     Raise ZeroDivisionError) /\
  weights (state_of (set_transform value w)) = weights w /\
  transformations (state_of (set_transform value w)) = transformations w.
Proof.
  intros Hv Hk Hok Hz.
  assert (Hrun : set_transform value w =
    (state_of (_characteristics (with__transform (Some "D") w)), [],
     Raise ZeroDivisionError)).
  { unfold set_transform. rewrite Hv. run_M.
    cbn [transformations weights with__transform]. rewrite Hk.
    rewrite decide_False by done. rewrite decide_True by done.
    rewrite bind_run.
    rewrite (proj1 (characteristics_again _ Hok)).
    cbn [outcome_of state_of output_of fst snd]. run_M.
    unfold doubly_standardize, pydiv. rewrite Hz. by run_M. }
  rewrite Hrun. split; [done|]. cbn [state_of fst]. split.
  - by apply (preserves_characteristics (fun w' : W => weights w' = weights w)).
  - by apply (preserves_characteristics
                (fun w' : W => transformations w' = transformations w)).
Qed.

(** X16.  The loop of the branch B never raises: it returns the mapping with
    [1.0] in the place of every stored weight.  Selecting B on a container
    that has no cached B is the characteristics pass on the object that
    holds this mapping as current weights and under ["B"] in the cache. *)
Theorem binary_transform (w : W) (value : string) :
  upper value = "B" ->
  has_key (transformations w) "B" = false ->
  NoDup (keys (weights w)) ->
  binarize (weights w) = Ok (binarized (weights w)) /\
  set_transform value w =
    _characteristics
      (with_weights (binarized (weights w))
         (with_transformations (setitem (transformations w) "B" (binarized (weights w)))
            (with__transform (Some "B") w))).
Proof.
  intros Hv Hk Hnd.
  assert (Hb : binarize (weights w) = Ok (binarized (weights w))).
  { unfold binarize, binarized.
    apply (foldM_rows_all (fun wijs : list F => (fun _ => pyfloat 1) <$> wijs)); [done|].
    intros acc i wijs _ Hf. unfold getitem. by rewrite Hf. }
  split; [done|].
  unfold set_transform. rewrite Hv. run_M.
  cbn [transformations weights with__transform]. rewrite Hk.
  rewrite !decide_False by done. rewrite decide_True by done.
  rewrite Hb. by run_M.
Qed.


End transform_loops.

Lemma set_transform_stores_witness :
  dict_find (transformations (state_of (set_transform "r" chain_W))) (upper "r") =
  Some (weights (state_of (set_transform "r" chain_W))).
Proof.
  apply (set_transform_stores "r" chain_W).
  - vm_compute. reflexivity.
  - vm_compute. apply list_elem_of_here.
Defined.

Lemma set_transform_again_witness :
  set_transform "d" (state_of (set_transform "d" chain_W)) =
  (state_of (set_transform "d" chain_W), [], Ok tt).
Proof.
  apply (set_transform_again "d" chain_W).
  - vm_compute. reflexivity.
  - vm_compute. apply list_elem_of_further, list_elem_of_here.
Defined.

Lemma zero_row_W_new :
  new_W Z.le surplus_neighbors (Some [(0, [PyInt 0]); (1, [PyInt 1])]) None = Ok zero_row_W.
Proof. vm_compute. reflexivity. Qed.

Lemma zero_W_new :
  new_W Z.le surplus_neighbors (Some [(0, [PyInt 0]); (1, [PyInt 0])]) None = Ok zero_W.
Proof. vm_compute. reflexivity. Qed.


Lemma doubly_standardize_zero_sum_witness :
  set_transform "d" zero_W =
    (state_of (_characteristics (with__transform (Some "D") zero_W)), [],
     Raise ZeroDivisionError) /\
  weights (state_of (set_transform "d" zero_W)) = weights zero_W /\
  transformations (state_of (set_transform "d" zero_W)) = transformations zero_W.
Proof.
  apply (doubly_standardize_zero_sum zero_W "d").
  - vm_compute. reflexivity.
  - vm_compute. reflexivity.
  - vm_compute. reflexivity.
  - vm_compute. reflexivity.
Defined.

Lemma binary_transform_witness :
  binarize (weights chain_W) = Ok (binarized (weights chain_W)) /\
  set_transform "b" chain_W =
    _characteristics
      (with_weights (binarized (weights chain_W))
         (with_transformations
            (setitem (transformations chain_W) "B" (binarized (weights chain_W)))
            (with__transform (Some "B") chain_W))).
Proof.
  apply (binary_transform chain_W "b").
  - vm_compute. reflexivity.
  - vm_compute. reflexivity.
  - apply (bool_decide_unpack _). vm_compute. exact I.
Defined.



(** ** The moment [s0] *)

Section s0_facts.
Context {K : Type} `{EqDecision K} {F : Type} `{PyNum F}.
#[local] Abbreviation W := (W K F).

Lemma sum_edges_app (w : W) (s : F) (l1 l2 : list (K * (nat * K))) :
  sum_edges w s (l1 ++ l2) = sum_edges w (sum_edges w s l1) l2.
Proof. unfold sum_edges. apply fold_left_app. Qed.

Lemma sum_edges_cons (w : W) (s : F) (e : K * (nat * K)) (l : list (K * (nat * K))) :
  sum_edges w s (e :: l) = sum_edges w (add s (edge_wij w e)) l.
Proof. reflexivity. Qed.

Lemma inner_loop_s0 (w : W) (i : K) (wi : list F) (pre suf : list K)
    (a a' : moments) :
  NoDup (pre ++ suf) ->
  dict_find (weights w) i = Some wi ->
  foldM (edge_step w i (pre ++ suf) wi) a suf = Ok a' ->
  m_s0 a' = sum_edges w (m_s0 a)
              (pair i <$> imap (fun p j => (length pre + p, j)%nat) suf).
Proof.
  intros Hnd Hwi. revert pre a Hnd.
  induction suf as [|j suf IH]; intros pre a Hnd.
  - by intros [= <-].
  - rewrite foldM_cons. intros (a1 & H1 & Hl)%bind_Ok_inv.
    apply edge_step_inv in H1 as (_ & _ & wij & wji & _ & Hs0 & _ & Hwij).
    assert (Hpos : (pre ++ j :: suf) !! length pre = Some j).
    { by rewrite lookup_app_r, Nat.sub_diag by lia. }
    rewrite (index_of_NoDup j _ (length pre) Hnd Hpos) in Hwij.
    replace (pre ++ j :: suf) with ((pre ++ [j]) ++ suf) in Hl, Hnd
      by (by rewrite <- app_assoc).
    apply IH in Hl; [|done]. rewrite Hl, Hs0.
    rewrite imap_cons, fmap_cons, sum_edges_cons.
    assert (Hij : edge_wij w (i, ((length pre + 0)%nat, j)) = wij).
    { unfold edge_wij, weight_at. cbn [fst snd]. rewrite Hwi. simpl.
      by rewrite Nat.add_0_r, Hwij. }
    rewrite Hij. f_equal. f_equal. apply imap_ext. intros p x _. simpl.
    rewrite length_app. simpl. f_equal. lia.
Qed.

Lemma rows_loop_s0 (w : W) (a a' : moments) (l : list K) :
  duplicate_free w ->
  foldM (row_step w) a l = Ok a' ->
  m_s0 a' = sum_edges w (m_s0 a)
              (l ≫= fun i => pair i <$> enumerate (neighbors_of w i)).
Proof.
  intros Hd. revert a. induction l as [|i l IH]; intros a.
  - by intros [= <-].
  - rewrite foldM_cons. intros (a1 & H1 & Hl)%bind_Ok_inv.
    apply IH in Hl. rewrite Hl. clear Hl IH.
    unfold row_step in H1. apply bind_Ok_inv in H1 as (ni & Hni & H1).
    apply bind_Ok_inv in H1 as (wi & Hwi & H1).
    apply getitem_Ok in Hni, Hwi.
    apply (inner_loop_s0 w i wi [] ni) in H1; [|by apply (Hd i)|done].
    assert (Hn : neighbors_of w i = ni) by (unfold neighbors_of; by rewrite Hni).
    rewrite bind_cons, sum_edges_app, Hn. f_equal. exact H1.
Qed.

(** X18.  On a container whose neighbor lists are free of repetitions, a
    returning characteristics pass stores as [s0] the stored weights added
    up, from [0.0], along the visited directed edges. *)
Theorem s0_is_sum_of_weights (w : W) :
  duplicate_free w ->
  outcome_of (_characteristics w) = Ok tt ->
  s0 (chars (state_of (_characteristics w))) = s0_spec w.
Proof.
  intros Hd Hok.
  destruct (characteristics_ok_inv w Hok)
    as (a & s1v & s2v & mx & mn & mean & pct & asy & Ha & _ & _ & _ & _ & _ & _ & _ & Hst).
  rewrite Hst. cbn [chars with_chars s0 chars_after]. unfold s0_spec, visited_edges.
  by apply (rows_loop_s0 w moments0 a).
Qed.

End s0_facts.

Lemma s0_is_sum_of_weights_witness :
  s0 (chars (state_of (_characteristics doc_W))) = s0_spec doc_W.
Proof.
  apply (s0_is_sum_of_weights doc_W).
  - apply duplicate_free_check_sound. vm_compute. reflexivity.
  - vm_compute. reflexivity.
Defined.


(** ** Islands and the range of the cardinalities *)

Section cardinality_facts.
Context {K : Type} `{EqDecision K} {F : Type} `{PyNum F}.
#[local] Abbreviation W := (W K F).

Lemma filter_zero_cardinality (g : K -> Z) (l : list K) :
  fst <$> filter (fun ic : K * Z => ic.2 = 0) ((fun i => (i, g i)) <$> l) =
  filter (fun i => g i = 0) l.
Proof.
  induction l as [|i l IH]; [done|].
  rewrite fmap_cons, !filter_cons. cbn [snd].
  destruct (decide (g i = 0)); [rewrite fmap_cons|]; by rewrite IH.
Qed.

(** X19.  After a returning characteristics pass over distinct ids, [islands]
    holds exactly the ids of the iteration order whose neighbor list is
    empty, each once.  Their order is the one in which the mapping of
    cardinalities enumerates its keys, about which nothing is stated. *)
Theorem islands_are_empty_rows (w : W) :
  NoDup (_id_order w) ->
  outcome_of (_characteristics w) = Ok tt ->
  islands (chars (state_of (_characteristics w))) ≡ₚ
  filter (fun i => neighbors_of w i = []) (_id_order w).
Proof.
  intros Hnd Hok.
  cut (islands (chars (state_of (_characteristics w))) =
       filter (fun i => neighbors_of w i = []) (_id_order w)); [by intros ->|].
  destruct (characteristics_ok_inv w Hok)
    as (a & s1v & s2v & mx & mn & mean & pct & asy & Ha & _ & _ & _ & _ & _ & _ & _ & Hst).
  destruct (moments_loop_cardinalities w a Hnd Ha) as [Hc _].
  rewrite Hst. cbn [chars with_chars islands chars_after]. unfold items. rewrite Hc.
  rewrite filter_zero_cardinality. apply list_filter_iff. intros i.
  unfold len. destruct (neighbors_of w i); simpl; split; intros; try done; lia.
Qed.

Lemma fold_left_max_in (l : list Z) (x : Z) : fold_left Z.max l x ∈ x :: l.
Proof.
  revert x. induction l as [|y l IH]; intros x; simpl; [apply list_elem_of_here|].
  specialize (IH (Z.max x y)). apply elem_of_cons in IH as [Heq|Hin].
  - rewrite Heq. destruct (Z.max_spec x y) as [[_ ->]|[_ ->]].
    + apply list_elem_of_further, list_elem_of_here.
    + apply list_elem_of_here.
  - by do 2 apply list_elem_of_further.
Qed.

Lemma fold_left_min_in (l : list Z) (x : Z) : fold_left Z.min l x ∈ x :: l.
Proof.
  revert x. induction l as [|y l IH]; intros x; simpl; [apply list_elem_of_here|].
  specialize (IH (Z.min x y)). apply elem_of_cons in IH as [Heq|Hin].
  - rewrite Heq. destruct (Z.min_spec x y) as [[_ ->]|[_ ->]].
    + apply list_elem_of_here.
    + apply list_elem_of_further, list_elem_of_here.
  - by do 2 apply list_elem_of_further.
Qed.

(** X20.  After a returning characteristics pass over distinct ids,
    [min_neighbors] and [max_neighbors] bound the number of neighbors of
    every id, and each is the number of neighbors of some id. *)
Theorem cardinality_range (w : W) :
  NoDup (_id_order w) ->
  outcome_of (_characteristics w) = Ok tt ->
  (forall i, i ∈ _id_order w ->
     min_neighbors (chars (state_of (_characteristics w))) <= len (neighbors_of w i)
       <= max_neighbors (chars (state_of (_characteristics w)))) /\
  (exists i, i ∈ _id_order w /\
     len (neighbors_of w i) = min_neighbors (chars (state_of (_characteristics w)))) /\
  (exists i, i ∈ _id_order w /\
     len (neighbors_of w i) = max_neighbors (chars (state_of (_characteristics w)))).
Proof.
  intros Hnd Hok.
  destruct (characteristics_ok_inv w Hok)
    as (a & s1v & s2v & mx & mn & mean & pct & asy & Ha & _ & _ & Hmx & Hmn & _ & _ & _ & Hst).
  destruct (moments_loop_cardinalities w a Hnd Ha) as [Hc _].
  rewrite Hst. cbn [chars with_chars min_neighbors max_neighbors chars_after].
  assert (Hv : values (m_cardinalities a) = (fun i => len (neighbors_of w i)) <$> _id_order w).
  { rewrite Hc. unfold values. by rewrite <- list_fmap_compose. }
  rewrite Hv in Hmx, Hmn.
  destruct (py_max_min_bounds _ _ _ Hmx Hmn) as [_ Hall].
  split; [|split].
  - intros i Hi. rewrite Forall_forall in Hall. apply Hall.
    apply list_elem_of_fmap. by exists i.
  - assert (Hin : mn ∈ (fun i => len (neighbors_of w i)) <$> _id_order w).
    { destruct ((fun i => len (neighbors_of w i)) <$> _id_order w) as [|x l]; [done|].
      injection Hmn as <-. apply fold_left_min_in. }
    apply list_elem_of_fmap in Hin as (i & -> & Hi). by exists i.
  - assert (Hin : mx ∈ (fun i => len (neighbors_of w i)) <$> _id_order w).
    { destruct ((fun i => len (neighbors_of w i)) <$> _id_order w) as [|x l]; [done|].
      injection Hmx as <-. apply fold_left_max_in. }
    apply list_elem_of_fmap in Hin as (i & -> & Hi). by exists i.
Qed.

End cardinality_facts.

Lemma islands_are_empty_rows_witness :
  islands (chars (state_of (_characteristics island_W))) ≡ₚ
  filter (fun i => neighbors_of island_W i = []) (_id_order island_W).
Proof.
  apply (islands_are_empty_rows island_W).
  - apply (bool_decide_unpack _). vm_compute. exact I.
  - vm_compute. reflexivity.
Defined.

Lemma cardinality_range_witness :
  (forall i, i ∈ _id_order island_W ->
     min_neighbors (chars (state_of (_characteristics island_W)))
       <= len (neighbors_of island_W i)
       <= max_neighbors (chars (state_of (_characteristics island_W)))) /\
  (exists i, i ∈ _id_order island_W /\
     len (neighbors_of island_W i) =
     min_neighbors (chars (state_of (_characteristics island_W)))) /\
  (exists i, i ∈ _id_order island_W /\
     len (neighbors_of island_W i) =
     max_neighbors (chars (state_of (_characteristics island_W)))).
Proof.
  apply (cardinality_range island_W).
  - apply (bool_decide_unpack _). vm_compute. exact I.
  - vm_compute. reflexivity.
Defined.

(** The island of the example container. *)
Example island_W_islands : islands (chars island_W) = [2].
Proof. vm_compute. reflexivity. Qed.


(** ** What the constructor fixes *)

Section constructor_facts.
Context {K : Type} `{EqDecision K} (Kle : relation K) `{!RelDecision Kle}.
Context {F : Type} `{PyNum F}.
#[local] Abbreviation W := (W K F).

(** X21.  The class call takes the order as given, or sorts the ids: with no
    [id_order] the iteration order is the ids sorted (a sorted arrangement
    of them when the comparison is total) and is marked as not set by the
    user; an explicit [id_order] is stored as it is, whatever it lists, and
    marked as set.  In both cases the object holds the neighbors given, no
    transformation name, and an unfilled offsets cache. *)
Theorem constructor_order `{!Total Kle} nb wt ord (w : W) :
  new_W Kle nb wt ord = Ok w ->
  neighbors w = nb /\ _transform w = None /\ _W__neighbors_0 w = None /\
  match ord with
  | None => _id_order w = merge_sort Kle (keys nb) /\ Sorted Kle (_id_order w) /\
            _id_order w ≡ₚ keys nb /\ _id_order_set w = false
  | Some id_order => _id_order w = id_order /\ _id_order_set w = true
  end.
Proof.
  intros (ws & _ & _ & ->)%new_W_inv.
  cbn [neighbors _transform _W__neighbors_0 _id_order _id_order_set with__transform].
  assert (Hk : forall (P : W -> Prop), (forall f w', P w' -> P (with_chars f w')) ->
            P (init_state Kle nb ws ord) ->
            P (state_of (_characteristics (init_state Kle nb ws ord)))).
  { intros P HP. by apply (preserves_characteristics P). }
  split; [by apply (Hk (fun w' => neighbors w' = nb))|].
  split; [done|].
  split; [by apply (Hk (fun w' => _W__neighbors_0 w' = None))|].
  destruct ord as [o|].
  - split; [by apply (Hk (fun w' => _id_order w' = o))|].
    by apply (Hk (fun w' => _id_order_set w' = true)).
  - assert (Ho : _id_order (state_of (_characteristics (init_state Kle nb ws None)))
                 = merge_sort Kle (keys nb))
      by (by apply (Hk (fun w' => _id_order w' = merge_sort Kle (keys nb)))).
    rewrite Ho. split; [done|]. split; [apply Sorted_merge_sort, _|].
    split; [apply merge_sort_Permutation|].
    by apply (Hk (fun w' => _id_order_set w' = false)).
Qed.

(** X22.  On every container a program can hold, [n_1] is the number of ids of
    [neighbors] less one, as [__init__] computed it, and the attribute
    [_idx] of the container is 0: no method advances it, iteration keeps
    its position in the iterator. *)
Theorem reachable_n_1 (w : W) :
  reachable Kle w -> n_1 w = len (neighbors w) - 1 /\ _idx w = 0.
Proof.
  induction 1 as [nb wt ord w Hnew|value w _ IH|ids w _ IH|w _ IH].
  - apply new_W_inv in Hnew as (ws & _ & _ & ->).
    cbn [n_1 neighbors _idx with__transform].
    by apply (preserves_characteristics
                (fun w' : W => n_1 w' = len (neighbors w') - 1 /\ _idx w' = 0)).
  - revert IH. generalize w. clear w.
    change (preserves (fun w' : W => n_1 w' = len (neighbors w') - 1 /\ _idx w' = 0)
              (set_transform value)).
    unfold set_transform. generalize (upper value). intros name.
    assert (Hc : preserves (fun w' : W => n_1 w' = len (neighbors w') - 1 /\ _idx w' = 0)
                           _characteristics)
      by (by apply preserves_characteristics).
    repeat first
      [ apply preserves_bind; [|intros]
      | apply preserves_get | apply preserves_lift | apply preserves_print
      | exact Hc
      | by apply preserves_modify
      | match goal with
        | |- preserves _ (if has_key ?d ?k then _ else _) => destruct (has_key d k)
        | |- preserves _ (if decide ?P then _ else _) => destruct (decide P)
        end ].
  - unfold __set_id_order. run_M.
    destruct (same_set (_id_order w) ids); run_M; [|done].
    split; [apply IH|done].
  - revert IH.
    apply (neighbor_offsets_keeps
             (fun w' : W => n_1 w' = len (neighbors w') - 1 /\ _idx w' = 0)).
    by intros.
Qed.

End constructor_facts.

(** X23.  A container without any id cannot be built: with no ids in the order
    the characteristics pass reaches [max] of an empty list, which raises
    ValueError; with an explicit order that lists an id, the lookup of
    that id in the empty [neighbors] raises KeyError. *)
Theorem empty_container_rejected {K : Type} `{EqDecision K} (Kle : relation K)
    `{!RelDecision Kle} (wt : option (dict K (list pynum))) (ord : option (list K)) :
  new_W Kle [] wt ord =
  Raise (match ord with Some (_ :: _) => KeyError | _ => ValueError end).
Proof.
  destruct wt as [[|kv ws]|], ord as [[|i l]|]; vm_compute; reflexivity.
Qed.

Lemma constructor_order_witness :
  neighbors chain_W = chain_neighbors /\ _transform chain_W = None /\
  _W__neighbors_0 chain_W = None /\
  _id_order chain_W = merge_sort Z.le (keys chain_neighbors) /\
  Sorted Z.le (_id_order chain_W) /\
  _id_order chain_W ≡ₚ keys chain_neighbors /\ _id_order_set chain_W = false.
Proof.
  apply (constructor_order Z.le chain_neighbors (Some chain_weights) None chain_W).
  vm_compute. reflexivity.
Defined.

Lemma reachable_n_1_witness :
  n_1 (state_of (__set_id_order [2; 0; 1] (state_of (set_transform "r" chain_W)))) =
    len (neighbors (state_of (__set_id_order [2; 0; 1]
                                (state_of (set_transform "r" chain_W))))) - 1 /\
  _idx (state_of (__set_id_order [2; 0; 1] (state_of (set_transform "r" chain_W)))) = 0.
Proof.
  apply (reachable_n_1 Z.le).
  apply reach_set_id_order, reach_set_transform.
  apply (reach_new Z.le chain_neighbors (Some chain_weights) None).
  vm_compute. reflexivity.
Defined.

(** ** The flag [asymmetric] *)

Section asymmetric_facts.
Context {K : Type} `{EqDecision K} {F : Type} `{PyNum F}.
#[local] Abbreviation W := (W K F).

(** The check edge by edge, as a function. *)
Lemma asymmetry_of_spec (w : W) (nz : bool) :
  NoDup (keys (neighbors w)) -> aligned w ->
  asymmetry_of w nz = Ok (asymmetry_spec w nz).
Proof.
  intros Hnd Hal. unfold asymmetry_of, asymmetry_spec.
  rewrite (foldM_appends _ (fun item : K * list K =>
             enumerate item.2 ≫= edge_entry w nz item.1)); [done|].
  intros acc [i ns] Hin. unfold asymmetry_row. cbn [fst snd].
  apply foldM_appends. intros acc' pj Hpj.
  apply (asymmetry_edge_spec w nz i ns); [done| |done].
  by apply dict_find_NoDup.
Qed.

Lemma bind_nil_iff {A B} (f : A -> list B) (l : list A) :
  l ≫= f = [] <-> forall x, x ∈ l -> f x = [].
Proof.
  induction l as [|x l IH].
  - split; [intros _ x Hx; by apply elem_of_nil in Hx|done].
  - rewrite bind_cons. split.
    + intros [Hx Hl]%app_eq_nil y [->|Hy]%elem_of_cons; [done|].
      by apply IH.
    + intros Hall. rewrite (Hall x) by apply list_elem_of_here. simpl.
      apply IH. intros y Hy. apply Hall. by apply list_elem_of_further.
Qed.

Lemma edge_entry_nil (w : W) (i : K) (pj : nat * K) :
  edge_entry w true i pj = [] <-> lists_neighbor w pj.2 i = true.
Proof.
  unfold edge_entry. destruct (lists_neighbor w pj.2 i); [|done].
  split; [done|intros _].
  by destruct (weight_at w i pj.1), (reciprocal w i pj.2).
Qed.

(** X24.  On a container with distinct ids and aligned weight lists, a
    returning characteristics pass sets [asymmetric] to 0 exactly when
    every stored neighbor lists the id back, and to 1 otherwise: the
    weights themselves are not compared. *)
Theorem asymmetric_flag (w : W) :
  NoDup (keys (neighbors w)) -> aligned w ->
  outcome_of (_characteristics w) = Ok tt ->
  (asymmetric (chars (state_of (_characteristics w))) = 0 <->
   forall i ns j, (i, ns) ∈ neighbors w -> j ∈ ns -> lists_neighbor w j i = true) /\
  (asymmetric (chars (state_of (_characteristics w))) = 0 \/
   asymmetric (chars (state_of (_characteristics w))) = 1).
Proof.
  intros Hnd Hal Hok.
  destruct (characteristics_ok_inv w Hok)
    as (a & s1v & s2v & mx & mn & mean & pct & asy & _ & _ & _ & _ & _ & _ & _ & Has & Hst).
  rewrite Hst. cbn [chars with_chars asymmetric chars_after].
  rewrite (asymmetry_of_spec w true Hnd Hal) in Has. injection Has as <-.
  split; [|destruct (asymmetry_spec w true); [by left|by right]].
  assert (Hnil : asymmetry_spec w true = [] <->
    forall i ns j, (i, ns) ∈ neighbors w -> j ∈ ns -> lists_neighbor w j i = true).
  { unfold asymmetry_spec, items. rewrite bind_nil_iff. split.
    - intros Hall i ns j Hi Hj. specialize (Hall (i, ns) Hi). cbn [fst snd] in Hall.
      rewrite bind_nil_iff in Hall.
      apply list_elem_of_lookup_1 in Hj as [pos Hpos].
      specialize (Hall (pos, j)). rewrite edge_entry_nil in Hall. apply Hall.
      by apply enumerate_elem.
    - intros Hall [i ns] Hi. cbn [fst snd]. apply bind_nil_iff. intros [pos j] Hpj.
      apply edge_entry_nil. cbn [snd]. apply (Hall i ns); [done|].
      apply enumerate_elem in Hpj. by apply list_elem_of_lookup_2 in Hpj. }
  rewrite <- Hnil. by destruct (asymmetry_spec w true).
Qed.

End asymmetric_facts.

Lemma asymmetric_flag_witness :
  (asymmetric (chars (state_of (_characteristics doc_W))) = 0 <->
   forall i ns j, (i, ns) ∈ neighbors doc_W -> j ∈ ns -> lists_neighbor doc_W j i = true) /\
  (asymmetric (chars (state_of (_characteristics doc_W))) = 0 \/
   asymmetric (chars (state_of (_characteristics doc_W))) = 1).
Proof.
  apply (asymmetric_flag doc_W).
  - apply (bool_decide_unpack _). vm_compute. exact I.
  - apply aligned_check_sound. vm_compute. reflexivity.
  - vm_compute. reflexivity.
Defined.


(** ** What [nonzero] and [n] count *)

Section counts.
Context {K : Type} `{EqDecision K} {F : Type} `{PyNum F}.
#[local] Abbreviation W := (W K F).

Lemma len_bind {A B} (f : A -> list B) (l : list A) :
  len (l ≫= f) = sumZ ((fun x => len (f x)) <$> l).
Proof.
  induction l as [|x l IH]; [done|].
  rewrite bind_cons, fmap_cons, sumZ_cons, <- IH. unfold len.
  rewrite length_app. lia.
Qed.

(** X25.  A returning characteristics pass stores as [nonzero] the number of
    directed edges it visited, whatever their weights (a stored weight of
    zero counts), and as [n] the number of ids of [weights]. *)
Theorem nonzero_counts_neighbors (w : W) :
  outcome_of (_characteristics w) = Ok tt ->
  nonzero (chars (state_of (_characteristics w))) = len (visited_edges w) /\
  n (chars (state_of (_characteristics w))) = len (weights w).
Proof.
  intros Hok.
  destruct (characteristics_ok_inv w Hok)
    as (a & s1v & s2v & mx & mn & mean & pct & asy & Ha & _ & _ & _ & _ & _ & _ & _ & Hst).
  rewrite Hst. cbn [chars with_chars nonzero n chars_after]. split; [|done].
  unfold moments_loop in Ha. apply rows_loop_inv in Ha as (Hn & _ & _).
  rewrite Hn. cbn [m_nonzero moments0]. unfold visited_edges. rewrite len_bind.
  rewrite Z.add_0_l. f_equal. apply list_fmap_ext. intros _ i _.
  unfold len, enumerate. by rewrite length_fmap, length_imap.
Qed.

End counts.

Lemma nonzero_counts_neighbors_witness :
  nonzero (chars (state_of (_characteristics zero_W))) = len (visited_edges zero_W) /\
  n (chars (state_of (_characteristics zero_W))) = len (weights zero_W).
Proof.
  apply (nonzero_counts_neighbors zero_W).
  vm_compute. reflexivity.
Defined.

(** Two stored weights, both zero: [nonzero] is 2. *)
Example zero_W_nonzero :
  nonzero (chars zero_W) = 2 /\
  weights zero_W = [(0, [PyInt 0]); (1, [PyInt 0])].
Proof. vm_compute. split; reflexivity. Qed.


(** ** Consistency through the life of a container *)

Section steady_facts.
Context {K : Type} `{EqDecision K} (Kle : relation K) `{!RelDecision Kle}.
Context {F : Type} `{PyNum F}.
#[local] Abbreviation W := (W K F).

Lemma steady_consistent (w : W) : steady w -> consistent (chars w).
Proof. intros [_ (Hn & Hc & Hh & Hl)]. split; congruence. Qed.

(** The counts of a returning double loop over distinct ids. *)
Lemma moments_loop_counts (w : W) (a : moments) :
  NoDup (_id_order w) -> moments_loop w = Ok a ->
  m_nonzero a = visited_count w /\
  sumZ (values (m_cardinalities a)) = visited_count w /\
  len (values (m_cardinalities a)) = len (_id_order w).
Proof.
  intros Hnd Ha. destruct (moments_loop_cardinalities w a Hnd Ha) as [Hc Hs].
  unfold moments_loop in Ha. apply rows_loop_inv in Ha as (Hn & _ & _).
  cbn [m_nonzero moments0] in Hn. rewrite Z.add_0_l in Hn.
  split; [exact Hn|]. split; [by rewrite Hs|].
  rewrite Hc. unfold values, len. by rewrite !length_fmap.
Qed.

(** The characteristics pass keeps a steady object steady, also when it
    raises half way. *)
Lemma characteristics_steady (w : W) :
  steady w -> steady (state_of (_characteristics w)).
Proof.
  intros [Hi (Hn & Hc & Hh & Hl)].
  assert (Hnd : NoDup (_id_order w)).
  { destruct Hi as [[Hnd Hp] _]. by rewrite Hp. }
  assert (Hlen : len (_id_order w) = len (weights w)).
  { destruct Hi as [[_ Hp] _]. unfold len. rewrite (Permutation_length Hp).
    unfold keys. by rewrite length_fmap. }
  unfold _characteristics. run_M.
  destruct (moments_loop w) as [e|a] eqn:Ha; run_M; [by split|].
  destruct (moments_loop_counts w a Hnd Ha) as (Hna & Hca & Hla).
  destruct (pydiv (m_s1 a) (pyfloat 2)) as [e|s1v] eqn:Hs1; run_M; [by split|].
  destruct (s2_of a) as [e|s2v] eqn:Hs2; run_M; [by split|].
  destruct (py_max (values (m_cardinalities a))) as [e|mx] eqn:Hmx; run_M.
  { split; [exact Hi|]. by repeat split. }
  destruct (py_min (values (m_cardinalities a))) as [e|mn] eqn:Hmn; run_M.
  { split; [exact Hi|]. by repeat split. }
  destruct (pydiv (pyint (sumZ (values (m_cardinalities a))))
              (mul (pyint (len (weights w))) (pyfloat 1))) as [e|mean] eqn:Hmean;
    run_M.
  { split; [exact Hi|]. by repeat split. }
  destruct (pydiv (pyint (m_nonzero a))
              (mul (mul (pyfloat 1) (pyint (len (weights w)))) (pyint (len (weights w)))))
    as [e|pct] eqn:Hpct; run_M.
  { split; [exact Hi|]. by repeat split. }
  rewrite bind_asymmetry, !asymmetry_of_with_chars.
  destruct (asymmetry_of w true) as [e|asym] eqn:Has; run_M.
  { split; [exact Hi|]. by repeat split. }
  split; [exact Hi|]. repeat split; try done.
  change (sumZ (snd <$> py_zip (py_range mn (mx + 2))
                 (hist_counts (values (m_cardinalities a)) (py_range mn (mx + 2))))
          = len (weights w)).
  rewrite (histogram_total _ _ _ Hmx Hmn). by rewrite Hla.
Qed.

Lemma same_ids_len {V1 V2} (w : W) (ws1 : dict K V1) (ws2 : dict K V2) :
  same_ids w ws1 -> same_ids w ws2 -> len ws1 = len ws2.
Proof.
  intros [_ H1] [_ H2]. rewrite H1 in H2. apply Permutation_length in H2.
  unfold keys in H2. rewrite !length_fmap in H2. unfold len. by rewrite H2.
Qed.

Lemma steady_with_weights (w : W) (ws : dict K (list F)) :
  steady w -> same_ids w ws -> steady (with_weights ws w).
Proof.
  intros [[Hw Hc] (Hn & Hs & Hh & Hl)] Hws.
  pose proof (same_ids_len w ws (weights w) Hws Hw) as Hlen.
  split; [by split|]. unfold counts_in_step.
  cbn [chars weights with_weights]. rewrite Hlen. by repeat split.
Qed.

Lemma steady_store (w : W) (name : string) (ws : dict K (list F)) :
  steady w -> keys ws = keys (weights w) ->
  steady (with_weights ws (with_transformations (setitem (transformations w) name ws) w)).
Proof.
  intros [Hi Hc] Hk.
  assert (Hws : same_ids w ws).
  { destruct Hi as [[Hnd Hp] _]. unfold same_ids. by rewrite Hk. }
  apply steady_with_weights; [|exact Hws].
  split; [|exact Hc]. destruct Hi as [Hw Hcache]. split; [exact Hw|].
  intros name' ws'. cbn [transformations with_transformations].
  rewrite dict_find_setitem.
  destruct (decide (name = name')); [by intros [= <-]|apply Hcache].
Qed.

(** An assignment to [transform] keeps a steady object steady, whether it
    returns or raises. *)
Lemma set_transform_steady (value : string) (w : W) :
  steady w -> steady (state_of (set_transform value w)).
Proof.
  intros Hs. unfold set_transform. generalize (upper value). intros name. run_M.
  assert (Hs1 : steady (with__transform (Some name) w)) by exact Hs.
  revert Hs1. generalize (with__transform (Some name) w). clear w Hs.
  intros w Hs.
  pose proof Hs as [Hi Hc].
  destruct (has_key (transformations w) name) eqn:Hk.
  { apply has_key_true in Hk as [ws Hws]. unfold getitem. rewrite Hws. run_M.
    apply characteristics_steady, steady_with_weights; [done|].
    exact (proj2 Hi name ws Hws). }
  destruct (decide (name = "R")) as [HR|HR].
  { destruct (row_standardize (weights w)) as [err|ws] eqn:Hr; run_M; [done|].
    apply characteristics_steady, steady_store; [done|].
    apply row_standardize_keys; [apply Hi|done]. }
  destruct (decide (name = "D")) as [HD|HD].
  { rewrite bind_run.
    pose proof (characteristics_steady w Hs) as Hs2.
    destruct (outcome_of (_characteristics w)) as [err|[]] eqn:Hok1; [done|].
    revert Hs2. generalize (state_of (_characteristics w)). intros w2 Hs2.
    unfold state_of at 1. cbn [fst]. run_M.
    destruct (doubly_standardize (weights w2) (s0 (chars w2))) as [err|ws] eqn:Hd;
      run_M; [done|].
    apply characteristics_steady, steady_store; [done|].
    apply (doubly_standardize_keys _ _ (s0 (chars w2))); [apply Hs2|done]. }
  destruct (decide (name = "B")) as [HB|HB].
  { destruct (binarize (weights w)) as [err|ws] eqn:Hr; run_M; [done|].
    apply characteristics_steady, steady_store; [done|].
    apply binarize_keys; [apply Hi|done]. }
  destruct (decide (name = "V")) as [HV|HV].
  { destruct (variance_stabilize (weights w) (n (chars w))) as [err|ws] eqn:Hr;
      run_M; [done|].
    apply characteristics_steady, steady_with_weights; [done|].
    pose proof (variance_stabilize_keys _ _ _ (proj1 (proj1 Hi)) Hr) as Hk2.
    unfold same_ids. rewrite Hk2. apply Hi. }
  destruct (decide (name = "O")) as [HO|HO].
  { unfold has_key in Hk. unfold getitem.
    destruct (dict_find (transformations w) name); [done|]. by run_M. }
  done.
Qed.

(** So does an assignment to [id_order] of a sequence without a repeated
    id, whether it is accepted or refused. *)
Lemma set_id_order_steady (ordered_ids : list K) (w : W) :
  NoDup ordered_ids -> steady w -> steady (state_of (__set_id_order ordered_ids w)).
Proof.
  intros Hnd Hs.
  destruct (set_id_order_run w ordered_ids) as [[Hx ->]|[_ ->]]; [|done].
  destruct Hs as [[[Hndw Hpw] Hcache] (Hn & Hc & Hh & Hl)].
  assert (Hp : ordered_ids ≡ₚ _id_order w).
  { apply NoDup_Permutation; [done|by rewrite Hpw|done]. }
  cbn [state_of fst]. split; [split|].
  - split; [done|]. cbn [_id_order weights with__W__neighbors_0 with_neighbor_0_ids
                         with__id_order_set with__idx with__id_order].
    by rewrite Hp.
  - intros name ws Hws. destruct (Hcache name ws Hws) as [Hndc Hpc].
    split; [done|]. cbn [_id_order with__W__neighbors_0 with_neighbor_0_ids
                         with__id_order_set with__idx with__id_order].
    by rewrite Hp.
  - assert (Hv : visited_count
                   (with__W__neighbors_0 None (with_neighbor_0_ids (Some [])
                      (with__id_order_set true (with__idx 0
                         (with__id_order ordered_ids w))))) = visited_count w).
    { unfold visited_count.
      cbn [_id_order with__W__neighbors_0 with_neighbor_0_ids
           with__id_order_set with__idx with__id_order].
      change (sumZ ((fun i => len (neighbors_of w i)) <$> ordered_ids) =
              sumZ ((fun i => len (neighbors_of w i)) <$> _id_order w)).
      assert (Hperm : forall l1 l2 : list Z, l1 ≡ₚ l2 -> sumZ l1 = sumZ l2).
      { induction 1 as [|x l1 l2 _ IH|x y l|l1 l2 l3 _ IH1 _ IH2];
          rewrite ?sumZ_cons; lia. }
      apply Hperm. by rewrite Hp. }
    unfold counts_in_step. rewrite Hv. by repeat split.
Qed.

Lemma neighbor_offsets_steady (w : W) :
  steady w -> steady (state_of (neighbor_offsets w)).
Proof.
  apply (neighbor_offsets_keeps (steady (K:=K) (F:=F))). by intros.
Qed.

(** The class call on well-formed arguments returns a steady object. *)
Lemma new_W_steady nb wt ord (w : W) :
  well_formed_input nb wt ord -> new_W Kle nb wt ord = Ok w -> steady w.
Proof.
  intros Hin Hnew. destruct (new_W_consistent Kle nb wt ord w Hin Hnew) as [Hi _].
  apply new_W_inv in Hnew as (ws & Hws & Hok & ->).
  assert (Hi0 : ids_consistent (init_state Kle nb ws ord)).
  { revert Hi.
    cut (ids_consistent (state_of (_characteristics (init_state Kle nb ws ord))) ->
         ids_consistent (init_state Kle nb ws ord)); [by auto|].
    destruct (characteristics_ok_inv _ Hok)
      as (a & s1v & s2v & mx & mn & mean & pct & asy & _ & _ & _ & _ & _ & _ & _ & _ & ->).
    by intros. }
  assert (Hnd : NoDup (_id_order (init_state Kle nb ws ord))).
  { destruct Hi0 as [[Hnd Hp] _]. by rewrite Hp. }
  assert (Hlen : len (_id_order (init_state Kle nb ws ord))
                 = len (weights (init_state Kle nb ws ord))).
  { destruct Hi0 as [[_ Hp] _]. unfold len. rewrite (Permutation_length Hp).
    unfold keys. by rewrite length_fmap. }
  destruct (characteristics_ok_inv _ Hok)
    as (a & s1v & s2v & mx & mn & mean & pct & asy & Ha & _ & _ & Hmx & Hmn & _ & _ & _ & Hst).
  destruct (moments_loop_counts _ a Hnd Ha) as (Hna & Hca & Hla).
  rewrite Hst. split; [exact Hi0|]. repeat split; try done.
  change (sumZ (snd <$> py_zip (py_range mn (mx + 2))
                 (hist_counts (values (m_cardinalities a)) (py_range mn (mx + 2))))
          = len (weights (init_state Kle nb ws ord))).
  rewrite (histogram_total _ _ _ Hmx Hmn). by rewrite Hla.
Qed.

(** C8 (amended).  A container built by the class call from well-formed
    arguments (distinct ids, weights absent, empty or keyed by the same
    ids, an explicit order that is an arrangement of the ids) has
    consistent derived attributes: the cardinalities add up to [nonzero],
    and the counts of the cardinality histogram add up to [n].  It keeps
    them through every assignment to [transform], returning or raising,
    every access to [neighbor_offsets], and every assignment to [id_order]
    of a sequence without a repeated id. *)
Theorem C8_characteristics_consistent nb wt ord (w0 w : W) :
  well_formed_input nb wt ord ->
  new_W Kle nb wt ord = Ok w0 ->
  evolved w0 w ->
  consistent (chars w).
Proof.
  intros Hin Hnew Hev. apply steady_consistent.
  induction Hev as [|value w _ IH|ordered_ids w _ IH Hnd|w _ IH].
  - by apply (new_W_steady nb wt ord).
  - by apply set_transform_steady.
  - by apply set_id_order_steady.
  - by apply neighbor_offsets_steady.
Qed.

End steady_facts.

Lemma C8_witness :
  consistent
    (chars (state_of (set_transform "b"
              (state_of (__set_id_order [2; 0; 1]
                 (state_of (set_transform "r" chain_W))))))).
Proof.
  apply (C8_characteristics_consistent Z.le chain_neighbors (Some chain_weights) None
           chain_W).
  - split; [apply (bool_decide_unpack _); vm_compute; exact I|].
    split; [|exact I]. split.
    + apply (bool_decide_unpack _). vm_compute. exact I.
    + vm_compute. reflexivity.
  - vm_compute. reflexivity.
  - apply evolved_transform, evolved_order; [apply evolved_transform, evolved_refl|].
    apply (bool_decide_unpack _). vm_compute. exact I.
Defined.

(** C8, counterexample.  The example container is built from well-formed
    arguments.  The sequence [[0; 1; 2; 2]] has the elements of its order
    and is accepted as [id_order]; the next transform switch returns, its
    pass visits the neighbor of id 2 twice and keeps one cardinality for
    it: [nonzero] is 5 and the cardinalities add up to 4. *)
Lemma C8_counterexample : ~ always_consistent.
Proof.
  intros [_ Hc].
  specialize (Hc (state_of (__set_id_order [0; 1; 2; 2] chain_W)) "b").
  destruct Hc as [Hc _].
  - apply reach_set_id_order.
    apply (reach_new Z.le chain_neighbors (Some chain_weights) None).
    vm_compute. reflexivity.
  - vm_compute. reflexivity.
  - vm_compute in Hc. discriminate Hc.
Qed.

Example repeated_id_after_switch :
  outcome_of (__set_id_order [0; 1; 2; 2] chain_W) = Ok tt /\
  outcome_of (set_transform "b" (state_of (__set_id_order [0; 1; 2; 2] chain_W))) = Ok tt /\
  nonzero (chars (state_of (set_transform "b"
             (state_of (__set_id_order [0; 1; 2; 2] chain_W))))) = 5 /\
  sumZ (values (cardinalities (chars (state_of (set_transform "b"
             (state_of (__set_id_order [0; 1; 2; 2] chain_W))))))) = 4.
Proof. vm_compute. repeat split; reflexivity. Qed.


(** ** The shape of the weights of a container *)

Section shape_facts.
Context {K : Type} `{EqDecision K} (Kle : relation K) `{!RelDecision Kle}.
Context {F : Type} `{PyNum F}.
#[local] Abbreviation W := (W K F).

Lemma covers_same_lengths (nb : dict K (list K)) (ws r : dict K (list F)) :
  covers nb ws -> same_lengths ws r -> covers nb r.
Proof.
  intros Hc Hs i ns Hi Hne. destruct (Hc i ns Hi Hne) as (wi & Hwi & Hlen).
  destruct (Hs i wi Hwi) as (ri & Hri & Hl). exists ri. split; [done|lia].
Qed.

Lemma comprehension_length {A B} (f : A -> result B) (l : list A) (r : list B) :
  comprehension f l = Ok r -> length r = length l.
Proof.
  revert r. induction l as [|x l IH]; intros r; [by intros [= <-]|].
  rewrite comprehension_cons. intros (y & _ & (ys & Hys & [= <-])%bind_Ok_inv)%bind_Ok_inv.
  simpl. f_equal. by apply IH.
Qed.

(** A loop over the ids of [ws] whose body stores, under the id it is at,
    a list as long as the one [ws] has there. *)
Lemma foldM_same_lengths {A B} (ws : dict K (list A))
    (step : dict K (list B) -> K -> result (dict K (list B))) :
  (forall acc i acc', step acc i = Ok acc' ->
     exists wi v, dict_find ws i = Some wi /\ length v = length wi /\
                  acc' = setitem acc i v) ->
  forall r, foldM step [] (keys ws) = Ok r -> same_lengths ws r.
Proof.
  intros Hstep.
  assert (Hgen : forall l acc r, foldM step acc l = Ok r ->
    forall i wi, dict_find ws i = Some wi ->
      (exists ai, dict_find acc i = Some ai /\ length ai = length wi) \/ i ∈ l ->
      exists ri, dict_find r i = Some ri /\ length ri = length wi).
  { induction l as [|x l IH]; intros acc r.
    - intros [= <-] i wi Hwi [Hacc|Hin]; [done|by apply elem_of_nil in Hin].
    - rewrite foldM_cons. intros (acc1 & Hx & Hl)%bind_Ok_inv i wi Hwi Hor.
      apply Hstep in Hx as (wx & v & Hwx & Hlen & ->).
      apply (IH _ _ Hl i wi Hwi). rewrite dict_find_setitem.
      destruct (decide (x = i)) as [->|Hne].
      + left. exists v. split; [done|]. rewrite Hwi in Hwx. by injection Hwx as ->.
      + destruct Hor as [Hacc|[->|Hin]%elem_of_cons]; [by left|done|by right]. }
  intros r Hr i wi Hwi. apply (Hgen _ _ _ Hr i wi Hwi). right.
  apply dict_find_Some_In in Hwi. apply list_elem_of_fmap. by exists (i, wi).
Qed.

Lemma row_standardize_lengths (ws r : dict K (list F)) :
  row_standardize ws = Ok r -> same_lengths ws r.
Proof.
  apply foldM_same_lengths. intros acc i acc'. unfold row_standardize_row.
  intros (wijs & Hw%getitem_Ok & (new & Hn & [= <-])%bind_Ok_inv)%bind_Ok_inv.
  exists wijs, new. split; [done|]. split; [|done]. by apply comprehension_length in Hn.
Qed.

Lemma doubly_standardize_lengths (ws r : dict K (list F)) (s0 : F) :
  doubly_standardize ws s0 = Ok r -> same_lengths ws r.
Proof.
  unfold doubly_standardize. intros (scale & _ & Hr)%bind_Ok_inv. revert r Hr.
  apply foldM_same_lengths. intros acc i acc'.
  intros (wijs & Hw%getitem_Ok & [= <-])%bind_Ok_inv.
  exists wijs. eexists. split; [done|]. split; [|done]. by rewrite length_fmap.
Qed.

Lemma binarize_lengths (ws r : dict K (list F)) :
  binarize ws = Ok r -> same_lengths ws r.
Proof.
  apply foldM_same_lengths. intros acc i acc'.
  intros (wijs & Hw%getitem_Ok & [= <-])%bind_Ok_inv.
  exists wijs. eexists. split; [done|]. split; [|done]. by rewrite length_fmap.
Qed.

Lemma foldM_invariant {A B} (P : A -> Prop) (f : A -> B -> result A) (l : list B)
    (a r : A) :
  P a -> (forall a x a', P a -> f a x = Ok a' -> P a') -> foldM f a l = Ok r -> P r.
Proof.
  intros Ha Hf. revert a Ha. induction l as [|x l IH]; intros a Ha.
  - by intros [= <-].
  - rewrite foldM_cons. intros (a1 & Hx & Hl)%bind_Ok_inv.
    apply (IH a1); [by apply (Hf a x)|done].
Qed.

Lemma variance_stabilize_lengths (ws r : dict K (list F)) (n : Z) :
  variance_stabilize ws n = Ok r -> same_lengths ws r.
Proof.
  unfold variance_stabilize. intros (l & Hl & (nQ & _ & Hr)%bind_Ok_inv)%bind_Ok_inv.
  assert (Hs : forall i si, dict_find (v_s l) i = Some si ->
            exists wi, dict_find ws i = Some wi /\ length si = length wi).
  { revert Hl. unfold variance_first_loop.
    apply (foldM_invariant (fun l : vs_locals => forall i si,
             dict_find (v_s l) i = Some si ->
             exists wi, dict_find ws i = Some wi /\ length si = length wi)); [done|].
    intros a x a' Ha.
    intros (wijs & Hw%getitem_Ok & (qi & _ & (si & Hsi & (s_i & _ & [= <-])%bind_Ok_inv)
              %bind_Ok_inv)%bind_Ok_inv)%bind_Ok_inv.
    cbn [v_s]. intros i si'. rewrite dict_find_setitem.
    destruct (decide (x = i)) as [->|Hne]; [|apply Ha].
    intros [= <-]. exists wijs. split; [done|]. by apply comprehension_length in Hsi. }
  revert r Hr. apply foldM_same_lengths. intros acc i acc'.
  intros (s_i & Hsi%getitem_Ok & [= <-])%bind_Ok_inv.
  destruct (Hs i s_i Hsi) as (wi & Hwi & Hlen).
  exists wi. eexists. split; [done|]. split; [|done]. by rewrite length_fmap.
Qed.

Lemma shaped_with_chars (f : characteristics K F -> characteristics K F) (w : W) :
  shaped w -> shaped (with_chars f w).
Proof. by intros. Qed.

Lemma characteristics_shaped (w : W) : shaped w -> shaped (state_of (_characteristics w)).
Proof. apply (preserves_characteristics (shaped (K:=K) (F:=F))). by intros. Qed.

Lemma shaped_store (w : W) (name : string) (ws : dict K (list F)) :
  shaped w -> same_lengths (weights w) ws ->
  shaped (with_weights ws (with_transformations (setitem (transformations w) name ws) w)).
Proof.
  intros [Hw Hc] Hs.
  assert (Hws : covers (neighbors w) ws) by (by apply (covers_same_lengths _ (weights w))).
  split; [exact Hws|]. intros name' ws'.
  cbn [transformations neighbors with_weights with_transformations].
  rewrite dict_find_setitem.
  destruct (decide (name = name')); [by intros [= <-]|apply Hc].
Qed.

(** An assignment to [transform] keeps the weights in shape, whether it
    returns or raises. *)
Lemma set_transform_shaped (value : string) (w : W) :
  shaped w -> shaped (state_of (set_transform value w)).
Proof.
  intros Hs. unfold set_transform. generalize (upper value). intros name. run_M.
  assert (Hs1 : shaped (with__transform (Some name) w)) by exact Hs.
  revert Hs1. generalize (with__transform (Some name) w). clear w Hs.
  intros w Hs.
  destruct (has_key (transformations w) name) eqn:Hk.
  { apply has_key_true in Hk as [ws Hws]. unfold getitem. rewrite Hws. run_M.
    apply characteristics_shaped. split; [exact (proj2 Hs name ws Hws)|exact (proj2 Hs)]. }
  destruct (decide (name = "R")) as [HR|HR].
  { destruct (row_standardize (weights w)) as [err|ws] eqn:Hr; run_M; [done|].
    apply characteristics_shaped, shaped_store; [done|].
    by apply row_standardize_lengths. }
  destruct (decide (name = "D")) as [HD|HD].
  { rewrite bind_run.
    pose proof (characteristics_shaped w Hs) as Hs2.
    destruct (outcome_of (_characteristics w)) as [err|[]] eqn:Hok1; [done|].
    revert Hs2. generalize (state_of (_characteristics w)). intros w2 Hs2.
    unfold state_of at 1. cbn [fst]. run_M.
    destruct (doubly_standardize (weights w2) (s0 (chars w2))) as [err|ws] eqn:Hd;
      run_M; [done|].
    apply characteristics_shaped, shaped_store; [done|].
    by apply (doubly_standardize_lengths _ _ (s0 (chars w2))). }
  destruct (decide (name = "B")) as [HB|HB].
  { destruct (binarize (weights w)) as [err|ws] eqn:Hr; run_M; [done|].
    apply characteristics_shaped, shaped_store; [done|].
    by apply binarize_lengths. }
  destruct (decide (name = "V")) as [HV|HV].
  { destruct (variance_stabilize (weights w) (n (chars w))) as [err|ws] eqn:Hr;
      run_M; [done|].
    apply characteristics_shaped. split; [|exact (proj2 Hs)].
    apply (covers_same_lengths _ (weights w)); [apply Hs|].
    by apply (variance_stabilize_lengths _ _ (n (chars w))). }
  destruct (decide (name = "O")) as [HO|HO].
  { unfold has_key in Hk. unfold getitem.
    destruct (dict_find (transformations w) name); [done|]. by run_M. }
  done.
Qed.

(** The asymmetry check returns only on weights that cover the neighbor
    lists. *)
Lemma asymmetry_returns_covered (w : W) (nz : bool) :
  is_ok (asymmetry_of w nz) = true -> covers (neighbors w) (weights w).
Proof.
  intros Hok i ns Hi Hne.
  destruct (dict_find (weights w) i) as [wi|] eqn:Hwi.
  - exists wi. split; [done|].
    destruct (decide (length wi < length ns)%nat) as [Hlt|]; [|lia].
    by rewrite (asymmetry_short_raises w nz i ns wi) in Hok.
  - exfalso. destruct ns as [|j ns]; [done|].
    assert (Hr : is_ok (asymmetry_of w nz) = false); [|by rewrite Hr in Hok].
    unfold asymmetry_of, items.
    apply (foldM_raises _ _ _ (i, j :: ns)); [done|]. intros acc.
    unfold asymmetry_row.
    apply (foldM_raises _ _ _ (0%nat, j)); [by apply enumerate_elem|].
    intros acc'. unfold asymmetry_edge, getitem. by rewrite Hwi.
Qed.

(** The class call returns objects in shape. *)
Lemma new_W_shaped nb wt ord (w : W) : new_W Kle nb wt ord = Ok w -> shaped w.
Proof.
  intros (ws & _ & Hok & ->)%new_W_inv.
  cut (shaped (state_of (_characteristics (init_state Kle nb ws ord)))); [done|].
  apply characteristics_shaped.
  assert (Hc : covers nb ws).
  { apply characteristics_ok_inv in Hok
      as (a & s1v & s2v & mx & mn & mean & pct & asy & _ & _ & _ & _ & _ & _ & _ & Has & _).
    apply (asymmetry_returns_covered (init_state Kle nb ws ord) true).
    by rewrite Has. }
  split; [exact Hc|]. intros name ws'. cbn [transformations init_state].
  simpl. destruct (decide ("O" = name)); [by intros [= <-]|done].
Qed.

(** Every container a program can hold is in shape. *)
Lemma reachable_shaped (w : W) : reachable Kle w -> shaped w.
Proof.
  induction 1 as [nb wt ord w Hnew|value w _ IH|ids w _ IH|w _ IH].
  - by apply (new_W_shaped nb wt ord).
  - by apply set_transform_shaped.
  - revert IH. apply (set_id_order_keeps (shaped (K:=K) (F:=F))). by intros.
  - revert IH. apply (neighbor_offsets_keeps (shaped (K:=K) (F:=F))). by intros.
Qed.

(** The body of the inner loop of the check on weights that cover the
    neighbor lists. *)
Lemma asymmetry_edge_covered (w : W) (nz : bool) (i : K) (ns : list K)
    (acc : list (asym_entry K)) (pj : nat * K) :
  covers (neighbors w) (weights w) ->
  (i, ns) ∈ neighbors w ->
  pj ∈ enumerate ns ->
  asymmetry_edge w nz i acc pj = Ok (acc ++ edge_entry w nz i pj).
Proof.
  intros Hcov Hns Hpj. destruct pj as [pos j]. apply enumerate_elem in Hpj.
  destruct (Hcov i ns Hns) as (ws & Hws & Hlen).
  { intros ->. by rewrite lookup_nil in Hpj. }
  destruct (lookup_lt_is_Some_2 ws pos) as [wij Hwij].
  { apply lookup_lt_Some in Hpj. lia. }
  unfold asymmetry_edge, edge_entry, lists_neighbor, weight_at, reciprocal,
    getitem, list_getitem, list_index.
  cbn [fst snd]. rewrite Hws. simpl. rewrite Hwij. simpl.
  destruct (dict_find (neighbors w) j) as [nj|] eqn:Hnj.
  - destruct (index_of i nj) as [p|] eqn:Hp; simpl.
    + assert (Hin : contains i nj = true).
      { apply contains_true. apply index_of_Some in Hp.
        by apply list_elem_of_lookup_2 in Hp. }
      rewrite Hin.
      destruct (Hcov j nj) as (wj & Hwj & Hlenj).
      { by apply dict_find_Some_In. }
      { intros ->. by apply index_of_Some in Hp. }
      rewrite Hwj. simpl. rewrite Hp. simpl.
      destruct (lookup_lt_is_Some_2 wj p) as [wji Hwji].
      { apply index_of_Some, lookup_lt_Some in Hp. lia. }
      rewrite Hwji. unfold weight_at. rewrite Hwj. simpl. rewrite Hwji.
      destruct (negb nz && ne wij wji); [done|]. by rewrite app_nil_r.
    + assert (Hin : contains i nj = false).
      { apply contains_false. by apply index_of_None. }
      rewrite Hin, ?Hp. by destruct (dict_find (weights w) j).
  - simpl. by destruct (dict_find (weights w) j).
Qed.

(** C7 (amended).  On every container a program can hold,
    [asymmetry(nonzero)] returns, leaves the object alone and prints
    nothing.  Its result has one entry per offending directed edge: the
    entry [((i,j), ())] when [j] does not list [i]; the entry
    [((i,j),(j,i))] when [j] lists [i], [nonzero] is false and the two
    weights differ; nothing otherwise, so with [nonzero] true an edge whose
    reciprocal exists is never reported.  The entries come in the order in
    which the mapping [neighbors] enumerates its ids, whatever the
    iteration order [id_order] is, and within an id in the order of its
    neighbor list. *)
Theorem C7_asymmetry (w : W) (nonzero : bool) :
  reachable Kle w ->
  asymmetry nonzero w = (w, [], Ok (asymmetry_spec w nonzero)).
Proof.
  intros [Hcov _]%reachable_shaped. unfold asymmetry. f_equal.
  unfold asymmetry_of, asymmetry_spec.
  rewrite (foldM_appends _ (fun item : K * list K =>
             enumerate item.2 ≫= edge_entry w nonzero item.1)); [done|].
  intros acc [i ns] Hin. unfold asymmetry_row. cbn [fst snd].
  apply foldM_appends. intros acc' pj Hpj.
  by apply (asymmetry_edge_covered w nonzero i ns).
Qed.

End shape_facts.

Lemma C7_witness :
  asymmetry false (state_of (set_transform "r" doc_W)) =
  (state_of (set_transform "r" doc_W), [],
   Ok (asymmetry_spec (state_of (set_transform "r" doc_W)) false)).
Proof.
  apply (C7_asymmetry Z.le).
  apply reach_set_transform.
  apply (reach_new Z.le doc_neighbors (Some doc_weights) None).
  vm_compute. reflexivity.
Defined.

(** C7, counterexample.  The container built from neighbors
    [{0:[1],1:[2],2:[]}] with the order [[2; 1; 0]] has two edges without
    a reciprocal.  The check reports the one from 0 first, as [neighbors]
    enumerates its ids; the iteration order has id 1 before id 0. *)
Lemma C7_counterexample : ~ asymmetry_follows_id_order.
Proof.
  intros Hc. specialize (Hc reversed_order_W true).
  assert (Hr : reachable Z.le reversed_order_W).
  { apply (reach_new Z.le reversed_neighbors None (Some [2; 1; 0])).
    vm_compute. reflexivity. }
  specialize (Hc Hr). vm_compute in Hc. discriminate Hc.
Qed.

Example reversed_order_asymmetry :
  _id_order reversed_order_W = [2; 1; 0] /\
  outcome_of (asymmetry true reversed_order_W) = Ok [((0, 1), None); ((1, 2), None)] /\
  asymmetry_in_id_order reversed_order_W true = [((1, 2), None); ((0, 1), None)].
Proof. vm_compute. repeat split; reflexivity. Qed.


(** The comparison of an integer with a float is exact: [2**53 + 1] is
    not [2.0**53], to which it rounds. *)
Example mixed_comparison_exact :
  ne (PyInt (2 ^ 53 + 1)) (PyFloat (float_of_Z (2 ^ 53))) = true /\
  ne (PyInt (2 ^ 53)) (PyFloat (float_of_Z (2 ^ 53))) = false /\
  ne (PyFloat (float_of_Z 4)) (PyInt 4) = false /\
  ne (PyInt (-3)) (PyFloat (float_of_Z (-3))) = false /\
  ne (PyInt 0) (quot (PyFloat (float_of_Z 1)) (PyFloat (float_of_Z 2))) = true /\
  ne (PyInt 0) (PyFloat (float_of_Z 0)) = false.
Proof. vm_compute. repeat split; reflexivity. Qed.

(** Which exception a weight list that is too short brings about depends
    on what the characteristics pass meets first: the read of the missing
    weight, the lookup of a neighbor that is no id, or, with an empty
    iteration order, the maximum of no cardinality. *)
Example short_weights_exceptions :
  new_W Z.le surplus_neighbors (Some [(0, [PyInt 1]); (1, [])]) None = Raise IndexError /\
  new_W Z.le [(0, [1])] (Some [(0, @nil pynum)]) None = Raise KeyError /\
  new_W Z.le surplus_neighbors (Some [(0, [PyInt 1]); (1, [])]) (Some []) = Raise ValueError.
Proof. vm_compute. repeat split; reflexivity. Qed.



(** ** Further evaluations *)

(** The docstring container has distinct ids and the default order, so that
    the edges its pass visits are the stored ones. *)
Example doc_visits_stored :
  NoDup (keys (neighbors doc_W)) /\
  _id_order doc_W ≡ₚ keys (neighbors doc_W) /\
  visited_edges doc_W = stored_edges doc_W.
Proof.
  split; [apply (bool_decide_unpack _); vm_compute; exact I|].
  split; vm_compute; reflexivity.
Qed.

(** After the order [[0; 1; 2; 2]] the pass visits the edge from 2 to 1
    twice: on the binary weights [s1] is [20.0 / 2], and one half of the
    sum over the four stored directed edges is [16.0 / 2]. *)
Example repeated_id_s1 :
  let w := state_of (set_transform "b" (state_of (__set_id_order [0; 1; 2; 2] chain_W))) in
  s1 (chars w) = quot (PyFloat (float_of_Z 20)) (PyFloat (float_of_Z 2)) /\
  quot (sum_sq_edges w (pyfloat 0) (stored_edges w)) (pyfloat 2) =
    quot (PyFloat (float_of_Z 16)) (PyFloat (float_of_Z 2)).
Proof. vm_compute. split; reflexivity. Qed.

(** The container with an island and default weights has weight lists of
    the lengths of its neighbor lists; id 2 is its island. *)
Example island_W_aligned :
  aligned island_W /\ dict_find (neighbors island_W) 2 = Some [].
Proof. split; [apply aligned_check_sound|]; vm_compute; reflexivity. Qed.
